(** * Double-entry reconciliation engine of [financial_planning]

    A shallow embedding of the Python sources

      - [merge/commbank_tools.py]
          (class [EnhancedDoubleEntryAccountingSystem]),
      - [merge/financial_planning/transaction_processor.py]
          (class [TransactionProcessor]),
      - [merge/financial_planning/exporter.py] (class [Exporter]),
      - [merge/financial_planning/file_loader.py] (class [FileLoader]),

    followed by the properties of the specification, one theorem per
    claim, and by further properties of the code.

    Conventions of the embedding.

      - A Python [str] is a [string]; the text is taken to be ASCII.
      - A Python [float] is a [pyfloat]: an exact rational, or one of the
        three IEEE special values.  Rounding to binary64, overflow of huge
        literals and the sign of zero are not represented.
      - A [dict] keyed by account name is a [gmap string _]; the ordered
        category table is an association list.
      - Methods run in a state-and-exception monad over the object
        ([processor]); [uuid.uuid4()] and [datetime.now()] read oracles
        carried by the state, and [print] appends to [stdout]. *)

From Stdlib Require Import ZArith QArith Qcanon Qcabs Ascii String List Lia.
From stdpp Require Import base numbers option list gmap strings fin_maps.

Local Open Scope string_scope.
Local Open Scope Z_scope.

(* ===================================================================== *)
(** ** Python floats *)
(* ===================================================================== *)

Inductive pyfloat : Type :=
  | Finite (q : Qc)
  | PInf
  | NInf
  | NaN.

Module PyFloat.

Definition of_Z (z : Z) : pyfloat := Finite (Q2Qc (inject_Z z)).

(** [m / 10^k], the value of a decimal literal such as [45.00]. *)
Definition decimal (m : Z) (k : nat) : pyfloat :=
  Finite (Q2Qc (Qmake m (Z.to_pos (10 ^ Z.of_nat k)))).

Definition zero : pyfloat := of_Z 0.

(** The literal [0.01] used as tolerance throughout the sources. *)
Definition cent : pyfloat := Finite (Q2Qc (Qmake 1 100)).

Definition neg (x : pyfloat) : pyfloat :=
  match x with
  | Finite q => Finite (- q)%Qc
  | PInf => NInf
  | NInf => PInf
  | NaN => NaN
  end.

Definition abs (x : pyfloat) : pyfloat :=
  match x with
  | Finite q => Finite (Qcabs q)
  | PInf | NInf => PInf
  | NaN => NaN
  end.

Definition add (x y : pyfloat) : pyfloat :=
  match x, y with
  | NaN, _ | _, NaN => NaN
  | Finite a, Finite b => Finite (a + b)%Qc
  | PInf, NInf | NInf, PInf => NaN
  | PInf, _ | _, PInf => PInf
  | NInf, _ | _, NInf => NInf
  end.

Definition sub (x y : pyfloat) : pyfloat := add x (neg y).

(** Three-way comparison; [None] when an operand is NaN, for which every
    ordered comparison and [==] answer [False]. *)
Definition cmp (x y : pyfloat) : option comparison :=
  match x, y with
  | NaN, _ | _, NaN => None
  | Finite a, Finite b => Some (a ?= b)%Qc
  | PInf, PInf | NInf, NInf => Some Eq
  | PInf, _ | _, NInf => Some Gt
  | NInf, _ | _, PInf => Some Lt
  end.

Definition ltb (x y : pyfloat) : bool :=
  match cmp x y with Some Lt => true | _ => false end.
Definition gtb (x y : pyfloat) : bool := ltb y x.
Definition eqb (x y : pyfloat) : bool :=
  match cmp x y with Some Eq => true | _ => false end.
Definition leb (x y : pyfloat) : bool :=
  match cmp x y with Some Lt | Some Eq => true | _ => false end.
Definition neb (x y : pyfloat) : bool := negb (eqb x y).

Definition is_finite (x : pyfloat) : bool :=
  match x with Finite _ => true | _ => false end.

(** The builtin [sum]: a left fold of [+] starting from the int [0]. *)
Definition sum (l : list pyfloat) : pyfloat := fold_left add l zero.

End PyFloat.

(* ===================================================================== *)
(** ** Python strings *)
(* ===================================================================== *)

Module PyStr.

Definition code (c : ascii) : nat := nat_of_ascii c.

Definition is_digit (c : ascii) : bool :=
  (Nat.leb 48 (code c) && Nat.leb (code c) 57)%bool.

Definition digit_val (c : ascii) : Z := Z.of_nat (code c) - 48.

(** [str.isspace] restricted to ASCII: TAB..CR, FS..US and the space. *)
Definition is_space (c : ascii) : bool :=
  ((Nat.leb 9 (code c) && Nat.leb (code c) 13)
   || (Nat.leb 28 (code c) && Nat.leb (code c) 32))%bool.

Definition upper_char (c : ascii) : ascii :=
  if (Nat.leb 97 (code c) && Nat.leb (code c) 122)%bool
  then ascii_of_nat (code c - 32) else c.

Definition eqc (a b : ascii) : bool := Ascii.eqb a b.

(** The double quote, character 34. *)
Definition dquote : ascii :=
  Ascii false true false false false true false false.

Definition chars (s : string) : list ascii := list_ascii_of_string s.
Definition str (l : list ascii) : string := string_of_list_ascii l.

(** [s.upper()] *)
Definition upper (s : string) : string := str (map upper_char (chars s)).

(** [s.startswith(p)] *)
Definition startswith (p s : string) : bool := String.prefix p s.

(** [s.endswith(p)] *)
Definition endswith (p s : string) : bool :=
  String.prefix (str (rev (chars p))) (str (rev (chars s))).

(** [needle in hay] *)
Fixpoint contains (needle hay : string) : bool :=
  match hay with
  | EmptyString => String.prefix needle EmptyString
  | String _ rest => (String.prefix needle hay || contains needle rest)%bool
  end.

(** [s.replace(c, '')] for a one-character [c]. *)
Definition remove_char (c : ascii) (s : string) : string :=
  str (List.filter (fun x => negb (eqc x c)) (chars s)).

Fixpoint lstrip_by (p : ascii -> bool) (l : list ascii) : list ascii :=
  match l with
  | [] => []
  | c :: l' => if p c then lstrip_by p l' else l
  end.

Definition strip_by (p : ascii -> bool) (l : list ascii) : list ascii :=
  rev (lstrip_by p (rev (lstrip_by p l))).

(** [s.strip(c)] for a one-character [c]. *)
Definition strip_char (c : ascii) (s : string) : string :=
  str (strip_by (fun x => eqc x c) (chars s)).

(** [s[1:-1]] *)
Definition slice_1_m1 (s : string) : string :=
  str (removelast (tl (chars s))).

(** [s.split()]: the maximal runs of non-whitespace characters. *)
Fixpoint split_ws_aux (cur : list ascii) (l : list ascii) : list string :=
  match l with
  | [] => match cur with [] => [] | _ => [str (rev cur)] end
  | c :: l' =>
      if is_space c
      then match cur with
           | [] => split_ws_aux [] l'
           | _ => str (rev cur) :: split_ws_aux [] l'
           end
      else split_ws_aux (c :: cur) l'
  end.

Definition split_ws (s : string) : list string := split_ws_aux [] (chars s).

(** [sep.join(parts)] *)
Definition join (sep : string) (parts : list string) : string :=
  String.concat sep parts.

(** [s.split(c)] for a one-character separator: always at least one
    field. *)
Fixpoint split_on_aux (sep : ascii) (cur : list ascii) (l : list ascii)
  : list (list ascii) :=
  match l with
  | [] => [rev cur]
  | c :: l' =>
      if eqc c sep then rev cur :: split_on_aux sep [] l'
      else split_on_aux sep (c :: cur) l'
  end.

Definition split_on (sep : ascii) (l : list ascii) : list (list ascii) :=
  split_on_aux sep [] l.

(** The longest prefix of digits, and the rest. *)
Fixpoint span_digits (l : list ascii) : list ascii * list ascii :=
  match l with
  | [] => ([], [])
  | c :: l' =>
      if is_digit c
      then let '(ds, r) := span_digits l' in (c :: ds, r)
      else ([], l)
  end.

Definition digits_value (ds : list ascii) : Z :=
  fold_left (fun acc c => 10 * acc + digit_val c) ds 0.

End PyStr.

(* ===================================================================== *)
(** ** The builtin [float(str)] *)
(* ===================================================================== *)

(** The grammar CPython accepts: surrounding whitespace, an optional sign,
    then [inf], [infinity] or [nan] in any case, or a decimal numeral with
    an optional fraction and exponent; single underscores may separate
    digits.  [None] stands for [ValueError]. *)
Module PyBuiltinFloat.
Import PyStr.

(** Underscores must stand between two digits. *)
Fixpoint underscores_ok (prev : option ascii) (l : list ascii) : bool :=
  match l with
  | [] => true
  | c :: l' =>
      if eqc c "_"
      then (match prev with Some p => is_digit p | None => false end
            && match l' with d :: _ => is_digit d | [] => false end
            && underscores_ok (Some c) l')%bool
      else underscores_ok (Some c) l'
  end.

Definition split_sign (l : list ascii) : Z * list ascii :=
  match l with
  | c :: l' =>
      if eqc c "-" then (-1, l')
      else if eqc c "+" then (1, l')
      else (1, l)
  | [] => (1, [])
  end.

(** [m * 10^k] *)
Definition scale (m k : Z) : Qc :=
  if 0 <=? k then Q2Qc (inject_Z (m * 10 ^ k))
  else Q2Qc (Qmake m (Z.to_pos (10 ^ (- k)))).

Definition is_e (c : ascii) : bool := (eqc c "e" || eqc c "E")%bool.

(** The exponent part, possibly empty: [e] or [E], an optional sign,
    digits. *)
Definition parse_exponent (l : list ascii) : option Z :=
  match l with
  | [] => Some 0
  | c :: r =>
      if is_e c then
        let '(sg, r') := split_sign r in
        let '(ep, rest) := span_digits r' in
        match ep, rest with
        | _ :: _, [] => Some (sg * digits_value ep)
        | _, _ => None
        end
      else None
  end.

(** An unsigned decimal numeral: digits, an optional point and more
    digits, with at least one digit in all, and the exponent part. *)
Definition parse_decimal (l : list ascii) : option Qc :=
  let '(ip, r1) := span_digits l in
  let '(fp, r2) :=
    match r1 with
    | c :: r => if eqc c "." then span_digits r else ([], r1)
    | [] => ([], r1)
    end in
  match (ip ++ fp)%list with
  | [] => None
  | ds =>
      match parse_exponent r2 with
      | Some e => Some (scale (digits_value ds) (e - Z.of_nat (length fp)))
      | None => None
      end
  end.

Definition parse_unsigned (l : list ascii) : option pyfloat :=
  let u := upper (str l) in
  if (String.eqb u "INF" || String.eqb u "INFINITY")%bool then Some PInf
  else if String.eqb u "NAN" then Some NaN
  else Finite <$> parse_decimal l.

Definition float (s : string) : option pyfloat :=
  let l := strip_by is_space (chars s) in
  if underscores_ok None l then
    let l' := List.filter (fun c => negb (eqc c "_")) l in
    let '(sg, body) := split_sign l' in
    match parse_unsigned body with
    | Some v => Some (if sg =? 1 then v else PyFloat.neg v)
    | None => None
    end
  else None.

End PyBuiltinFloat.

(* ===================================================================== *)
(** ** [datetime] *)
(* ===================================================================== *)

(** A naive [datetime]: a proleptic Gregorian calendar date and the time of
    day in microseconds. *)
Record datetime : Type := mk_datetime {
  year : Z;
  month : Z;
  day : Z;
  micros : Z
}.

Module PyDatetime.
Import PyStr.

Definition is_leap (y : Z) : bool :=
  ((y mod 4 =? 0) && (negb (y mod 100 =? 0) || (y mod 400 =? 0)))%bool.

Definition days_in_month (y m : Z) : Z :=
  if m =? 2 then (if is_leap y then 29 else 28)
  else if ((m =? 4) || (m =? 6) || (m =? 9) || (m =? 11))%bool then 30
  else 31.

Definition days_before_year (y : Z) : Z :=
  let y' := y - 1 in y' * 365 + y' / 4 - y' / 100 + y' / 400.

Fixpoint days_before_month_aux (y : Z) (m : nat) : Z :=
  match m with
  | O => 0
  | S m' => days_before_month_aux y m' + days_in_month y (Z.of_nat m)
  end.

Definition days_before_month (y m : Z) : Z :=
  days_before_month_aux y (Z.to_nat (m - 1)).

(** [date.toordinal()]: 0001-01-01 is day 1. *)
Definition toordinal (d : datetime) : Z :=
  days_before_year (year d) + days_before_month (year d) (month d) + day d.

Definition us_per_day : Z := 86400000000.

(** Microseconds since the start of day 0; [datetime] comparisons are
    comparisons of this number. *)
Definition timestamp (d : datetime) : Z :=
  toordinal d * us_per_day + micros d.

Definition min_ordinal : Z := 1.
Definition max_ordinal : Z := 3652059.

Definition midnight (y m d : Z) : datetime := mk_datetime y m d 0.

Definition parse_day (f : list ascii) : option Z :=
  match f with
  | [d] => if (is_digit d && negb (eqc d "0"))%bool
           then Some (digit_val d) else None
  | [a; b] =>
      if eqc a " " then
        (if (is_digit b && negb (eqc b "0"))%bool
         then Some (digit_val b) else None)
      else if (is_digit a && is_digit b)%bool then
        let v := 10 * digit_val a + digit_val b in
        if ((1 <=? v) && (v <=? 31))%bool then Some v else None
      else None
  | _ => None
  end.

Definition parse_month (f : list ascii) : option Z :=
  match f with
  | [d] => if (is_digit d && negb (eqc d "0"))%bool
           then Some (digit_val d) else None
  | [a; b] =>
      if (is_digit a && is_digit b)%bool then
        let v := 10 * digit_val a + digit_val b in
        if ((1 <=? v) && (v <=? 12))%bool then Some v else None
      else None
  | _ => None
  end.

Definition parse_year (f : list ascii) : option Z :=
  match f with
  | [a; b; c; d] =>
      if forallb is_digit f then Some (digits_value f) else None
  | _ => None
  end.

(** [datetime.strptime(s, "%d/%m/%Y")]; [None] stands for
    [ValueError]. *)
Definition strptime_dmy (s : string) : option datetime :=
  match split_on "/" (chars s) with
  | [fd; fm; fy] =>
      match parse_day fd, parse_month fm, parse_year fy with
      | Some d, Some m, Some y =>
          if ((1 <=? y) && (d <=? days_in_month y m))%bool
          then Some (midnight y m d) else None
      | _, _, _ => None
      end
  | _ => None
  end.

Definition pad2 (n : Z) : string :=
  str [ascii_of_nat (48 + Z.to_nat (n / 10));
       ascii_of_nat (48 + Z.to_nat (n mod 10))].

Definition pad4 (n : Z) : string :=
  pad2 (n / 100) ++ pad2 (n mod 100).

(** [d.strftime('%Y-%m-%d')], the year padded to four digits as the
    library reference has it (the C library of Linux leaves years below
    1000 unpadded). *)
Definition strftime_ymd (d : datetime) : string :=
  pad4 (year d) ++ "-" ++ pad2 (month d) ++ "-" ++ pad2 (day d).

End PyDatetime.

(* ===================================================================== *)
(** ** Data model *)
(* ===================================================================== *)

Inductive account_type : Type := ASSET | LIABILITY | EXPENSE | INCOME | EQUITY.

Inductive entry_type : Type := DEBIT | CREDIT.

(** The object's class: the two classes share most method bodies, and
    differ where noted. *)
Inductive pyclass : Type :=
  | EnhancedSystemClass
  | TransactionProcessorClass.

(** One value of the [accounts] dict: keys ['name'], ['type'], ['id'],
    ['api_type']. *)
Record account : Type := mk_account {
  acct_name : string;
  acct_type : account_type;
  acct_id : option string;
  acct_api_type : option string
}.

(** The ['date'] of a transaction: what [parse_date] returned. *)
Inductive pydate : Type :=
  | Date (d : datetime)
  | DateText (s : string).

(** One element of [raw_transactions].  The key ['processed'] is absent
    until it is set to [True]; [tx_processed] is [false] while absent. *)
Record raw_transaction : Type := mk_raw {
  tx_source_file : string;
  tx_date : pydate;
  tx_amount : pyfloat;
  tx_description : string;
  tx_balance : option pyfloat;
  tx_account : string;
  tx_category : string;
  tx_is_transfer : bool;
  tx_account_reference : option string;
  tx_processed : bool
}.

Record entry : Type := mk_entry {
  e_account : string;
  e_amount : pyfloat;
  e_type : entry_type
}.

(** One element of [processed_transactions]. *)
Record journal_record : Type := mk_processed {
  pt_id : string;
  pt_date : pydate;
  pt_description : string;
  pt_category : string;
  pt_entries : list entry
}.

Record unified_entry : Type := mk_unified_entry {
  ue_account : string;
  ue_account_name : string;
  ue_amount : pyfloat;
  ue_type : entry_type
}.

(** One element of [unified_transactions]; ['balances'] is a copy of the
    balances dict. *)
Record unified_transaction : Type := mk_unified {
  ut_id : string;
  ut_date : string;
  ut_description : string;
  ut_category : string;
  ut_entries : list unified_entry;
  ut_balances : gmap string pyfloat
}.

(** A row as [FileLoader] returns it, the input of
    [TransactionProcessor.verify_double_entry_accounting]. *)
Record loaded_row : Type := mk_loaded_row {
  lr_date : pydate;
  lr_amount : pyfloat;
  lr_description : string;
  lr_account_id : string
}.

(** What the methods print, with the values that the text is formatted
    from. *)
Inductive event : Type :=
  | LookingForMatchingTransfer (date : datetime) (abs_amount : pyfloat)
      (description : string)
  | FoundMatch (date : pydate) (abs_amount : pyfloat) (description : string)
  | NoMatchFound
  | NotBalancedWarning (id description : string)
      (total_debits total_credits difference : pyfloat) (entries : list entry)
  | DoubleEntryVerification (total_debits total_credits difference : pyfloat)
  | VerifyingHeader
  | VerifyingRow (row : loaded_row) (account_type : option account_type)
      (abs_amount balance : pyfloat)
  | VerifyingSummary (balances : list (string * pyfloat))
      (total_debits total_credits difference : pyfloat) (is_balanced : bool).

(** The attributes of the object.  [pending_transfers] is assigned [[]] by
    [__init__] and never used again; it is left out. *)
Record processor : Type := mk_processor {
  cls : pyclass;
  accounts : gmap string account;
  categories : list (string * list string);
  raw_transactions : list raw_transaction;
  processed_transactions : list journal_record;
  unified_transactions : list unified_transaction;
  account_balances : gmap string pyfloat
}.

(** The world outside the object: standard output, and the successive
    results of [uuid.uuid4()] and [datetime.now()]. *)
Record env : Type := mk_env {
  stdout : list event;
  uuid_oracle : nat -> string;
  uuid_calls : nat;
  clock_oracle : nat -> datetime;
  clock_calls : nat
}.

Inductive exn : Type :=
  | KeyError (key : string)
  | OverflowError.

(* ===================================================================== *)
(** ** The monad of methods *)
(* ===================================================================== *)

Inductive result (A : Type) : Type :=
  | Raise (e : exn)
  | Return (a : A) (self : processor) (w : env).
Arguments Raise {A} e.
Arguments Return {A} a self w.

Definition M (A : Type) : Type := processor -> env -> result A.

Definition ret {A} (a : A) : M A := fun self w => Return a self w.

Definition bind {A B} (c : M A) (k : A -> M B) : M B :=
  fun self w =>
    match c self w with
    | Raise e => Raise e
    | Return a self' w' => k a self' w'
    end.

Notation "'let*' x ':=' c 'in' k" := (bind c (fun x => k))
  (at level 10, x name, c at level 100, k at level 200).
Notation "c ';;' k" := (bind c (fun _ => k))
  (at level 100, k at level 200, right associativity).

Definition raise {A} (e : exn) : M A := fun _ _ => Raise e.

Definition get_self : M processor := fun self w => Return self self w.

Definition put_self (self' : processor) : M unit :=
  fun _ w => Return tt self' w.

Definition print (ev : event) : M unit :=
  fun self w =>
    Return tt self
      (mk_env (stdout w ++ [ev])%list (uuid_oracle w) (uuid_calls w)
         (clock_oracle w) (clock_calls w)).

(** [str(uuid.uuid4())] *)
Definition uuid4 : M string :=
  fun self w =>
    Return (uuid_oracle w (uuid_calls w)) self
      (mk_env (stdout w) (uuid_oracle w) (S (uuid_calls w))
         (clock_oracle w) (clock_calls w)).

(** [datetime.now()] *)
Definition datetime_now : M datetime :=
  fun self w =>
    Return (clock_oracle w (clock_calls w)) self
      (mk_env (stdout w) (uuid_oracle w) (uuid_calls w)
         (clock_oracle w) (S (clock_calls w))).

Definition when (b : bool) (c : M unit) : M unit := if b then c else ret tt.

(** [for x in l: body x] *)
Fixpoint for_each {A} (l : list A) (body : A -> M unit) : M unit :=
  match l with
  | [] => ret tt
  | x :: l' => body x ;; for_each l' body
  end.

(** [[f x for x in l]] with an effectful [f]. *)
Fixpoint map_M {A B} (f : A -> M B) (l : list A) : M (list B) :=
  match l with
  | [] => ret []
  | x :: l' => let* y := f x in let* ys := map_M f l' in ret (y :: ys)
  end.

(** Attribute updates. *)
Definition set_raw_transactions (v : list raw_transaction) (p : processor) :=
  mk_processor (cls p) (accounts p) (categories p) v
    (processed_transactions p) (unified_transactions p) (account_balances p).
Definition set_processed_transactions (v : list journal_record)
  (p : processor) :=
  mk_processor (cls p) (accounts p) (categories p) (raw_transactions p)
    v (unified_transactions p) (account_balances p).
Definition set_unified_transactions (v : list unified_transaction)
  (p : processor) :=
  mk_processor (cls p) (accounts p) (categories p) (raw_transactions p)
    (processed_transactions p) v (account_balances p).
Definition set_account_balances (v : gmap string pyfloat) (p : processor) :=
  mk_processor (cls p) (accounts p) (categories p) (raw_transactions p)
    (processed_transactions p) (unified_transactions p) v.

(** [self.accounts[key]] *)
Definition accounts_getitem (key : string) : M account :=
  let* self := get_self in
  match accounts self !! key with
  | Some a => ret a
  | None => raise (KeyError key)
  end.

(** [sorted(l, key=...)] on keys already computed: the stable sort, by
    insertion after the elements whose key is not greater. *)
Fixpoint insert_sorted {A} (k : Z) (x : A) (l : list (Z * A)) : list (Z * A) :=
  match l with
  | [] => [(k, x)]
  | (k', y) :: l' =>
      if k <? k' then (k, x) :: l else (k', y) :: insert_sorted k x l'
  end.

Definition sorted_by_key {A} (l : list (Z * A)) : list A :=
  map snd (fold_left (fun acc kx => insert_sorted (fst kx) (snd kx) acc) l []).

(** The sort key [x['date'] if isinstance(x['date'], datetime) else
    datetime.now()], as a timestamp. *)
Definition date_sort_key (d : pydate) : M Z :=
  match d with
  | Date dt => ret (PyDatetime.timestamp dt)
  | DateText _ => let* n := datetime_now in ret (PyDatetime.timestamp n)
  end.

(* ===================================================================== *)
(** ** Normalizer and classifier

    [parse_date], [parse_amount], [clean_description],
    [categorize_transaction], [is_transfer], [extract_account_reference]
    and [find_account_by_reference] have the same body in both classes. *)
(* ===================================================================== *)

(** A CSV cell or any other argument: [isinstance(x, str)] or not. *)
Inductive cell : Type :=
  | Text (s : string)
  | Number (x : pyfloat).

Definition parse_date (date_str : string) : pydate :=
  match PyDatetime.strptime_dmy date_str with
  | Some d => Date d
  | None => DateText date_str
  end.

Definition parse_amount (amount_str : cell) : pyfloat :=
  match amount_str with
  | Text s =>
      let s := PyStr.remove_char "," s in
      let s :=
        if (PyStr.startswith "(" s && PyStr.endswith ")" s)%bool
        then "-" ++ PyStr.slice_1_m1 s else s in
      let s := PyStr.strip_char PyStr.dquote s in
      match PyBuiltinFloat.float s with
      | Some x => x
      | None => PyFloat.zero
      end
  | Number x => x
  end.

Definition clean_description (description : cell) : string :=
  match description with
  | Text s =>
      let s := PyStr.strip_char PyStr.dquote s in
      PyStr.join " " (PyStr.split_ws s)
  | Number _ => ""
  end.

Definition categorize_transaction (categories : list (string * list string))
  (description : string) : string :=
  let description_upper := PyStr.upper description in
  match
    find (fun '(_, keywords) =>
            existsb (fun keyword =>
                       PyStr.contains (PyStr.upper keyword) description_upper)
              keywords)
      categories
  with
  | Some (category, _) => category
  | None => "uncategorized"
  end.

Definition transfer_keywords : list string :=
  ["TRANSFER TO"; "TRANSFER FROM"; "BPAY"; "NETBANK"; "COMMBANK APP"].

Definition is_transfer (description : string) : bool :=
  let description_upper := PyStr.upper description in
  existsb (fun keyword => PyStr.contains (PyStr.upper keyword) description_upper)
    transfer_keywords.

(** [re.search(r'xx(\d+)', description)], returning [group(0)]: the
    leftmost ["xx"] that a digit follows, with all the digits after it. *)
Fixpoint search_xx_digits (l : list ascii) : option (list ascii) :=
  match l with
  | [] => None
  | c :: l' =>
      match l with
      | c1 :: c2 :: r =>
          if (PyStr.eqc c1 "x" && PyStr.eqc c2 "x")%bool then
            match PyStr.span_digits r with
            | ((_ :: _) as ds, _) => Some (c1 :: c2 :: ds)
            | _ => search_xx_digits l'
            end
          else search_xx_digits l'
      | _ => None
      end
  end.

Definition extract_account_reference (description : string) : option string :=
  PyStr.str <$> search_xx_digits (PyStr.chars description).

(** Python truthiness of [None] or a [str]. *)
Definition truthy (o : option string) : bool :=
  match o with
  | Some s => negb (String.eqb s "")
  | None => false
  end.

Definition find_account_by_reference (account_reference : option string)
  : option string :=
  match account_reference with
  | Some r =>
      if String.eqb r "" then None
      else if String.eqb r "xx5784" then Some "credit_card"
      else if String.eqb r "xx9070" then Some "debit"
      else if String.eqb r "xx1893" then Some "emergency_fund"
      else if String.eqb r "xx1212" then Some "old_credit_card"
      else if String.eqb r "xx2467" then Some "saver"
      else None
  | None => None
  end.

(* ===================================================================== *)
(** ** Journal builder *)
(* ===================================================================== *)

(** The condition of the [if] inside the loop of [find_matching_transfer],
    together with the [continue] on processed records before it. *)
Definition matches_transfer (transaction : raw_transaction) (amount : pyfloat)
  (date_range_start date_range_end : Z) (other_tx : raw_transaction) : bool :=
  (negb (tx_processed other_tx)
   && negb (String.eqb (tx_account other_tx) (tx_account transaction))
   && match tx_date other_tx with
      | Date d =>
          (date_range_start <=? PyDatetime.timestamp d)
          && (PyDatetime.timestamp d <=? date_range_end)
      | DateText _ => false
      end
   && PyFloat.eqb (PyFloat.abs (tx_amount other_tx)) (PyFloat.abs amount)
   && Bool.eqb (PyFloat.ltb (tx_amount other_tx) PyFloat.zero)
        (PyFloat.gtb (tx_amount transaction) PyFloat.zero))%bool.

(** The position and the value of the first element satisfying [f]. *)
Fixpoint find_index {A} (f : A -> bool) (l : list A) : option (nat * A) :=
  match l with
  | [] => None
  | x :: l' =>
      if f x then Some (O, x)
      else match find_index f l' with
           | Some (i, y) => Some (S i, y)
           | None => None
           end
  end.

(** [d - timedelta(days=2)] and [d + timedelta(days=2)], as timestamps;
    [OverflowError] when the result leaves the years 1..9999. *)
Definition two_days_around (d : datetime) : M (Z * Z) :=
  let o := PyDatetime.toordinal d in
  if (o - 2 <? PyDatetime.min_ordinal)%Z then raise OverflowError
  else if (PyDatetime.max_ordinal <? o + 2)%Z then raise OverflowError
  else ret (PyDatetime.timestamp d - 2 * PyDatetime.us_per_day,
            PyDatetime.timestamp d + 2 * PyDatetime.us_per_day).

(** Returns the matching element of [self.raw_transactions] with its
    position: the caller mutates that very element.  Only
    [TransactionProcessor] prints. *)
Definition find_matching_transfer (transaction : raw_transaction)
  (amount : pyfloat) : M (option (nat * raw_transaction)) :=
  match tx_date transaction with
  | DateText _ => ret None
  | Date d =>
      let* range := two_days_around d in
      let date_range_start := fst range in
      let date_range_end := snd range in
      let* self := get_self in
      let verbose :=
        match cls self with
        | TransactionProcessorClass => true
        | EnhancedSystemClass => false
        end in
      when verbose
        (print (LookingForMatchingTransfer d (PyFloat.abs amount)
                  (tx_description transaction))) ;;
      match
        find_index
          (matches_transfer transaction amount date_range_start
             date_range_end)
          (raw_transactions self)
      with
      | Some (i, other_tx) =>
          when verbose
            (print (FoundMatch (tx_date other_tx)
                      (PyFloat.abs (tx_amount other_tx))
                      (tx_description other_tx))) ;;
          ret (Some (i, other_tx))
      | None =>
          when verbose (print NoMatchFound) ;;
          ret None
      end
  end.

Definition _add_entry (processed_transaction : journal_record)
  (account : string) (amount : pyfloat) (entry_type : entry_type)
  : journal_record :=
  mk_processed (pt_id processed_transaction) (pt_date processed_transaction)
    (pt_description processed_transaction)
    (pt_category processed_transaction)
    (pt_entries processed_transaction
       ++ [mk_entry account amount entry_type])%list.

Definition _handle_transfer_debit (processed_transaction : journal_record)
  (transaction : raw_transaction) : journal_record :=
  let amount := tx_amount transaction in
  let account_reference := tx_account_reference transaction in
  match
    (if truthy account_reference
     then find_account_by_reference account_reference else None)
  with
  | Some dest_account =>
      if truthy (Some dest_account)
      then _add_entry processed_transaction dest_account (PyFloat.abs amount)
             DEBIT
      else _add_entry processed_transaction "transfer" (PyFloat.abs amount)
             DEBIT
  | None =>
      _add_entry processed_transaction "transfer" (PyFloat.abs amount) DEBIT
  end.

(** [matching_transfer['processed'] = True] on the element at position
    [i]. *)
Definition mark_processed (i : nat) : M unit :=
  let* self := get_self in
  put_self
    (set_raw_transactions
       (alter (fun t =>
                 mk_raw (tx_source_file t) (tx_date t) (tx_amount t)
                   (tx_description t) (tx_balance t) (tx_account t)
                   (tx_category t) (tx_is_transfer t)
                   (tx_account_reference t) true)
          i (raw_transactions self))
       self).

Definition _handle_transfer_credit
  (processed_transaction : journal_record)
  (transaction : raw_transaction) : M journal_record :=
  let account := tx_account transaction in
  let amount := tx_amount transaction in
  let account_reference := tx_account_reference transaction in
  let by_reference :=
    match
      (if truthy account_reference
       then find_account_by_reference account_reference else None)
    with
    | Some source_account =>
        if truthy (Some source_account)
        then _add_entry processed_transaction source_account amount CREDIT
        else _add_entry processed_transaction "transfer" amount CREDIT
    | None => _add_entry processed_transaction "transfer" amount CREDIT
    end in
  let* a := accounts_getitem account in
  match acct_type a with
  | LIABILITY =>
      let* matching_transfer := find_matching_transfer transaction amount in
      match matching_transfer with
      | Some (i, other_tx) =>
          let processed_transaction :=
            _add_entry processed_transaction (tx_account other_tx) amount
              CREDIT in
          mark_processed i ;;
          ret processed_transaction
      | None => ret by_reference
      end
  | _ => ret by_reference
  end.

Definition _process_liability_transaction
  (processed_transaction : journal_record)
  (transaction : raw_transaction) : M journal_record :=
  let account := tx_account transaction in
  let amount := tx_amount transaction in
  if PyFloat.ltb amount PyFloat.zero then
    let pt := _add_entry processed_transaction "expense" (PyFloat.abs amount)
                DEBIT in
    ret (_add_entry pt account (PyFloat.abs amount) CREDIT)
  else
    let pt := _add_entry processed_transaction account amount DEBIT in
    if tx_is_transfer transaction
    then _handle_transfer_credit pt transaction
    else ret (_add_entry pt "transfer" amount CREDIT).

Definition _process_asset_transaction
  (processed_transaction : journal_record)
  (transaction : raw_transaction) : M journal_record :=
  let account := tx_account transaction in
  let amount := tx_amount transaction in
  if PyFloat.ltb amount PyFloat.zero then
    let pt :=
      if tx_is_transfer transaction
      then _handle_transfer_debit processed_transaction transaction
      else _add_entry processed_transaction "expense" (PyFloat.abs amount)
             DEBIT in
    ret (_add_entry pt account (PyFloat.abs amount) CREDIT)
  else
    let pt := _add_entry processed_transaction account amount DEBIT in
    if tx_is_transfer transaction
    then _handle_transfer_credit pt transaction
    else ret (_add_entry pt "income" amount CREDIT).

Definition entry_type_eqb (a b : entry_type) : bool :=
  match a, b with
  | DEBIT, DEBIT | CREDIT, CREDIT => true
  | _, _ => false
  end.

(** [sum(entry['amount'] for entry in entries if entry['type'] == ty)] *)
Definition total_of (ty : entry_type) (entries : list entry) : pyfloat :=
  PyFloat.sum
    (map e_amount
       (List.filter (fun e => entry_type_eqb (e_type e) ty) entries)).

(** The check after construction in
    [TransactionProcessor._create_processed_transaction]; the record passes
    through it. *)
Definition validate_debits_equal_credits
  (processed_transaction : journal_record) : M journal_record :=
  let total_debits := total_of DEBIT (pt_entries processed_transaction) in
  let total_credits := total_of CREDIT (pt_entries processed_transaction) in
  let difference := PyFloat.abs (PyFloat.sub total_debits total_credits) in
  when (PyFloat.gtb difference PyFloat.cent)
    (print (NotBalancedWarning (pt_id processed_transaction)
              (pt_description processed_transaction)
              total_debits total_credits difference
              (pt_entries processed_transaction))) ;;
  ret processed_transaction.

(** [_create_processed_transaction] up to the check: the record with a
    fresh id and the entries that the account type calls for. *)
Definition construct_processed_transaction (transaction : raw_transaction)
  : M journal_record :=
  let* id := uuid4 in
  let processed_transaction :=
    mk_processed id (tx_date transaction) (tx_description transaction)
      (tx_category transaction) [] in
  let* a := accounts_getitem (tx_account transaction) in
  match acct_type a with
  | LIABILITY =>
      _process_liability_transaction processed_transaction transaction
  | ASSET => _process_asset_transaction processed_transaction transaction
  | _ => ret processed_transaction
  end.

(** In [EnhancedDoubleEntryAccountingSystem] the method ends before the
    check. *)
Definition _create_processed_transaction (transaction : raw_transaction)
  : M journal_record :=
  let* processed_transaction := construct_processed_transaction transaction in
  let* self := get_self in
  match cls self with
  | TransactionProcessorClass =>
      validate_debits_equal_credits processed_transaction
  | EnhancedSystemClass => ret processed_transaction
  end.

(** The sorted list holds the very elements of [raw_transactions]; here it
    holds their positions, and each is read when its turn comes. *)
Definition sorted_positions {A} (date_of : A -> pydate) (l : list A)
  : M (list nat) :=
  let* keys := map_M (fun x => date_sort_key (date_of x)) l in
  ret (sorted_by_key (zip keys (seq 0 (length l)))).

Definition process_one (i : nat) : M unit :=
  let* self := get_self in
  match raw_transactions self !! i with
  | None => ret tt
  | Some transaction =>
      if tx_processed transaction then ret tt
      else
        let* processed_transaction :=
          _create_processed_transaction transaction in
        mark_processed i ;;
        let* self := get_self in
        put_self
          (set_processed_transactions
             (processed_transactions self ++ [processed_transaction])%list
             self)
  end.

Definition process_raw_transactions : M unit :=
  let* self := get_self in
  let* sorted_transactions :=
    sorted_positions tx_date (raw_transactions self) in
  for_each sorted_transactions process_one.

(* ===================================================================== *)
(** ** Balance ledger *)
(* ===================================================================== *)

(** [account_type in ['ASSET', 'EXPENSE']] *)
Definition in_asset_expense (t : account_type) : bool :=
  match t with
  | ASSET | EXPENSE => true
  | LIABILITY | EQUITY | INCOME => false
  end.

(** [account_type in ['LIABILITY', 'EQUITY', 'INCOME']] *)
Definition in_liability_equity_income (t : account_type) : bool :=
  match t with
  | LIABILITY | EQUITY | INCOME => true
  | ASSET | EXPENSE => false
  end.

(** [self.account_balances[account] = f(self.account_balances[account])],
    the shape of [+=] and [-=]. *)
Definition balances_update (account : string) (f : pyfloat -> pyfloat)
  : M unit :=
  let* self := get_self in
  match account_balances self !! account with
  | Some b =>
      put_self
        (set_account_balances (<[account := f b]> (account_balances self))
           self)
  | None => raise (KeyError account)
  end.

(** The body of the inner loop of [update_account_balances] up to the
    balance update. *)
Definition post_entry (e : entry) : M unit :=
  let account := e_account e in
  let amount := e_amount e in
  let* self := get_self in
  match accounts self !! account with
  | Some a =>
      let account_type := acct_type a in
      match e_type e with
      | DEBIT =>
          if in_asset_expense account_type
          then balances_update account (fun b => PyFloat.add b amount)
          else balances_update account (fun b => PyFloat.sub b amount)
      | CREDIT =>
          if in_asset_expense account_type
          then balances_update account (fun b => PyFloat.sub b amount)
          else balances_update account (fun b => PyFloat.add b amount)
      end
  | None => ret tt
  end.

Definition unify_entry (e : entry) : M unified_entry :=
  post_entry e ;;
  let* self := get_self in
  ret (mk_unified_entry (e_account e)
         (match accounts self !! e_account e with
          | Some a => acct_name a
          | None => "Unknown"
          end)
         (e_amount e) (e_type e)).

Definition date_to_string (d : pydate) : string :=
  match d with
  | Date dt => PyDatetime.strftime_ymd dt
  | DateText s => s
  end.

Definition replay_one (transaction : journal_record) : M unit :=
  let* entries := map_M unify_entry (pt_entries transaction) in
  let* self := get_self in
  let unified_transaction :=
    mk_unified (pt_id transaction) (date_to_string (pt_date transaction))
      (pt_description transaction) (pt_category transaction) entries
      (account_balances self) in
  put_self
    (set_unified_transactions
       (unified_transactions self ++ [unified_transaction])%list self).

Definition update_account_balances : M unit :=
  let* self := get_self in
  put_self
    (set_account_balances ((fun _ => PyFloat.zero) <$> accounts self) self) ;;
  let* self := get_self in
  let* keys :=
    map_M (fun x => date_sort_key (pt_date x)) (processed_transactions self) in
  let sorted_transactions :=
    sorted_by_key (zip keys (processed_transactions self)) in
  for_each sorted_transactions replay_one.

(* ===================================================================== *)
(** ** [EnhancedDoubleEntryAccountingSystem] *)
(* ===================================================================== *)

Module EnhancedDoubleEntryAccountingSystem.

Definition categories_table : list (string * list string) :=
  [ ("groceries",
     ["WOOLWORTHS"; "COLES"; "IGA"; "ALDI"; "SPUDSHED"; "WA GROWERS";
      "COSTCO"]);
    ("dining",
     ["MCDONALDS"; "SUBWAY"; "HUNGRY JACKS"; "NANDOS"; "GUZMAN Y GOMEZ";
      "KFC"; "ZAMBRERO"; "BOOST JUICE"; "MUFFIN BREAK"; "CHICKEN TREAT";
      "CAFE"; "RESTAURANT"; "FOOD"; "MUZZ BUZZ"; "BASKIN"; "BAKERY";
      "PIZZ"]);
    ("shopping",
     ["KMART"; "TARGET"; "MYER"; "DAVID JONES"; "BIG W"; "BUNNINGS";
      "OFFICEWORKS"; "JB HI-FI"; "HARVEY NORMAN"; "IKEA"; "RED DOT";
      "PETBARN"; "PET CIRCLE"]);
    ("transport",
     ["FUEL"; "PETROL"; "BP "; "CALTEX"; "SHELL"; "UBER"; "TRANSPORT";
      "TAXI"; "PARKING"; "CAR"; "AUTO"; "DEPARTMENT OF TRANSPOR"]);
    ("utilities",
     ["ORIGIN ENERGY"; "SYNERGY"; "WATER CORPORATION"; "INTERNET";
      "PHONE"; "OPTUS"; "TELSTRA"; "VODAFONE"; "NBN"; "Aussie Broadband";
      "Superloop"]);
    ("health",
     ["CHEMIST"; "PHARMACY"; "DOCTOR"; "MEDICAL"; "DENTAL"; "HEALTH";
      "HOSPITAL"]);
    ("entertainment",
     ["CINEMA"; "MOVIE"; "THEATRE"; "NETFLIX"; "SPOTIFY"; "APPLE.COM";
      "GOOGLE PLAY"; "AMAZON"; "STEAM"; "PATREON"; "DISCORD";
      "APPLE MUSIC"; "DISNEY+"]);
    ("fitness", ["GYM"; "FITNESS"; "SPORT"; "SWIM"; "GOLDSGYM"]);
    ("income",
     ["PAYMENT RECEIVED"; "SALARY"; "INCOME"; "DIVIDEND"; "INTEREST";
      "REFUND"; "TAX RETURN"; "CASH DEPOSIT"; "DIRECT CREDIT"]);
    ("transfers", ["TRANSFER"; "BPAY"; "PAY ANYONE"; "NETBANK"]) ].

(** The [accounts] dict of [__init__], given the five ids drawn for the
    bank accounts. *)
Definition accounts_table (id1 id2 id3 id4 id5 : string)
  : gmap string account :=
  list_to_map
    [ ("credit_card",
       mk_account "Credit Card" LIABILITY (Some id1) (Some "TRANSACTIONAL"));
      ("debit",
       mk_account "Debit Account" ASSET (Some id2) (Some "TRANSACTIONAL"));
      ("emergency_fund",
       mk_account "Emergency Fund" ASSET (Some id3) (Some "SAVER"));
      ("old_credit_card",
       mk_account "Old Credit Card" LIABILITY (Some id4)
         (Some "TRANSACTIONAL"));
      ("saver", mk_account "Savings Account" ASSET (Some id5) (Some "SAVER"));
      ("expense", mk_account "Expenses" EXPENSE None None);
      ("income", mk_account "Income" INCOME None None);
      ("transfer", mk_account "Internal Transfers" EQUITY None None) ].

Definition __init__ (w : env) : processor * env :=
  let u := uuid_oracle w in
  let n := uuid_calls w in
  let accounts :=
    accounts_table (u n) (u (1 + n)%nat) (u (2 + n)%nat) (u (3 + n)%nat)
      (u (4 + n)%nat) in
  (mk_processor EnhancedSystemClass accounts categories_table [] [] []
     ((fun _ => PyFloat.zero) <$> accounts),
   mk_env (stdout w) u (5 + n)%nat (clock_oracle w) (clock_calls w)).

(** The body of the loop over the rows of the CSV file, in
    [load_credit_card] ([with_balance = false]) and in
    [load_bank_account] ([with_balance = true]). *)
Definition load_row (with_balance : bool) (filepath account_type : string)
  (row : list string) : M unit :=
  match row with
  | c0 :: c1 :: c2 :: rest =>
      let date := parse_date c0 in
      let amount := parse_amount (Text c1) in
      let description := clean_description (Text c2) in
      let balance :=
        match rest with
        | c3 :: _ =>
            if (with_balance && negb (String.eqb c3 ""))%bool
            then Some (parse_amount (Text c3)) else None
        | [] => None
        end in
      if PyFloat.neb amount PyFloat.zero then
        let* self := get_self in
        let transaction :=
          mk_raw filepath date amount description balance account_type
            (categorize_transaction (categories self) description)
            (is_transfer description)
            (extract_account_reference description) false in
        put_self
          (set_raw_transactions
             (raw_transactions self ++ [transaction])%list self)
      else ret tt
  | _ => ret tt
  end.

(** [rows] is what [csv.reader] yields for the file; failures of
    [open] are not represented. *)
Definition load_credit_card (rows : list (list string))
  (filepath account_type : string) : M unit :=
  for_each rows (load_row false filepath account_type).

Definition load_bank_account (rows : list (list string))
  (filepath account_type : string) : M unit :=
  for_each rows (load_row true filepath account_type).

(** [sum(balance for account, balance in self.account_balances.items()
    if account in self.accounts
    and self.accounts[account]['type'] in side)] *)
Definition balances_total (self : processor)
  (side : account_type -> bool) : pyfloat :=
  PyFloat.sum
    (map snd
       (List.filter
          (fun kv =>
             match accounts self !! fst kv with
             | Some a => side (acct_type a)
             | None => false
             end)
          (map_to_list (account_balances self)))).

Definition verify_double_entry_accounting : M bool :=
  let* self := get_self in
  let total_debits := balances_total self in_asset_expense in
  let total_credits := balances_total self in_liability_equity_income in
  print (DoubleEntryVerification total_debits total_credits
           (PyFloat.sub total_debits total_credits)) ;;
  ret (PyFloat.ltb (PyFloat.abs (PyFloat.sub total_debits total_credits))
         PyFloat.cent).

End EnhancedDoubleEntryAccountingSystem.

(* ===================================================================== *)
(** ** [TransactionProcessor] *)
(* ===================================================================== *)

Module TransactionProcessor.

Definition __init__ (accounts : gmap string account)
  (categories : list (string * list string)) : processor :=
  mk_processor TransactionProcessorClass accounts categories [] [] []
    ((fun _ => PyFloat.zero) <$> accounts).

(** The local dict [account_types] and its [get]. *)
Definition account_types_get (account_id : string) : option account_type :=
  if String.eqb account_id "credit_card" then Some LIABILITY
  else if String.eqb account_id "debit" then Some ASSET
  else if String.eqb account_id "emergency_fund" then Some ASSET
  else if String.eqb account_id "old_credit_card" then Some LIABILITY
  else if String.eqb account_id "saver" then Some ASSET
  else None.

(** The loop over [transactions]; [account_balances] is the local
    dict, not the attribute. *)
Fixpoint verify_rows (transactions : list loaded_row)
  (account_balances : gmap string pyfloat) : M (gmap string pyfloat) :=
  match transactions with
  | [] => ret account_balances
  | transaction :: rest =>
      let amount := lr_amount transaction in
      let account_id := lr_account_id transaction in
      let account_type := account_types_get account_id in
      let account_balances :=
        match account_balances !! account_id with
        | Some _ => account_balances
        | None => <[account_id := PyFloat.zero]> account_balances
        end in
      let amount :=
        match account_type with
        | Some LIABILITY => PyFloat.neg amount
        | _ => amount
        end in
      let balance :=
        PyFloat.add (default PyFloat.zero (account_balances !! account_id))
          amount in
      let account_balances := <[account_id := balance]> account_balances in
      print (VerifyingRow transaction account_type (PyFloat.abs amount)
               balance) ;;
      verify_rows rest account_balances
  end.

Definition verify_double_entry_accounting (transactions : list loaded_row)
  : M bool :=
  print VerifyingHeader ;;
  let* account_balances := verify_rows transactions ∅ in
  let values := map snd (map_to_list account_balances) in
  let total_debits :=
    PyFloat.sum
      (List.filter (fun balance => PyFloat.gtb balance PyFloat.zero) values) in
  let total_credits :=
    PyFloat.abs
      (PyFloat.sum
         (List.filter (fun balance => PyFloat.ltb balance PyFloat.zero)
            values)) in
  let difference := PyFloat.abs (PyFloat.sub total_debits total_credits) in
  let is_balanced := PyFloat.ltb difference PyFloat.cent in
  print (VerifyingSummary (map_to_list account_balances) total_debits
           total_credits difference is_balanced) ;;
  ret is_balanced.

End TransactionProcessor.

(* ===================================================================== *)
(** ** Exporter *)
(* ===================================================================== *)

(** One element of the list that [prepare_transactions_for_up_bank]
    returns.  The constant keys are left out; [up_amount] is
    [abs(amount)], from which ["value"] and ["valueInBaseUnits"] are
    formatted; [up_transferAccount] is [None] when the key
    ["transferAccount"] is absent from ["relationships"], and otherwise
    holds its ["data"]["id"]. *)
Record up_transaction : Type := mk_up {
  up_id : string;
  up_description : string;
  up_amount : pyfloat;
  up_settledAt : string;
  up_category : string;
  up_account_id : option string;
  up_displayName : string;
  up_accountType : option string;
  up_transferAccount : option (option string)
}.

Module Exporter.

Definition real_accounts : list string :=
  ["credit_card"; "debit"; "emergency_fund"; "saver"; "old_credit_card"].

(** [account in ['credit_card', 'debit', 'emergency_fund', 'saver',
    'old_credit_card']] *)
Definition is_real (account : string) : bool :=
  existsb (String.eqb account) real_accounts.

Definition getitem (accounts : gmap string account) (key : string)
  : exn + account :=
  match accounts !! key with
  | Some a => inr a
  | None => inl (KeyError key)
  end.

(** The body of the loop of [prepare_transactions_for_up_bank]:
    [inr None] is a [continue]. *)
Definition prepare_one (accounts : gmap string account)
  (transaction : unified_transaction) : exn + option up_transaction :=
  match ut_entries transaction with
  | [] => inr None
  | _ :: _ =>
      (* the loop that finds the affected real account *)
      match find (fun e => is_real (ue_account e)) (ut_entries transaction)
      with
      | None => inr None
      | Some e =>
          let source_account := ue_account e in
          match getitem accounts source_account with
          | inl err => inl err
          | inr a =>
              let amount :=
                match acct_type a, ue_type e with
                | ASSET, DEBIT => ue_amount e
                | ASSET, CREDIT => PyFloat.neg (ue_amount e)
                | _, DEBIT => PyFloat.neg (ue_amount e)
                | _, CREDIT => ue_amount e
                end in
              let up :=
                mk_up (ut_id transaction) (ut_description transaction)
                  (PyFloat.abs amount) (ut_date transaction)
                  (ut_category transaction) (acct_id a) (acct_name a)
                  (acct_api_type a) in
              let is_transfer :=
                existsb (fun e => String.eqb (ue_account e) "transfer")
                  (ut_entries transaction) in
              if is_transfer then
                let account_entries :=
                  List.filter
                    (fun e =>
                       (is_real (ue_account e)
                        && negb (String.eqb (ue_account e) source_account))
                       %bool)
                    (ut_entries transaction) in
                match account_entries with
                | e' :: _ =>
                    match getitem accounts (ue_account e') with
                    | inl err => inl err
                    | inr a' => inr (Some (up (Some (acct_id a'))))
                    end
                | [] => inr (Some (up None))
                end
              else inr (Some (up None))
          end
      end
  end.


End Exporter.


(* ===================================================================== *)
(** ** [FileLoader] *)
(* ===================================================================== *)

Module FileLoader.

(** The exceptions that the [except Exception] clause of a loader
    catches: [open] failed, [next(reader)] found no header row, or a row
    has no cell at the index asked for. *)
Inductive caught : Type :=
  | OSError
  | StopIteration
  | IndexError.

(** The loop over the rows that follow the header, shared by
    [load_credit_card] and [load_bank_account]; [parse_date] and
    [parse_amount] are those of the transaction processor. *)
Fixpoint read_rows (account_id : string) (rows : list (list string))
  (transactions : list loaded_row) : caught + list loaded_row :=
  match rows with
  | [] => inr transactions
  | row :: rest =>
      match row with
      | c0 :: c1 :: c2 :: _ =>
          let date := parse_date c0 in
          let amount := parse_amount (Text c1) in
          let description := c2 in
          if PyFloat.neb amount PyFloat.zero
          then read_rows account_id rest
                 (transactions
                    ++ [mk_loaded_row date amount description account_id])
                 %list
          else read_rows account_id rest transactions
      | _ => inl IndexError
      end
  end.

(** [file] is what [csv.reader] yields for the file, [None] when the file
    cannot be opened.  The result is the list returned, with the path and
    the exception of the error message when one is printed. *)
Definition load_credit_card (file : option (list (list string)))
  (file_path account_id : string)
  : list loaded_row * option (string * caught) :=
  match file with
  | None => ([], Some (file_path, OSError))
  | Some [] => ([], Some (file_path, StopIteration))
  | Some (header :: rows) =>
      match read_rows account_id rows [] with
      | inr transactions => (transactions, None)
      | inl e => ([], Some (file_path, e))
      end
  end.

Definition load_bank_account (file : option (list (list string)))
  (file_path account_id : string)
  : list loaded_row * option (string * caught) :=
  match file with
  | None => ([], Some (file_path, OSError))
  | Some [] => ([], Some (file_path, StopIteration))
  | Some (header :: rows) =>
      match read_rows account_id rows [] with
      | inr transactions => (transactions, None)
      | inl e => ([], Some (file_path, e))
      end
  end.


End FileLoader.

(* ===================================================================== *)
(** ** Vocabulary of the specification *)
(* ===================================================================== *)

Global Instance account_type_eq_dec : EqDecision account_type.
Proof. solve_decision. Defined.

Global Instance entry_type_eq_dec : EqDecision entry_type.
Proof. solve_decision. Defined.

(** [x < y] on floats, as a proposition. *)
Definition float_lt (x y : pyfloat) : Prop := PyFloat.cmp x y = Some Lt.

(** The account [k] is registered with one of the [types]. *)
Definition has_type (self : processor) (types : list account_type)
  (k : string) : Prop :=
  exists a, accounts self !! k = Some a /\ acct_type a ∈ types.

Global Instance has_type_dec self types k : Decision (has_type self types k).
Proof.
  unfold has_type. destruct (accounts self !! k) as [a|] eqn:E.
  - destruct (decide (acct_type a ∈ types)) as [Hin|Hout].
    + left. exists a. split; [reflexivity | exact Hin].
    + right. intros [a' [Ha' Hin]]. inversion Ha'; subst. contradiction.
  - right. intros [a' [Ha' _]]. discriminate.
Defined.

(** The final balances of the accounts of the given types. *)
Definition balances_of (self : processor) (types : list account_type)
  : gmap string pyfloat :=
  filter (fun kv => has_type self types (fst kv)) (account_balances self).

(** The sum of the values of a balances map. *)
Definition map_total (m : gmap string pyfloat) : pyfloat :=
  map_fold (fun _ b acc => PyFloat.add acc b) PyFloat.zero m.

(** What a posting does to a balance, following the wording of the
    specification. *)
Definition posted (ty : entry_type) (t : account_type) (b amount : pyfloat)
  : pyfloat :=
  match ty, t with
  | DEBIT, (ASSET | EXPENSE) => PyFloat.add b amount
  | DEBIT, (LIABILITY | EQUITY | INCOME) => PyFloat.sub b amount
  | CREDIT, (ASSET | EXPENSE) => PyFloat.sub b amount
  | CREDIT, (LIABILITY | EQUITY | INCOME) => PyFloat.add b amount
  end.

(** The attributes of the object and the oracles are as before; only
    [stdout] has grown. *)
Definition only_printed (w w' : env) : Prop :=
  uuid_oracle w' = uuid_oracle w /\ uuid_calls w' = uuid_calls w
  /\ clock_oracle w' = clock_oracle w /\ clock_calls w' = clock_calls w
  /\ exists out, stdout w' = (stdout w ++ out)%list.

(** *** Counterparty matching *)

Definition is_negative (x : pyfloat) : Prop := float_lt x PyFloat.zero.
Definition is_positive (x : pyfloat) : Prop := float_lt PyFloat.zero x.

(** [abs(x) == abs(y)] *)
Definition same_magnitude (x y : pyfloat) : Prop :=
  PyFloat.cmp (PyFloat.abs x) (PyFloat.abs y) = Some Eq.

(** [abs(x)] and [abs(y)] are at most 0.01 apart. *)
Definition magnitude_within_cent (x y : pyfloat) : Prop :=
  PyFloat.leb
    (PyFloat.abs (PyFloat.sub (PyFloat.abs x) (PyFloat.abs y)))
    PyFloat.cent = true.

Definition within_two_days (d d' : datetime) : Prop :=
  Z.abs (PyDatetime.timestamp d' - PyDatetime.timestamp d)
  <= 2 * PyDatetime.us_per_day.

(** [o] qualifies as the other leg of [t]; [magnitude] says when two
    amounts agree. *)
Definition counterpart (magnitude : pyfloat -> pyfloat -> Prop)
  (t o : raw_transaction) : Prop :=
  tx_processed o = false
  /\ tx_account o <> tx_account t
  /\ (exists d d', tx_date t = Date d /\ tx_date o = Date d'
                   /\ within_two_days d d')
  /\ magnitude (tx_amount o) (tx_amount t)
  /\ (is_negative (tx_amount o) <-> is_positive (tx_amount t)).

(** [r] is the first element of [pool] satisfying [P], with its position,
    or [None] when there is none. *)
Definition first_in_pool (P : raw_transaction -> Prop)
  (pool : list raw_transaction) (r : option (nat * raw_transaction)) : Prop :=
  match r with
  | Some (i, o) =>
      pool !! i = Some o /\ P o
      /\ forall j o', (j < i)%nat -> pool !! j = Some o' -> ~ P o'
  | None => forall o, o ∈ pool -> ~ P o
  end.

(** The dates from which two days can be subtracted and to which two days
    can be added: 0001-01-03 to 9999-12-29. *)
Definition two_days_in_range (d : datetime) : Prop :=
  PyDatetime.min_ordinal + 2 <= PyDatetime.toordinal d
  <= PyDatetime.max_ordinal - 2.

(** *** Journal records *)

(** The amount carried by both entries of a record: [abs(amount)] for a
    negative amount, [amount] otherwise. *)
Definition journal_amount (t : raw_transaction) : pyfloat :=
  if PyFloat.ltb (tx_amount t) PyFloat.zero
  then PyFloat.abs (tx_amount t) else tx_amount t.

Definition unflag (t : raw_transaction) : raw_transaction :=
  mk_raw (tx_source_file t) (tx_date t) (tx_amount t) (tx_description t)
    (tx_balance t) (tx_account t) (tx_category t) (tx_is_transfer t)
    (tx_account_reference t) false.

(** [self'] is [self] up to the ['processed'] flags of the pool. *)
Definition same_but_flags (self self' : processor) : Prop :=
  cls self' = cls self
  /\ accounts self' = accounts self
  /\ categories self' = categories self
  /\ map unflag (raw_transactions self') = map unflag (raw_transactions self)
  /\ processed_transactions self' = processed_transactions self
  /\ unified_transactions self' = unified_transactions self
  /\ account_balances self' = account_balances self.

(** A record of two entries, a DEBIT and a CREDIT of the same amount. *)
Definition debit_credit_pair (r : journal_record) : Prop :=
  exists debit_account credit_account amount,
    pt_entries r = [mk_entry debit_account amount DEBIT;
                    mk_entry credit_account amount CREDIT].

Definition finite_amounts (r : journal_record) : Prop :=
  Forall (fun e => PyFloat.is_finite (e_amount e) = true) (pt_entries r).

(** Failures of the journal builder: a missing owner, or date arithmetic
    leaving the calendar. *)
Definition builder_failure (t : raw_transaction) (self : processor)
  (e : exn) : Prop :=
  (e = KeyError (tx_account t) /\ accounts self !! tx_account t = None)
  \/ (e = OverflowError
      /\ exists d, tx_date t = Date d /\ ~ two_days_in_range d).

(** The entries that [construct_processed_transaction] assembles, by the
    type of the owning account. *)
Definition entries_as_constructed (ty : account_type) (t : raw_transaction)
  (entries : list entry) : Prop :=
  match ty with
  | ASSET | LIABILITY =>
      exists debit_account credit_account,
        entries = [mk_entry debit_account (journal_amount t) DEBIT;
                   mk_entry credit_account (journal_amount t) CREDIT]
  | EXPENSE | INCOME | EQUITY => entries = []
  end.

(** The oracles are consulted for one id; nothing else changes in the
    world but [stdout]. *)
Definition drew_one_id (w w' : env) : Prop :=
  uuid_oracle w' = uuid_oracle w /\ uuid_calls w' = S (uuid_calls w)
  /\ clock_oracle w' = clock_oracle w /\ clock_calls w' = clock_calls w
  /\ exists out, stdout w' = (stdout w ++ out)%list.

(** [r] was built from a transaction of the pool of [self]: it carries
    that transaction's date, description and category, and the entries
    that the type of the owning account calls for. *)
Definition built_from_pool (self : processor) (r : journal_record) : Prop :=
  exists t a,
    unflag t ∈ map unflag (raw_transactions self)
    /\ accounts self !! tx_account t = Some a
    /\ pt_date r = tx_date t
    /\ pt_description r = tx_description t
    /\ pt_category r = tx_category t
    /\ entries_as_constructed (acct_type a) t (pt_entries r).

(** [self'] is [self] with the records [new] appended to
    [processed_transactions], up to the ['processed'] flags. *)
Definition journaled (self self' : processor) (new : list journal_record)
  : Prop :=
  cls self' = cls self
  /\ accounts self' = accounts self
  /\ categories self' = categories self
  /\ map unflag (raw_transactions self') = map unflag (raw_transactions self)
  /\ processed_transactions self'
     = (processed_transactions self ++ new)%list
  /\ unified_transactions self' = unified_transactions self
  /\ account_balances self' = account_balances self.

(** A failure of the journal builder on some transaction of the pool. *)
Definition pool_failure (self : processor) (e : exn) : Prop :=
  exists t, unflag t ∈ map unflag (raw_transactions self)
            /\ builder_failure t self e.

(** What the check after construction prints for a record. *)
Definition not_balanced_warning (r : journal_record) : list event :=
  let total_debits := total_of DEBIT (pt_entries r) in
  let total_credits := total_of CREDIT (pt_entries r) in
  let difference := PyFloat.abs (PyFloat.sub total_debits total_credits) in
  if PyFloat.gtb difference PyFloat.cent
  then [NotBalancedWarning (pt_id r) (pt_description r) total_debits
          total_credits difference (pt_entries r)]
  else [].

Definition add_stdout (out : list event) (w : env) : env :=
  mk_env (stdout w ++ out)%list (uuid_oracle w) (uuid_calls w)
    (clock_oracle w) (clock_calls w).

(** *** Two runs of the pipeline *)

(** Two records that agree on everything but the id. *)
Definition same_record (r1 r2 : journal_record) : Prop :=
  pt_date r1 = pt_date r2
  /\ pt_description r1 = pt_description r2
  /\ pt_category r1 = pt_category r2
  /\ pt_entries r1 = pt_entries r2.

Definition same_unified (u1 u2 : unified_transaction) : Prop :=
  ut_date u1 = ut_date u2
  /\ ut_description u1 = ut_description u2
  /\ ut_category u1 = ut_category u2
  /\ ut_entries u1 = ut_entries u2
  /\ ut_balances u1 = ut_balances u2.

(** Both runs read the same values from the clock from here on. *)
Definition same_clock (w1 w2 : env) : Prop :=
  forall n, clock_oracle w1 (clock_calls w1 + n)%nat
            = clock_oracle w2 (clock_calls w2 + n)%nat.

Definition parsed (d : pydate) : Prop :=
  match d with Date _ => True | DateText _ => False end.

(** Journal building followed by balance replay. *)
Definition pipeline : M unit :=
  process_raw_transactions ;; update_account_balances.

(** The outcomes of two runs agree: the same exception, or the same
    records up to their ids and the same final balances. *)
Definition same_outcome (o1 o2 : result unit) : Prop :=
  match o1, o2 with
  | Raise e1, Raise e2 => e1 = e2
  | Return _ s1 _, Return _ s2 _ =>
      Forall2 same_record (processed_transactions s1)
        (processed_transactions s2)
      /\ Forall2 same_unified (unified_transactions s1)
           (unified_transactions s2)
      /\ account_balances s1 = account_balances s2
  | _, _ => False
  end.

Definition all_dates_parsed (self : processor) : Prop :=
  Forall (fun t => parsed (tx_date t)) (raw_transactions self)
  /\ Forall (fun r => parsed (pt_date r)) (processed_transactions self).

(** The objects of the two runs. *)
Definition akin (D : pydate -> Prop) (s1 s2 : processor) : Prop :=
  cls s1 = cls s2
  /\ accounts s1 = accounts s2
  /\ categories s1 = categories s2
  /\ raw_transactions s1 = raw_transactions s2
  /\ Forall (fun t => D (tx_date t)) (raw_transactions s1)
  /\ Forall2 same_record (processed_transactions s1)
       (processed_transactions s2)
  /\ Forall (fun r => D (pt_date r)) (processed_transactions s1)
  /\ Forall2 same_unified (unified_transactions s1)
       (unified_transactions s2)
  /\ account_balances s1 = account_balances s2.

(** Two computations started from akin objects in related worlds end
    alike, with results related by [RA]. *)
Definition alike (D : pydate -> Prop) (E : env -> env -> Prop) {A}
  (RA : A -> A -> Prop) (c1 c2 : M A) : Prop :=
  forall s1 s2 w1 w2, akin D s1 s2 -> E w1 w2 ->
    match c1 s1 w1, c2 s2 w2 with
    | Raise e1, Raise e2 => e1 = e2
    | Return a1 s1' w1', Return a2 s2' w2' =>
        RA a1 a2 /\ akin D s1' s2' /\ E w1' w2'
    | _, _ => False
    end.

(** Two records under construction for a transaction dated [d]. *)
Definition twin (d : pydate) (r1 r2 : journal_record) : Prop :=
  same_record r1 r2 /\ pt_date r1 = d.

(* ===================================================================== *)
(** ** Scenarios *)
(* ===================================================================== *)

(** The registry of [tests/conftest.py]: the accounts of
    [EnhancedDoubleEntryAccountingSystem] with fixed ids. *)
Definition sample_accounts : gmap string account :=
  EnhancedDoubleEntryAccountingSystem.accounts_table
    "123" "456" "789" "101" "102".

(** A world whose ids are [prefix] followed by a counter and whose clock
    stands still at [now]. *)
Definition world (prefix : string) (now : datetime) : env :=
  mk_env [] (fun n => prefix ++ PyDatetime.pad4 (Z.of_nat n)) 0
    (fun _ => now) 0.

Definition a_day_in_2025 : datetime := PyDatetime.midnight 2025 3 14.

(** An object of class [c] over the sample registry, holding [pool]. *)
Definition loaded (c : pyclass) (pool : list raw_transaction) : processor :=
  mk_processor c sample_accounts
    EnhancedDoubleEntryAccountingSystem.categories_table pool [] []
    ((fun _ => PyFloat.zero) <$> sample_accounts).

(** The transfer scenario: A leaves the saver account for the credit
    card, B arrives on the credit card the day after. *)
Definition row_A (description category : string) : raw_transaction :=
  mk_raw "CBA_SAVER.csv" (Date (PyDatetime.midnight 2024 3 1))
    (PyFloat.decimal (-20000) 2) description None "saver" category true
    (Some "xx5784") false.

Definition row_B (description category : string) : raw_transaction :=
  mk_raw "CBA_CC.csv" (Date (PyDatetime.midnight 2024 3 2))
    (PyFloat.decimal 20000 2) description None "credit_card" category true
    None false.

(** A pool whose only row is owned by the equity bucket [transfer]. *)
Definition row_on_bucket : raw_transaction :=
  mk_raw "ledger.csv" (Date (PyDatetime.midnight 2024 3 1))
    (PyFloat.decimal 1000 2) "OPENING BALANCE" None "transfer"
    "uncategorized" false None false.

(** A row whose amount text was [inf]. *)
Definition row_inf : raw_transaction :=
  mk_raw "CBA_DEBIT.csv" (Date (PyDatetime.midnight 2024 3 1))
    (parse_amount (Text "inf")) "DEPOSIT" None "debit" "uncategorized"
    false None false.

(** A record whose totals differ, as input of the check. *)
Definition lopsided_record : journal_record :=
  mk_processed "r-1" (Date (PyDatetime.midnight 2024 3 1)) "SPLIT" "dining"
    [mk_entry "expense" (PyFloat.of_Z 10) DEBIT;
     mk_entry "debit" (PyFloat.of_Z 7) CREDIT].

(** The property of the specification: two entries, and DEBIT and CREDIT
    totals less than 0.01 apart. *)
Definition two_entries_within_cent (r : journal_record) : Prop :=
  length (pt_entries r) = 2%nat
  /\ float_lt
       (PyFloat.abs
          (PyFloat.sub (total_of DEBIT (pt_entries r))
             (total_of CREDIT (pt_entries r))))
       PyFloat.cent.

(** The object and the world that a computation ends with ([self] and [w]
    themselves when it raises). *)
Definition self_after {A} (c : M A) (self : processor) (w : env)
  : processor :=
  match c self w with Return _ self' _ => self' | Raise _ => self end.

Definition world_after {A} (c : M A) (self : processor) (w : env) : env :=
  match c self w with Return _ _ w' => w' | Raise _ => w end.

(** [t] with its ['processed'] key set to [True]. *)
Definition mark (t : raw_transaction) : raw_transaction :=
  mk_raw (tx_source_file t) (tx_date t) (tx_amount t) (tx_description t)
    (tx_balance t) (tx_account t) (tx_category t) (tx_is_transfer t)
    (tx_account_reference t) true.

(** The rows of the counterexample to the tolerance of matching: a
    payment of 100.00 on the credit card, and a withdrawal of 100.005
    from the saver account on the same day. *)
Definition payment_100 : raw_transaction :=
  mk_raw "CBA_CC.csv" (Date (PyDatetime.midnight 2024 3 2))
    (PyFloat.decimal 10000 2) "BPAY PAYMENT" None "credit_card" "transfers"
    true None false.

Definition withdrawal_100_005 : raw_transaction :=
  mk_raw "CBA_SAVER.csv" (Date (PyDatetime.midnight 2024 3 2))
    (PyFloat.decimal (-100005) 3) "TRANSFER TO CBA A/C" None "saver"
    "transfers" true None false.

(** A purchase whose date did not parse, and a purchase of 15 March
    2025. *)
Definition undated_purchase : raw_transaction :=
  mk_raw "CBA_DEBIT.csv" (DateText "n/a") (PyFloat.decimal (-1000) 2)
    "COLES" None "debit" "groceries" false None false.

Definition dated_purchase : raw_transaction :=
  mk_raw "CBA_DEBIT.csv" (Date (PyDatetime.midnight 2025 3 15))
    (PyFloat.decimal (-2000) 2) "IGA" None "debit" "groceries" false None
    false.

(** The purchase of the end-to-end scenario, as a row of the CSV file. *)
Definition woolworths_row : list string :=
  ["01/03/2024"; "-45.00"; "WOOLWORTHS"].

(** [process_bank_data] of [commbank_tools.py] on a credit-card file
    holding [rows], the other files being empty, up to the replay. *)
Definition process_bank_data (rows : list (list string)) (w : env)
  : result unit :=
  let '(self, w) := EnhancedDoubleEntryAccountingSystem.__init__ w in
  (EnhancedDoubleEntryAccountingSystem.load_credit_card rows "CBA_CC.csv"
     "credit_card" ;;
   process_raw_transactions ;;
   update_account_balances) self w.

(** The run of [run_transaction_processor.py] over the sample registry:
    one purchase on the debit account. *)
Definition debit_purchase : raw_transaction :=
  mk_raw "" (parse_date "01/05/2023") (parse_amount (Text "-50.25"))
    (clean_description (Text "WOOLWORTHS SUPERMARKET")) None "debit"
    "Groceries" false None false.

(** The same purchase as [FileLoader] returns it. *)
Definition debit_purchase_loaded : loaded_row :=
  mk_loaded_row (parse_date "01/05/2023") (parse_amount (Text "-50.25"))
    "WOOLWORTHS SUPERMARKET" "debit".

(** The claim about the verifier, for a verifier [verify]: its answer is
    [True] exactly when the two totals of the final balances are less
    than 0.01 apart, and the object is unchanged. *)
Definition verifies_balances (verify : M bool) : Prop :=
  forall self w,
  exists b w',
    verify self w = Return b self w'
    /\ only_printed w w'
    /\ (b = true <->
        float_lt
          (PyFloat.abs
             (PyFloat.sub (map_total (balances_of self [ASSET; EXPENSE]))
                (map_total (balances_of self [LIABILITY; EQUITY; INCOME]))))
          PyFloat.cent).

(** *** Export *)
(** The primary leg of a replayed transaction: its first entry on one of
    the five bank accounts. *)
Definition primary_leg (t : unified_transaction) : option unified_entry :=
  find (fun e => Exporter.is_real (ue_account e)) (ut_entries t).

(** [e] is an entry on a bank account other than [source]. *)
Definition other_real_leg (source : string) (e : unified_entry) : bool :=
  (Exporter.is_real (ue_account e)
   && negb (String.eqb (ue_account e) source))%bool.

Definition on_transfer_bucket (e : unified_entry) : bool :=
  String.eqb (ue_account e) "transfer".





(** [s] between two double quotes. *)
Definition in_quotes (s : string) : string :=
  String PyStr.dquote "" ++ s ++ String PyStr.dquote "".





(* ===================================================================== *)
(** ** Vocabulary of the further properties *)
(* ===================================================================== *)

(** *** Replay *)

(** Every registered account has a balance. *)
Definition covers (accounts : gmap string account)
  (m : gmap string pyfloat) : Prop :=
  forall k, is_Some (accounts !! k) -> is_Some (m !! k).

(** The balances once [e] is posted: the balance of a registered account
    moves as the posting rule has it, and an entry on another account
    leaves the balances alone. *)
Definition post_balances (accounts : gmap string account)
  (m : gmap string pyfloat) (e : entry) : gmap string pyfloat :=
  match accounts !! e_account e, m !! e_account e with
  | Some a, Some b =>
      <[e_account e := posted (e_type e) (acct_type a) b (e_amount e)]> m
  | _, _ => m
  end.

(** The entries of the records, in the order of the records. *)
Definition entries_of (records : list journal_record) : list entry :=
  flat_map pt_entries records.

(** The balances once all entries of [records] are posted, starting from
    a balance of 0 for every registered account. *)
Definition replayed_balances (accounts : gmap string account)
  (records : list journal_record) : gmap string pyfloat :=
  fold_left (post_balances accounts) (entries_of records)
    ((fun _ => PyFloat.zero) <$> accounts).

(** The entry as [update_account_balances] records it, with the name of
    its account. *)
Definition unified_view (accounts : gmap string account) (e : entry)
  : unified_entry :=
  mk_unified_entry (e_account e)
    (match accounts !! e_account e with
     | Some a => acct_name a
     | None => "Unknown"
     end)
    (e_amount e) (e_type e).



(** [self'] is [self] up to the balances and the replayed
    transactions. *)
Definition same_journal (self self' : processor) : Prop :=
  cls self' = cls self
  /\ accounts self' = accounts self
  /\ categories self' = categories self
  /\ raw_transactions self' = raw_transactions self
  /\ processed_transactions self' = processed_transactions self.

(** [u] is what the replay of [r] appends to [unified_transactions]. *)
Definition replayed_as (accounts : gmap string account) (r : journal_record)
  (u : unified_transaction) : Prop :=
  ut_id u = pt_id r
  /\ ut_date u = date_to_string (pt_date r)
  /\ ut_description u = pt_description r
  /\ ut_category u = pt_category r
  /\ ut_entries u = map (unified_view accounts) (pt_entries r).




(** *** Journal building, row by row *)

(** Nothing but the records and the ['processed'] flags differs between
    [self] and [self'], and a row marked processed stays so. *)
Definition marked_more (self self' : processor) : Prop :=
  cls self' = cls self
  /\ accounts self' = accounts self
  /\ categories self' = categories self
  /\ map unflag (raw_transactions self') = map unflag (raw_transactions self)
  /\ unified_transactions self' = unified_transactions self
  /\ account_balances self' = account_balances self
  /\ forall j t, raw_transactions self !! j = Some t ->
       exists t', raw_transactions self' !! j = Some t'
                  /\ (tx_processed t = true -> tx_processed t' = true).

(** The row at position [i], if there is one, is marked processed. *)
Definition marked_at (i : nat) (self : processor) : Prop :=
  forall t, raw_transactions self !! i = Some t -> tx_processed t = true.

(** Where the account of an entry built for [t] comes from: the row
    itself, a bucket, the account reference of the row, or a row of the
    pool. *)
Definition entry_source (self : processor) (t : raw_transaction)
  (account : string) : Prop :=
  account = tx_account t
  \/ account ∈ ["expense"; "income"; "transfer"]
  \/ find_account_by_reference (tx_account_reference t) = Some account
  \/ exists o, o ∈ raw_transactions self /\ tx_account o = account.

(** The accounts that the journal builder names by itself: the buckets
    and the bank accounts of the reference table. *)
Definition builder_accounts : list string :=
  ["expense"; "income"; "transfer"; "credit_card"; "debit";
   "emergency_fund"; "old_credit_card"; "saver"].

(** An account that an entry of the journal can be on: one that the
    builder names by itself, or the account of a row of the pool. *)
Definition known_account (self : processor) (account : string) : Prop :=
  account ∈ builder_accounts
  \/ account ∈ map tx_account (raw_transactions self).

(** A record without entries, or with an entry on the account of a row
    of the pool. *)
Definition owner_leg (self : processor) (r : journal_record) : Prop :=
  pt_entries r = []
  \/ Exists (fun e => e_account e ∈ map tx_account (raw_transactions self))
       (pt_entries r).

(** The entries of a new record are on known accounts, one of them on the
    account of a row of the pool. *)
Definition new_record (self : processor) (r : journal_record) : Prop :=
  Forall (fun e => known_account self (e_account e)) (pt_entries r)
  /\ owner_leg self r.

(** [r] carries the date, the description and the category of the row at
    position [j] of the pool. *)
Definition from_row (self : processor) (j : nat) (r : journal_record)
  : Prop :=
  exists t,
    raw_transactions self !! j = Some t
    /\ pt_date r = tx_date t
    /\ pt_description r = tx_description t
    /\ pt_category r = tx_category t.

(** The number of rows that are not marked processed. *)
Definition count_unprocessed (pool : list raw_transaction) : nat :=
  length (List.filter (fun t => negb (tx_processed t)) pool).

(** Every row of the pool is marked processed. *)
Definition all_processed (self : processor) : Prop :=
  Forall (fun t => tx_processed t = true) (raw_transactions self).


(** *** Loading *)

(** The rows of a CSV file that the loaders keep: three cells or more,
    and an amount that is not zero. *)
Definition kept_row (row : list string) : bool :=
  match row with
  | _ :: c1 :: _ :: _ => PyFloat.neb (parse_amount (Text c1)) PyFloat.zero
  | _ => false
  end.

(** The fourth cell as the balance: [None] when the cell is missing or
    empty. *)
Definition balance_of_row (row : list string) : option pyfloat :=
  match row with
  | _ :: _ :: _ :: c3 :: _ =>
      if String.eqb c3 "" then None else Some (parse_amount (Text c3))
  | _ => None
  end.

(** [t] is the transaction that a loader appends for [row]. *)
Definition loaded_as (with_balance : bool) (filepath account_type : string)
  (categories : list (string * list string)) (row : list string)
  (t : raw_transaction) : Prop :=
  exists c0 c1 c2 rest,
    row = c0 :: c1 :: c2 :: rest
    /\ tx_source_file t = filepath
    /\ tx_account t = account_type
    /\ tx_date t = parse_date c0
    /\ tx_amount t = parse_amount (Text c1)
    /\ tx_description t = clean_description (Text c2)
    /\ tx_balance t = (if with_balance then balance_of_row row else None)
    /\ tx_category t
       = categorize_transaction categories (tx_description t)
    /\ tx_is_transfer t = is_transfer (tx_description t)
    /\ tx_account_reference t
       = extract_account_reference (tx_description t)
    /\ tx_processed t = false.



(** *** The rows that [FileLoader] returns *)

(** [r] is the row that [FileLoader] returns for [row]: the description
    is the third cell as it stands. *)
Definition read_as (account_id : string) (row : list string)
  (r : loaded_row) : Prop :=
  exists c0 c1 c2 rest,
    row = c0 :: c1 :: c2 :: rest
    /\ lr_date r = parse_date c0
    /\ lr_amount r = parse_amount (Text c1)
    /\ lr_description r = c2
    /\ lr_account_id r = account_id.

(** A row of [FileLoader] and a transaction of
    [EnhancedDoubleEntryAccountingSystem] that stand for the same row of a
    file: the transaction carries the cleaned description. *)
Definition same_row (r : loaded_row) (t : raw_transaction) : Prop :=
  lr_date r = tx_date t
  /\ lr_amount r = tx_amount t
  /\ lr_account_id r = tx_account t
  /\ clean_description (Text (lr_description r)) = tx_description t.


(** *** Dates *)

(** A date of the calendar, at midnight. *)
Definition calendar_midnight (d : datetime) : Prop :=
  1 <= year d <= 9999
  /\ 1 <= month d <= 12
  /\ 1 <= day d <= PyDatetime.days_in_month (year d) (month d)
  /\ micros d = 0.

(** [f"{d:02d}/{m:02d}/{y:04d}"], the text of a date as the bank writes
    it. *)
Definition dmy_text (y m d : Z) : string :=
  PyDatetime.pad2 d ++ "/" ++ PyDatetime.pad2 m ++ "/" ++ PyDatetime.pad4 y.

(** *** Texts *)

(** A word: one character or more, none of them whitespace. *)
Definition word (s : string) : Prop :=
  s <> "" /\ Forall (fun c => PyStr.is_space c = false) (PyStr.chars s).

(** [needle] occurs in [hay]. *)
Definition occurs_in (needle hay : string) : Prop :=
  exists before after, hay = before ++ needle ++ after.

(** One of the keywords occurs in the description, letter case apart. *)
Definition mentions (keywords : list string) (description : string) : Prop :=
  exists keyword,
    keyword ∈ keywords
    /\ occurs_in (PyStr.upper keyword) (PyStr.upper description).

(** *** Export, transaction by transaction *)





(** *** The rows of the bank files *)



(** *** The balance of an account *)



(** *** Chronological order *)

(** The timestamp of a date that parsed. *)
Definition date_key (d : pydate) : Z :=
  match d with
  | Date dt => PyDatetime.timestamp dt
  | DateText _ => 0
  end.

(** No element of [l] comes before an element with a smaller key. *)
Fixpoint in_order {A} (key : A -> Z) (l : list A) : Prop :=
  match l with
  | [] => True
  | x :: l' => Forall (fun y => key x <= key y) l' /\ in_order key l'
  end.

(* ===================================================================== *)
(** * Properties *)
(* ===================================================================== *)

(** Equality of floats that differ in the proof of canonicity only. *)
Lemma Finite_eq (a b : Qc) : (this a == this b)%Q -> Finite a = Finite b.
Proof. intros H. f_equal. apply Qc_is_canon. exact H. Qed.

Ltac float_eq :=
  repeat first
    [ reflexivity
    | apply Finite_eq; vm_compute; reflexivity
    | f_equal ].

(* ===================================================================== *)
(** ** Float arithmetic *)
(* ===================================================================== *)

Lemma float_add_comm (x y : pyfloat) : PyFloat.add x y = PyFloat.add y x.
Proof.
  destruct x, y; simpl; try reflexivity.
  f_equal. apply Qcplus_comm.
Qed.

Lemma float_add_assoc (x y z : pyfloat) :
  PyFloat.add x (PyFloat.add y z) = PyFloat.add (PyFloat.add x y) z.
Proof.
  destruct x, y, z; simpl; try reflexivity.
  f_equal. apply Qcplus_assoc.
Qed.

Lemma float_add_zero_l (x : pyfloat) : PyFloat.add PyFloat.zero x = x.
Proof.
  destruct x; simpl; try reflexivity.
  f_equal. apply Qcplus_0_l.
Qed.

Lemma float_add_zero_r (x : pyfloat) : PyFloat.add x PyFloat.zero = x.
Proof. rewrite float_add_comm. apply float_add_zero_l. Qed.

Lemma float_sub_self_finite (q : Qc) :
  PyFloat.sub (Finite q) (Finite q) = PyFloat.zero.
Proof.
  unfold PyFloat.sub, PyFloat.zero, PyFloat.of_Z. simpl.
  f_equal. apply Qcplus_opp_r.
Qed.

Lemma fold_add_shift (l : list pyfloat) (a b : pyfloat) :
  fold_left PyFloat.add l (PyFloat.add a b)
  = PyFloat.add a (fold_left PyFloat.add l b).
Proof.
  revert b. induction l as [|x l IH]; intros b; cbn [fold_left];
    [reflexivity|].
  rewrite <- float_add_assoc. apply IH.
Qed.

Lemma float_sum_cons (x : pyfloat) (l : list pyfloat) :
  PyFloat.sum (x :: l) = PyFloat.add x (PyFloat.sum l).
Proof.
  unfold PyFloat.sum. cbn [fold_left].
  rewrite (float_add_comm PyFloat.zero x). apply fold_add_shift.
Qed.

Lemma float_sum_nil : PyFloat.sum [] = PyFloat.zero.
Proof. reflexivity. Qed.

(** The order of summation is immaterial. *)
Lemma float_sum_Permutation (l1 l2 : list pyfloat) :
  Permutation l1 l2 -> PyFloat.sum l1 = PyFloat.sum l2.
Proof.
  induction 1 as [|x l l' _ IH|x y l|l l' l'' _ IH1 _ IH2].
  - reflexivity.
  - rewrite !float_sum_cons. f_equal. exact IH.
  - rewrite !float_sum_cons. rewrite !float_add_assoc. f_equal. apply float_add_comm.
  - congruence.
Qed.

Lemma ltb_float_lt (x y : pyfloat) : PyFloat.ltb x y = true <-> float_lt x y.
Proof.
  unfold PyFloat.ltb, float_lt.
  destruct (PyFloat.cmp x y) as [[| |]|]; split; intros H;
    try reflexivity; try discriminate; inversion H.
Qed.

(* ===================================================================== *)
(** ** Balance ledger: the posting rule *)
(* ===================================================================== *)


(** An entry on an account that is not registered leaves every balance as
    it is. *)
Lemma post_entry_unregistered (e : entry) (self : processor) (w : env) :
  accounts self !! e_account e = None ->
  post_entry e self w = Return tt self w.
Proof.
  intros Ha. unfold post_entry, bind, get_self. rewrite Ha. reflexivity.
Qed.

(* ===================================================================== *)
(** ** Verifier *)
(* ===================================================================== *)

Lemma foldr_add_sum (l : list (string * pyfloat)) :
  foldr (uncurry (fun (_ : string) b acc => PyFloat.add acc b)) PyFloat.zero l
  = PyFloat.sum (map snd l).
Proof.
  induction l as [|[k b] l IH]; [reflexivity|].
  cbn [foldr map snd]. rewrite float_sum_cons, float_add_comm, <- IH. reflexivity.
Qed.

Lemma map_total_sum (m : gmap string pyfloat) :
  map_total m = PyFloat.sum (map snd (map_to_list m)).
Proof. unfold map_total. rewrite map_fold_foldr. apply foldr_add_sum. Qed.

(** The generator expression of the verifier, which walks the balances
    and tests the type of each account, sums the balances of the accounts
    of these types. *)
Lemma balances_total_spec (self : processor) (side : account_type -> bool)
  (types : list account_type) :
  (forall t, side t = true <-> t ∈ types) ->
  EnhancedDoubleEntryAccountingSystem.balances_total self side
  = map_total (balances_of self types).
Proof.
  intros Hside.
  rewrite map_total_sum.
  unfold EnhancedDoubleEntryAccountingSystem.balances_total.
  apply float_sum_Permutation. apply Permutation_map.
  apply NoDup_Permutation.
  - apply NoDup_ListNoDup, List.NoDup_filter, NoDup_ListNoDup.
    apply NoDup_map_to_list.
  - apply NoDup_map_to_list.
  - intros [k b]. rewrite list_elem_of_In, filter_In, <- list_elem_of_In.
    rewrite !elem_of_map_to_list. unfold balances_of.
    rewrite map_lookup_filter_Some. cbn [fst].
    split.
    + intros [Hb Hk]. split; [exact Hb|].
      destruct (accounts self !! k) as [a|] eqn:Ha; [|discriminate].
      exists a. split; [exact Ha|]. apply Hside. exact Hk.
    + intros [Hb [a [Ha Hin]]]. split; [exact Hb|].
      rewrite Ha. apply Hside. exact Hin.
Qed.

Lemma in_asset_expense_spec (t : account_type) :
  in_asset_expense t = true <-> t ∈ [ASSET; EXPENSE].
Proof.
  destruct t; cbn; split; intros H; try reflexivity; try discriminate;
    try (repeat constructor);
    repeat match goal with
           | H : _ ∈ _ :: _ |- _ => apply elem_of_cons in H; destruct H
           | H : _ ∈ [] |- _ => apply elem_of_nil in H; contradiction
           end; discriminate.
Qed.

Lemma in_liability_equity_income_spec (t : account_type) :
  in_liability_equity_income t = true <-> t ∈ [LIABILITY; EQUITY; INCOME].
Proof.
  destruct t; cbn; split; intros H; try reflexivity; try discriminate;
    try (repeat constructor);
    repeat match goal with
           | H : _ ∈ _ :: _ |- _ => apply elem_of_cons in H; destruct H
           | H : _ ∈ [] |- _ => apply elem_of_nil in H; contradiction
           end; discriminate.
Qed.

(** The verifier of [EnhancedDoubleEntryAccountingSystem] answers [True]
    exactly when the balances of the ASSET and EXPENSE accounts and those
    of the LIABILITY, EQUITY and INCOME accounts add up to totals less
    than 0.01 apart; it returns the object as it found it. *)
Lemma enhanced_verify_spec (self : processor) (w : env) :
  exists b w',
    EnhancedDoubleEntryAccountingSystem.verify_double_entry_accounting self w
    = Return b self w'
    /\ only_printed w w'
    /\ (b = true <->
        float_lt
          (PyFloat.abs
             (PyFloat.sub (map_total (balances_of self [ASSET; EXPENSE]))
                (map_total (balances_of self [LIABILITY; EQUITY; INCOME]))))
          PyFloat.cent).
Proof.
  unfold EnhancedDoubleEntryAccountingSystem.verify_double_entry_accounting.
  unfold bind, get_self, print, ret.
  eexists _, _. split; [reflexivity|]. split.
  - unfold only_printed; cbn. repeat split; try reflexivity.
    eexists; reflexivity.
  - rewrite <- ltb_float_lt.
    rewrite (balances_total_spec self _ _ in_asset_expense_spec).
    rewrite (balances_total_spec self _ _ in_liability_equity_income_spec).
    reflexivity.
Qed.

(* ===================================================================== *)
(** ** Counterparty matching *)
(* ===================================================================== *)

Lemma find_index_first {A} (f : A -> bool) (l : list A) :
  match find_index f l with
  | Some (i, x) =>
      l !! i = Some x /\ f x = true
      /\ forall j y, (j < i)%nat -> l !! j = Some y -> f y = false
  | None => forall x, x ∈ l -> f x = false
  end.
Proof.
  induction l as [|x l IH]; cbn [find_index].
  - intros x Hx. apply elem_of_nil in Hx. contradiction.
  - destruct (f x) eqn:Hfx.
    + split; [reflexivity|]. split; [exact Hfx|]. intros j y Hj. lia.
    + destruct (find_index f l) as [[i y]|].
      * destruct IH as (Hi & Hy & Hbefore).
        split; [exact Hi|]. split; [exact Hy|].
        intros [|j] z Hj Hz.
        -- cbn in Hz. inversion Hz; subst. exact Hfx.
        -- cbn in Hz. apply (Hbefore j); [lia | exact Hz].
      * intros z Hz. apply elem_of_cons in Hz as [->|Hz];
          [exact Hfx | apply IH; exact Hz].
Qed.

Lemma eqb_float_eq (x y : pyfloat) :
  PyFloat.eqb x y = true <-> PyFloat.cmp x y = Some Eq.
Proof.
  unfold PyFloat.eqb.
  destruct (PyFloat.cmp x y) as [[| |]|]; split; intros H;
    try reflexivity; try discriminate; inversion H.
Qed.

Lemma bool_eqb_iff (a b : bool) :
  Bool.eqb a b = true <-> (a = true <-> b = true).
Proof. destruct a, b; cbn; split; intros H; try reflexivity;
  try discriminate; try (split; intros; assumption || discriminate);
  destruct H as [H1 H2]; (specialize (H1 eq_refl) || specialize (H2 eq_refl));
  discriminate.
Qed.

(** The condition tested in the loop says that [other_tx] is a
    counterpart with exactly the same absolute amount. *)
Lemma matches_transfer_counterpart (t o : raw_transaction) (d : datetime) :
  tx_date t = Date d ->
  matches_transfer t (tx_amount t)
    (PyDatetime.timestamp d - 2 * PyDatetime.us_per_day)
    (PyDatetime.timestamp d + 2 * PyDatetime.us_per_day) o = true
  <-> counterpart same_magnitude t o.
Proof.
  intros Hd. unfold matches_transfer, counterpart.
  rewrite !andb_true_iff, negb_true_iff, negb_true_iff.
  rewrite String.eqb_neq, eqb_float_eq, bool_eqb_iff.
  unfold PyFloat.gtb. rewrite !ltb_float_lt.
  unfold same_magnitude, is_negative, is_positive.
  split.
  - intros ((((Hp & Ha) & Hdate) & Hm) & Hs).
    repeat split; try assumption; try apply Hs.
    destruct (tx_date o) as [d'|] eqn:Ho; [|discriminate].
    exists d, d'. repeat split; try assumption.
    apply andb_true_iff in Hdate as [H1 H2].
    apply Z.leb_le in H1, H2. unfold within_two_days. lia.
  - intros (Hp & Ha & (d0 & d' & Hd0 & Hd' & Hw) & Hm & Hs).
    rewrite Hd in Hd0. inversion Hd0; subst d0.
    repeat split; try assumption; try apply Hs.
    rewrite Hd'. unfold within_two_days in Hw.
    apply andb_true_iff. split; apply Z.leb_le; lia.
Qed.

Lemma first_in_pool_iff (P Q : raw_transaction -> Prop) pool r :
  (forall o, P o <-> Q o) -> first_in_pool P pool r -> first_in_pool Q pool r.
Proof.
  intros HPQ. destruct r as [[i o]|]; cbn.
  - intros (Hi & HP & Hb). split; [exact Hi|]. split; [apply HPQ, HP|].
    intros j o' Hj Hj'. rewrite <- HPQ. eapply Hb; eassumption.
  - intros Hn o Ho. rewrite <- HPQ. apply Hn, Ho.
Qed.

Lemma only_printed_refl (w : env) : only_printed w w.
Proof.
  unfold only_printed. repeat split. exists []. symmetry. apply app_nil_r.
Qed.

Lemma only_printed_print (w : env) (ev : event) (self : processor) :
  exists w', print ev self w = Return tt self w' /\ only_printed w w'.
Proof.
  eexists. split; [reflexivity|]. unfold only_printed; cbn.
  repeat split. eexists; reflexivity.
Qed.

Lemma only_printed_trans (w1 w2 w3 : env) :
  only_printed w1 w2 -> only_printed w2 w3 -> only_printed w1 w3.
Proof.
  intros (A1 & A2 & A3 & A4 & o1 & A5) (B1 & B2 & B3 & B4 & o2 & B5).
  unfold only_printed. repeat split; try congruence.
  exists (o1 ++ o2)%list. rewrite B5, A5. symmetry. apply app_assoc.
Qed.

Lemma when_print (b : bool) (ev : event) (self : processor) (w : env) :
  exists w', when b (print ev) self w = Return tt self w' /\ only_printed w w'.
Proof.
  destruct b; cbn [when].
  - apply only_printed_print.
  - exists w. split; [reflexivity | apply only_printed_refl].
Qed.

(** C2, amended.  For a transaction [t] whose date parsed (and lies
    between 0001-01-03 and 9999-12-29), counterparty matching returns the
    first unconsumed record of the pool, in pool order, that has another
    account, a date at most two days away, the same absolute amount
    exactly, and a negative amount iff [t]'s is positive; it returns
    [None] when the pool has no such record.  The object is left as it
    was. *)
Theorem C2_counterparty_matching (t : raw_transaction) (d : datetime)
  (self : processor) (w : env) :
  tx_date t = Date d ->
  two_days_in_range d ->
  exists r w',
    find_matching_transfer t (tx_amount t) self w = Return r self w'
    /\ only_printed w w'
    /\ first_in_pool (counterpart same_magnitude t) (raw_transactions self) r.
Proof.
  intros Hd [Hlo Hhi].
  unfold find_matching_transfer. rewrite Hd.
  unfold two_days_around, bind at 1.
  destruct (Z.ltb_spec (PyDatetime.toordinal d - 2) PyDatetime.min_ordinal);
    [lia|].
  destruct (Z.ltb_spec PyDatetime.max_ordinal (PyDatetime.toordinal d + 2));
    [lia|].
  unfold ret at 1. unfold bind at 1. unfold get_self. cbn [fst snd].
  pose proof (find_index_first
    (matches_transfer t (tx_amount t)
       (PyDatetime.timestamp d - 2 * PyDatetime.us_per_day)
       (PyDatetime.timestamp d + 2 * PyDatetime.us_per_day))
    (raw_transactions self)) as Hfind.
  pose proof (fun o => matches_transfer_counterpart t o d Hd) as Hiff.
  set (verbose := match cls self with
                  | TransactionProcessorClass => true
                  | EnhancedSystemClass => false end).
  unfold bind at 1.
  destruct (when_print verbose
              (LookingForMatchingTransfer d (PyFloat.abs (tx_amount t))
                 (tx_description t)) self w) as (w1 & -> & Hw1).
  destruct (find_index _ (raw_transactions self)) as [[i o]|].
  - unfold bind.
    destruct (when_print verbose
                (FoundMatch (tx_date o) (PyFloat.abs (tx_amount o))
                   (tx_description o)) self w1) as (w2 & -> & Hw2).
    exists (Some (i, o)), w2. split; [reflexivity|].
    split; [eapply only_printed_trans; eassumption|].
    apply (first_in_pool_iff _ _ _ _ Hiff).
    destruct Hfind as (Hi & Ho & Hb). cbn. split; [exact Hi|].
    split; [exact Ho|]. intros j o' Hj Hj'.
    rewrite (Hb j o' Hj Hj'). discriminate.
  - unfold bind.
    destruct (when_print verbose NoMatchFound self w1) as (w2 & -> & Hw2).
    exists None, w2. split; [reflexivity|].
    split; [eapply only_printed_trans; eassumption|].
    apply (first_in_pool_iff _ _ _ _ Hiff).
    cbn. intros o Ho. rewrite (Hfind o Ho). discriminate.
Qed.

(* ===================================================================== *)
(** ** Journal builder: the shape of a record *)
(* ===================================================================== *)

Lemma same_but_flags_refl (self : processor) : same_but_flags self self.
Proof. unfold same_but_flags. repeat split. Qed.

Lemma same_but_flags_trans (s1 s2 s3 : processor) :
  same_but_flags s1 s2 -> same_but_flags s2 s3 -> same_but_flags s1 s3.
Proof.
  unfold same_but_flags. intros (?&?&?&?&?&?&?) (?&?&?&?&?&?&?).
  repeat split; congruence.
Qed.

Lemma map_unflag_alter (i : nat) (l : list raw_transaction) :
  map unflag
    (alter (fun t =>
              mk_raw (tx_source_file t) (tx_date t) (tx_amount t)
                (tx_description t) (tx_balance t) (tx_account t)
                (tx_category t) (tx_is_transfer t)
                (tx_account_reference t) true) i l)
  = map unflag l.
Proof.
  revert i. induction l as [|x l IH]; intros [|i]; cbn; try reflexivity.
  f_equal. apply IH.
Qed.

Lemma mark_processed_spec (i : nat) (self : processor) (w : env) :
  exists self', mark_processed i self w = Return tt self' w
                /\ same_but_flags self self'.
Proof.
  eexists. split; [reflexivity|].
  unfold same_but_flags; cbn. repeat split. apply map_unflag_alter.
Qed.

Lemma find_matching_transfer_cases (t : raw_transaction) (amount : pyfloat)
  (self : processor) (w : env) :
  match find_matching_transfer t amount self w with
  | Raise e => builder_failure t self e
  | Return r self' w' => self' = self /\ only_printed w w'
  end.
Proof.
  unfold find_matching_transfer.
  destruct (tx_date t) as [d|s] eqn:Hd.
  2:{ cbn. split; [reflexivity | apply only_printed_refl]. }
  unfold two_days_around, bind at 1.
  destruct (Z.ltb_spec (PyDatetime.toordinal d - 2) PyDatetime.min_ordinal).
  { cbn. right. split; [reflexivity|]. exists d. split; [exact Hd|].
    unfold two_days_in_range. lia. }
  destruct (Z.ltb_spec PyDatetime.max_ordinal (PyDatetime.toordinal d + 2)).
  { cbn. right. split; [reflexivity|]. exists d. split; [exact Hd|].
    unfold two_days_in_range. lia. }
  unfold ret at 1. unfold bind at 1. unfold get_self. cbn [fst snd].
  set (verbose := match cls self with
                  | TransactionProcessorClass => true
                  | EnhancedSystemClass => false end).
  unfold bind at 1.
  destruct (when_print verbose
              (LookingForMatchingTransfer d (PyFloat.abs amount)
                 (tx_description t)) self w) as (w1 & -> & Hw1).
  destruct (find_index _ (raw_transactions self)) as [[i o]|].
  - unfold bind.
    destruct (when_print verbose
                (FoundMatch (tx_date o) (PyFloat.abs (tx_amount o))
                   (tx_description o)) self w1) as (w2 & -> & Hw2).
    cbn. split; [reflexivity | eapply only_printed_trans; eassumption].
  - unfold bind.
    destruct (when_print verbose NoMatchFound self w1) as (w2 & -> & Hw2).
    cbn. split; [reflexivity | eapply only_printed_trans; eassumption].
Qed.

Lemma handle_transfer_credit_cases (pt : journal_record)
  (t : raw_transaction) (self : processor) (w : env) :
  match _handle_transfer_credit pt t self w with
  | Raise e => builder_failure t self e
  | Return pt' self' w' =>
      (exists credit_account,
          pt' = _add_entry pt credit_account (tx_amount t) CREDIT)
      /\ same_but_flags self self' /\ only_printed w w'
  end.
Proof.
  unfold _handle_transfer_credit.
  set (by_reference := match (if truthy _ then _ else _) with
                       | Some _ => _ | None => _ end).
  assert (Href : exists credit_account,
             by_reference = _add_entry pt credit_account (tx_amount t) CREDIT).
  { subst by_reference.
    destruct (if truthy _ then _ else _) as [acc|];
      [destruct (truthy (Some acc))|]; eexists; reflexivity. }
  clearbody by_reference.
  unfold bind at 1, accounts_getitem, bind at 1, get_self.
  destruct (accounts self !! tx_account t) as [a|] eqn:Ha.
  2:{ cbn. left. split; [reflexivity | exact Ha]. }
  cbn [ret].
  assert (Hdefault :
    (exists credit_account,
        by_reference = _add_entry pt credit_account (tx_amount t) CREDIT)
    /\ same_but_flags self self /\ only_printed w w).
  { split; [exact Href|]. split;
      [apply same_but_flags_refl | apply only_printed_refl]. }
  destruct (acct_type a); try exact Hdefault.
  unfold bind at 1.
  pose proof (find_matching_transfer_cases t (tx_amount t) self w) as Hf.
  destruct (find_matching_transfer t (tx_amount t) self w)
    as [e|r self1 w1]; [exact Hf|].
  destruct Hf as [-> Hw1].
  destruct r as [[i o]|].
  - unfold bind.
    destruct (mark_processed_spec i self w1) as (self2 & -> & Hs2).
    cbn. split; [eexists; reflexivity|]. split; assumption.
  - cbn. split; [exact Href|]. split;
      [apply same_but_flags_refl | exact Hw1].
Qed.

Lemma drew_then_printed (w w1 w2 : env) :
  drew_one_id w w1 -> only_printed w1 w2 -> drew_one_id w w2.
Proof.
  intros (A1 & A2 & A3 & A4 & o1 & A5) (B1 & B2 & B3 & B4 & o2 & B5).
  unfold drew_one_id. repeat split; try congruence.
  exists (o1 ++ o2)%list. rewrite B5, A5. symmetry. apply app_assoc.
Qed.

Lemma uuid4_drew (self : processor) (w : env) :
  exists w', uuid4 self w = Return (uuid_oracle w (uuid_calls w)) self w'
             /\ drew_one_id w w'.
Proof.
  eexists. split; [reflexivity|]. unfold drew_one_id; cbn.
  repeat split. exists []. symmetry. apply app_nil_r.
Qed.

Lemma handle_transfer_debit_entry (pt : journal_record)
  (t : raw_transaction) :
  exists debit_account,
    _handle_transfer_debit pt t
    = _add_entry pt debit_account (PyFloat.abs (tx_amount t)) DEBIT.
Proof.
  unfold _handle_transfer_debit.
  destruct (if truthy _ then _ else _) as [acc|];
    [destruct (truthy (Some acc))|]; eexists; reflexivity.
Qed.

Lemma construct_cases (t : raw_transaction) (self : processor) (w : env) :
  match construct_processed_transaction t self w with
  | Raise e => builder_failure t self e
  | Return pt self' w' =>
      exists a entries,
        accounts self !! tx_account t = Some a
        /\ pt = mk_processed (uuid_oracle w (uuid_calls w)) (tx_date t)
                 (tx_description t) (tx_category t) entries
        /\ entries_as_constructed (acct_type a) t entries
        /\ same_but_flags self self' /\ drew_one_id w w'
  end.
Proof.
  unfold construct_processed_transaction.
  unfold bind at 1.
  destruct (uuid4_drew self w) as (w0 & -> & Hw0).
  unfold bind at 1, accounts_getitem, bind at 1, get_self.
  destruct (accounts self !! tx_account t) as [a|] eqn:Ha.
  2:{ cbn. left. split; [reflexivity | exact Ha]. }
  cbn [ret].
  set (pt0 := mk_processed _ _ _ _ []).
  assert (Hcredit :
    forall ty, (ty = ASSET \/ ty = LIABILITY) ->
    PyFloat.ltb (tx_amount t) PyFloat.zero = false ->
    match
      (if tx_is_transfer t
       then _handle_transfer_credit
              (_add_entry pt0 (tx_account t) (tx_amount t) DEBIT) t
       else ret (_add_entry
                   (_add_entry pt0 (tx_account t) (tx_amount t) DEBIT)
                   (match ty with ASSET => "income" | _ => "transfer" end)
                   (tx_amount t) CREDIT)) self w0
    with
    | Raise e => builder_failure t self e
    | Return pt self' w' =>
        exists entries,
          pt = mk_processed (uuid_oracle w (uuid_calls w)) (tx_date t)
                 (tx_description t) (tx_category t) entries
          /\ entries_as_constructed ty t entries
          /\ same_but_flags self self' /\ drew_one_id w w'
    end).
  { intros ty Hty Hneg.
    assert (Hshape : forall ca,
      entries_as_constructed ty t
        [mk_entry (tx_account t) (tx_amount t) DEBIT;
         mk_entry ca (tx_amount t) CREDIT]).
    { intros ca. unfold entries_as_constructed, journal_amount.
      rewrite Hneg. destruct Hty as [-> | ->]; eexists _, _; reflexivity. }
    destruct (tx_is_transfer t).
    - pose proof (handle_transfer_credit_cases
                    (_add_entry pt0 (tx_account t) (tx_amount t) DEBIT)
                    t self w0) as Hc.
      destruct (_handle_transfer_credit _ t self w0) as [e|pt' self' w'];
        [exact Hc|].
      destruct Hc as ((ca & ->) & Hs & Hw).
      eexists. split; [reflexivity|]. split; [apply Hshape|].
      split; [exact Hs | eapply drew_then_printed; eassumption].
    - cbn [ret]. eexists. split; [reflexivity|]. split; [apply Hshape|].
      split; [apply same_but_flags_refl | exact Hw0]. }
  assert (Hdebit :
    forall ty da ca, (ty = ASSET \/ ty = LIABILITY) ->
    PyFloat.ltb (tx_amount t) PyFloat.zero = true ->
    entries_as_constructed ty t
      [mk_entry da (PyFloat.abs (tx_amount t)) DEBIT;
       mk_entry ca (PyFloat.abs (tx_amount t)) CREDIT]).
  { intros ty da ca Hty Hneg. unfold entries_as_constructed, journal_amount.
    rewrite Hneg. destruct Hty as [-> | ->]; eexists _, _; reflexivity. }
  destruct (acct_type a) eqn:Hty.
  - (* ASSET *)
    unfold _process_asset_transaction.
    destruct (PyFloat.ltb (tx_amount t) PyFloat.zero) eqn:Hneg.
    + cbn [ret]. exists a.
      destruct (tx_is_transfer t).
      * destruct (handle_transfer_debit_entry pt0 t) as (da & ->).
        eexists. split; [reflexivity|]. split; [reflexivity|].
        rewrite Hty. split; [apply Hdebit; [left; reflexivity | reflexivity]|].
        split; [apply same_but_flags_refl | exact Hw0].
      * eexists. split; [reflexivity|]. split; [reflexivity|].
        rewrite Hty. split; [apply Hdebit; [left; reflexivity | reflexivity]|].
        split; [apply same_but_flags_refl | exact Hw0].
    + specialize (Hcredit ASSET (or_introl eq_refl) eq_refl).
      cbn in Hcredit.
      destruct (if tx_is_transfer t then _ else _) as [e|pt' self' w'];
        [exact Hcredit|].
      destruct Hcredit as (entries & Hpt & Hentries & Hs & Hw).
      exists a, entries. rewrite Hty.
      split; [reflexivity|]. split; [exact Hpt|]. split; [exact Hentries|].
      split; [exact Hs | exact Hw].
  - (* LIABILITY *)
    unfold _process_liability_transaction.
    destruct (PyFloat.ltb (tx_amount t) PyFloat.zero) eqn:Hneg.
    + cbn [ret]. exists a.
      eexists. split; [reflexivity|]. split; [reflexivity|].
      rewrite Hty. split; [apply Hdebit; [right; reflexivity | reflexivity]|].
      split; [apply same_but_flags_refl | exact Hw0].
    + specialize (Hcredit LIABILITY (or_intror eq_refl) eq_refl).
      cbn in Hcredit.
      destruct (if tx_is_transfer t then _ else _) as [e|pt' self' w'];
        [exact Hcredit|].
      destruct Hcredit as (entries & Hpt & Hentries & Hs & Hw).
      exists a, entries. rewrite Hty.
      split; [reflexivity|]. split; [exact Hpt|]. split; [exact Hentries|].
      split; [exact Hs | exact Hw].
  - cbn [ret]. exists a, []. rewrite Hty.
    repeat (split; [reflexivity|]).
    split; [apply same_but_flags_refl | exact Hw0].
  - cbn [ret]. exists a, []. rewrite Hty.
    repeat (split; [reflexivity|]).
    split; [apply same_but_flags_refl | exact Hw0].
  - cbn [ret]. exists a, []. rewrite Hty.
    repeat (split; [reflexivity|]).
    split; [apply same_but_flags_refl | exact Hw0].
Qed.

(* ===================================================================== *)
(** ** Journal builder: the batch *)
(* ===================================================================== *)

Lemma validate_spec (pt : journal_record) (self : processor) (w : env) :
  validate_debits_equal_credits pt self w
  = Return pt self (add_stdout (not_balanced_warning pt) w).
Proof.
  unfold validate_debits_equal_credits, not_balanced_warning, add_stdout.
  destruct (PyFloat.gtb _ PyFloat.cent); cbn.
  - reflexivity.
  - rewrite app_nil_r. destruct w; reflexivity.
Qed.

Lemma drew_one_id_add_stdout (w w' : env) (out : list event) :
  drew_one_id w w' -> drew_one_id w (add_stdout out w').
Proof.
  intros (A1 & A2 & A3 & A4 & o1 & A5).
  unfold drew_one_id, add_stdout; cbn. repeat split; try assumption.
  exists (o1 ++ out)%list. rewrite A5. symmetry. apply app_assoc.
Qed.

Lemma create_cases (t : raw_transaction) (self : processor) (w : env) :
  match _create_processed_transaction t self w with
  | Raise e => builder_failure t self e
  | Return pt self' w' =>
      exists a entries,
        accounts self !! tx_account t = Some a
        /\ pt = mk_processed (uuid_oracle w (uuid_calls w)) (tx_date t)
                 (tx_description t) (tx_category t) entries
        /\ entries_as_constructed (acct_type a) t entries
        /\ same_but_flags self self' /\ drew_one_id w w'
  end.
Proof.
  unfold _create_processed_transaction, bind at 1.
  pose proof (construct_cases t self w) as Hc.
  destruct (construct_processed_transaction t self w) as [e|pt self1 w1];
    [exact Hc|].
  unfold bind, get_self.
  destruct Hc as (a & entries & Ha & Hpt & He & Hs & Hw).
  destruct (cls self1).
  - cbn. exists a, entries. repeat (split; [assumption|]). assumption.
  - rewrite validate_spec. exists a, entries.
    repeat (split; [assumption|]). apply drew_one_id_add_stdout, Hw.
Qed.

Lemma elem_of_map_unflag (l : list raw_transaction) (i : nat)
  (t : raw_transaction) :
  l !! i = Some t -> unflag t ∈ map unflag l.
Proof.
  intros H. apply list_elem_of_fmap. exists t. split; [reflexivity|].
  eapply list_elem_of_lookup_2. exact H.
Qed.

Lemma journaled_refl (self : processor) : journaled self self [].
Proof.
  unfold journaled. repeat split. symmetry. apply app_nil_r.
Qed.

Lemma journaled_trans (s1 s2 s3 : processor) (n1 n2 : list journal_record) :
  journaled s1 s2 n1 -> journaled s2 s3 n2 -> journaled s1 s3 (n1 ++ n2).
Proof.
  unfold journaled. intros (?&?&?&?&A&?&?) (?&?&?&?&B&?&?).
  repeat split; try congruence.
  rewrite B, A. symmetry. apply app_assoc.
Qed.

Lemma built_from_pool_journaled (s1 s2 : processor) (n : list journal_record)
  (r : journal_record) :
  journaled s1 s2 n -> built_from_pool s2 r -> built_from_pool s1 r.
Proof.
  intros (?&Ha&?&Hr&?) (t & a & Ht & Hacc & Hrest).
  exists t, a. rewrite <- Hr, <- Ha. split; [exact Ht|].
  split; [exact Hacc | exact Hrest].
Qed.

Lemma pool_failure_journaled (s1 s2 : processor) (n : list journal_record)
  (e : exn) :
  journaled s1 s2 n -> pool_failure s2 e -> pool_failure s1 e.
Proof.
  intros (?&Ha&?&Hr&?) (t & Ht & Hf).
  exists t. rewrite <- Hr. split; [exact Ht|].
  unfold builder_failure in *. rewrite <- Ha. exact Hf.
Qed.

(** One turn of the loop of [process_raw_transactions]: nothing for a
    consumed transaction, otherwise the record made for it is appended. *)
Lemma process_one_cases (i : nat) (self : processor) (w : env) :
  match process_one i self w with
  | Raise e => pool_failure self e
  | Return _ self' w' =>
      exists new, journaled self self' new
                  /\ Forall (built_from_pool self) new
  end.
Proof.
  unfold process_one, bind at 1, get_self.
  destruct (raw_transactions self !! i) as [t|] eqn:Hi.
  2:{ cbn. exists []. split; [apply journaled_refl | constructor]. }
  destruct (tx_processed t).
  { cbn. exists []. split; [apply journaled_refl | constructor]. }
  unfold bind at 1.
  pose proof (create_cases t self w) as Hc.
  destruct (_create_processed_transaction t self w) as [e|pt self1 w1].
  { exists t. split; [eapply elem_of_map_unflag; exact Hi | exact Hc]. }
  destruct Hc as (a & entries & Ha & Hpt & He & Hs & Hw).
  unfold bind at 1.
  destruct (mark_processed_spec i self1 w1) as (self2 & -> & Hs2).
  unfold bind, get_self, put_self.
  exists [pt]. split.
  - pose proof (same_but_flags_trans _ _ _ Hs Hs2) as (?&?&?&?&Hp&?&?).
    unfold journaled; cbn. repeat split; try assumption.
    rewrite Hp. reflexivity.
  - constructor; [|constructor].
    exists t, a. split; [eapply elem_of_map_unflag; exact Hi|].
    split; [exact Ha|]. subst pt. cbn. repeat split. exact He.
Qed.

Lemma for_each_process_one (l : list nat) (self : processor) (w : env) :
  match for_each l process_one self w with
  | Raise e => pool_failure self e
  | Return _ self' w' =>
      exists new, journaled self self' new
                  /\ Forall (built_from_pool self) new
  end.
Proof.
  revert self w. induction l as [|i l IH]; intros self w; cbn [for_each].
  - cbn. exists []. split; [apply journaled_refl | constructor].
  - unfold bind.
    pose proof (process_one_cases i self w) as H1.
    destruct (process_one i self w) as [e|[] self1 w1]; [exact H1|].
    destruct H1 as (n1 & J1 & F1).
    specialize (IH self1 w1).
    destruct (for_each l process_one self1 w1) as [e|[] self2 w2].
    + eapply pool_failure_journaled; eassumption.
    + destruct IH as (n2 & J2 & F2).
      exists (n1 ++ n2)%list. split; [eapply journaled_trans; eassumption|].
      apply Forall_app. split; [exact F1|].
      eapply Forall_impl; [exact F2|].
      intros r Hr. eapply built_from_pool_journaled; eassumption.
Qed.

(** Reading the sort keys never fails and leaves the object alone. *)
Lemma map_M_sort_keys {A} (date_of : A -> pydate) (l : list A)
  (self : processor) (w : env) :
  exists keys w',
    map_M (fun x => date_sort_key (date_of x)) l self w
    = Return keys self w'
    /\ length keys = length l.
Proof.
  revert w. induction l as [|x l IH]; intros w; cbn [map_M].
  - eexists _, _. split; reflexivity.
  - unfold bind at 1.
    assert (exists k w1, date_sort_key (date_of x) self w
                         = Return k self w1) as (k & w1 & ->).
    { unfold date_sort_key. destruct (date_of x); eexists _, _; reflexivity. }
    destruct (IH w1) as (keys & w2 & Hk & Hlen).
    unfold bind. rewrite Hk. cbn.
    eexists _, _. split; [reflexivity|]. cbn. f_equal. exact Hlen.
Qed.

Lemma process_raw_transactions_cases (self : processor) (w : env) :
  match process_raw_transactions self w with
  | Raise e => pool_failure self e
  | Return _ self' w' =>
      exists new, journaled self self' new
                  /\ Forall (built_from_pool self) new
  end.
Proof.
  unfold process_raw_transactions, bind at 1, get_self.
  unfold bind at 1, sorted_positions, bind at 1.
  destruct (map_M_sort_keys tx_date (raw_transactions self) self w)
    as (keys & w1 & -> & _).
  cbn [ret]. apply for_each_process_one.
Qed.

(* ===================================================================== *)
(** ** Two runs of the pipeline *)
(* ===================================================================== *)

Section TwoRuns.

(** [D] holds of the dates whose sort key both runs compute alike, and
    [E] relates the worlds of the two runs. *)
Variable D : pydate -> Prop.
Variable E : env -> env -> Prop.

Hypothesis E_print : forall ev1 ev2 s1 s2 w1 w2,
  E w1 w2 ->
  exists w1' w2', print ev1 s1 w1 = Return tt s1 w1'
                  /\ print ev2 s2 w2 = Return tt s2 w2' /\ E w1' w2'.
Hypothesis E_uuid4 : forall s1 s2 w1 w2,
  E w1 w2 ->
  exists i1 i2 w1' w2', uuid4 s1 w1 = Return i1 s1 w1'
                        /\ uuid4 s2 w2 = Return i2 s2 w2' /\ E w1' w2'.
Hypothesis E_key : forall d s1 s2 w1 w2,
  D d -> E w1 w2 ->
  exists k w1' w2', date_sort_key d s1 w1 = Return k s1 w1'
                    /\ date_sort_key d s2 w2 = Return k s2 w2' /\ E w1' w2'.

Lemma alike_ret {A} (RA : A -> A -> Prop) (a1 a2 : A) :
  RA a1 a2 -> alike D E RA (ret a1) (ret a2).
Proof. intros H s1 s2 w1 w2 Hs Hw. cbn. auto. Qed.

Lemma alike_raise {A} (RA : A -> A -> Prop) (e : exn) :
  alike D E RA (raise e) (raise e).
Proof. intros s1 s2 w1 w2 Hs Hw. reflexivity. Qed.

Lemma alike_bind {A B} (RA : A -> A -> Prop) (RB : B -> B -> Prop)
  (c1 c2 : M A) (k1 k2 : A -> M B) :
  alike D E RA c1 c2 ->
  (forall a1 a2, RA a1 a2 -> alike D E RB (k1 a1) (k2 a2)) ->
  alike D E RB (bind c1 k1) (bind c2 k2).
Proof.
  intros Hc Hk s1 s2 w1 w2 Hs Hw. unfold bind.
  specialize (Hc s1 s2 w1 w2 Hs Hw).
  destruct (c1 s1 w1) as [e1|a1 s1' w1'], (c2 s2 w2) as [e2|a2 s2' w2'];
    try contradiction; [exact Hc|].
  destruct Hc as (Ha & Hs' & Hw'). apply (Hk a1 a2 Ha); assumption.
Qed.

Lemma alike_bind_eq {A B} (RB : B -> B -> Prop) (c1 c2 : M A)
  (k1 k2 : A -> M B) :
  alike D E eq c1 c2 ->
  (forall a, alike D E RB (k1 a) (k2 a)) ->
  alike D E RB (bind c1 k1) (bind c2 k2).
Proof.
  intros Hc Hk. eapply alike_bind; [exact Hc|]. intros a ? <-. apply Hk.
Qed.

Lemma alike_get_self : alike D E (akin D) get_self get_self.
Proof. intros s1 s2 w1 w2 Hs Hw. cbn. auto. Qed.

Lemma alike_put_self (p1 p2 : processor) :
  akin D p1 p2 -> alike D E eq (put_self p1) (put_self p2).
Proof. intros Hp s1 s2 w1 w2 Hs Hw. cbn. auto. Qed.

Lemma alike_print (ev1 ev2 : event) : alike D E eq (print ev1) (print ev2).
Proof.
  intros s1 s2 w1 w2 Hs Hw.
  destruct (E_print ev1 ev2 s1 s2 w1 w2 Hw) as (w1' & w2' & -> & -> & Hw').
  auto.
Qed.

Lemma alike_when (b : bool) (ev1 ev2 : event) :
  alike D E eq (when b (print ev1)) (when b (print ev2)).
Proof.
  destruct b; cbn [when]; [apply alike_print | apply alike_ret; reflexivity].
Qed.

Lemma alike_uuid4 : alike D E (fun _ _ => True) uuid4 uuid4.
Proof.
  intros s1 s2 w1 w2 Hs Hw.
  destruct (E_uuid4 s1 s2 w1 w2 Hw) as (i1 & i2 & w1' & w2' & -> & -> & Hw').
  auto.
Qed.

Lemma alike_date_sort_key (d : pydate) :
  D d -> alike D E eq (date_sort_key d) (date_sort_key d).
Proof.
  intros Hd s1 s2 w1 w2 Hs Hw.
  destruct (E_key d s1 s2 w1 w2 Hd Hw) as (k & w1' & w2' & -> & -> & Hw').
  auto.
Qed.

Lemma alike_for_each {A} (RA : A -> A -> Prop) (l1 l2 : list A)
  (body1 body2 : A -> M unit) :
  Forall2 RA l1 l2 ->
  (forall x1 x2, RA x1 x2 -> alike D E eq (body1 x1) (body2 x2)) ->
  alike D E eq (for_each l1 body1) (for_each l2 body2).
Proof.
  intros Hl Hb. induction Hl as [|x1 x2 l1 l2 Hx Hl IH]; cbn [for_each].
  - apply alike_ret. reflexivity.
  - apply alike_bind_eq; [apply Hb, Hx | intros _; exact IH].
Qed.

Lemma alike_map_keys {A} (f1 f2 : A -> pydate) (l1 l2 : list A) :
  Forall2 (fun x1 x2 => f1 x1 = f2 x2 /\ D (f1 x1)) l1 l2 ->
  alike D E eq (map_M (fun x => date_sort_key (f1 x)) l1)
    (map_M (fun x => date_sort_key (f2 x)) l2).
Proof.
  induction 1 as [|x1 x2 l1 l2 [Hx Hd] Hl IH]; cbn [map_M].
  - apply alike_ret. reflexivity.
  - apply alike_bind_eq.
    + rewrite <- Hx. apply alike_date_sort_key, Hd.
    + intros k. apply alike_bind_eq; [exact IH|].
      intros ks. apply alike_ret. reflexivity.
Qed.

(** *** Journal builder *)

Lemma alike_accounts_getitem (key : string) :
  alike D E eq (accounts_getitem key) (accounts_getitem key).
Proof.
  intros s1 s2 w1 w2 Hs Hw. pose proof Hs as (_ & Ha & _).
  unfold accounts_getitem, bind, get_self. rewrite Ha.
  destruct (accounts s2 !! key); cbn; auto.
Qed.

Lemma alike_find_matching_transfer (t : raw_transaction) (amount : pyfloat) :
  alike D E eq (find_matching_transfer t amount)
    (find_matching_transfer t amount).
Proof.
  unfold find_matching_transfer. destruct (tx_date t) as [d|].
  2:{ apply alike_ret. reflexivity. }
  apply alike_bind_eq.
  { unfold two_days_around.
    destruct (_ <? _); [apply alike_raise|].
    destruct (_ <? _); [apply alike_raise|]. apply alike_ret. reflexivity. }
  intros range.
  eapply alike_bind; [apply alike_get_self|].
  intros s1 s2 Hs. pose proof Hs as (Hc & _ & _ & Hr & _).
  rewrite Hc, Hr.
  apply alike_bind_eq; [apply alike_when|]. intros _.
  destruct (find_index _ (raw_transactions s2)) as [[i o]|].
  - apply alike_bind_eq; [apply alike_when|]. intros _.
    apply alike_ret. reflexivity.
  - apply alike_bind_eq; [apply alike_when|]. intros _.
    apply alike_ret. reflexivity.
Qed.

Lemma Forall_alter_flag (i : nat) (l : list raw_transaction) :
  Forall (fun t => D (tx_date t)) l ->
  Forall (fun t => D (tx_date t))
    (alter (fun t =>
              mk_raw (tx_source_file t) (tx_date t) (tx_amount t)
                (tx_description t) (tx_balance t) (tx_account t)
                (tx_category t) (tx_is_transfer t)
                (tx_account_reference t) true) i l).
Proof.
  intros H. revert i. induction H as [|x l Hx Hl IH]; intros [|i]; cbn.
  - constructor.
  - constructor.
  - constructor; [exact Hx | exact Hl].
  - constructor; [exact Hx | apply IH].
Qed.

Lemma alike_mark_processed (i : nat) :
  alike D E eq (mark_processed i) (mark_processed i).
Proof.
  unfold mark_processed.
  eapply alike_bind; [apply alike_get_self|].
  intros s1 s2 (Hc & Ha & Hcat & Hr & HD & Hp & HDp & Hu & Hb).
  apply alike_put_self. unfold akin; cbn. rewrite Hr.
  repeat (split; [assumption || reflexivity|]).
  split; [rewrite <- Hr; apply Forall_alter_flag, HD|].
  repeat (split; [assumption|]). assumption.
Qed.

Lemma twin_add_entry (d : pydate) (r1 r2 : journal_record)
  (account : string) (amount : pyfloat) (ty : entry_type) :
  twin d r1 r2 ->
  twin d (_add_entry r1 account amount ty) (_add_entry r2 account amount ty).
Proof.
  intros ((H1 & H2 & H3 & H4) & H5). unfold twin, same_record; cbn.
  rewrite H4. auto.
Qed.

Lemma twin_handle_transfer_debit (d : pydate) (r1 r2 : journal_record)
  (t : raw_transaction) :
  twin d r1 r2 ->
  twin d (_handle_transfer_debit r1 t) (_handle_transfer_debit r2 t).
Proof.
  intros H. unfold _handle_transfer_debit.
  destruct (if truthy _ then _ else _) as [acc|];
    [destruct (truthy (Some acc))|]; apply twin_add_entry, H.
Qed.

Lemma alike_handle_transfer_credit (d : pydate) (r1 r2 : journal_record)
  (t : raw_transaction) :
  twin d r1 r2 ->
  alike D E (twin d) (_handle_transfer_credit r1 t)
    (_handle_transfer_credit r2 t).
Proof.
  intros H. unfold _handle_transfer_credit.
  set (by1 := match (if truthy _ then _ else _) with
              | Some _ => _ | None => _ end).
  set (by2 := match (if truthy _ then _ else _) with
              | Some _ => _ | None => _ end).
  assert (Hby : twin d by1 by2).
  { subst by1 by2.
    destruct (if truthy _ then _ else _) as [acc|];
      [destruct (truthy (Some acc))|]; apply twin_add_entry, H. }
  clearbody by1 by2.
  apply alike_bind_eq; [apply alike_accounts_getitem|].
  intros a.
  destruct (acct_type a); try (apply alike_ret; exact Hby).
  apply alike_bind_eq; [apply alike_find_matching_transfer|].
  intros m. destruct m as [[i o]|]; [|apply alike_ret; exact Hby].
  apply alike_bind_eq; [apply alike_mark_processed|]. intros _.
  apply alike_ret. apply twin_add_entry, H.
Qed.

Lemma alike_process_liability (d : pydate) (r1 r2 : journal_record)
  (t : raw_transaction) :
  twin d r1 r2 ->
  alike D E (twin d) (_process_liability_transaction r1 t)
    (_process_liability_transaction r2 t).
Proof.
  intros H. unfold _process_liability_transaction.
  destruct (PyFloat.ltb _ _).
  - apply alike_ret. repeat apply twin_add_entry. exact H.
  - destruct (tx_is_transfer t).
    + apply alike_handle_transfer_credit, twin_add_entry, H.
    + apply alike_ret. repeat apply twin_add_entry. exact H.
Qed.

Lemma alike_process_asset (d : pydate) (r1 r2 : journal_record)
  (t : raw_transaction) :
  twin d r1 r2 ->
  alike D E (twin d) (_process_asset_transaction r1 t)
    (_process_asset_transaction r2 t).
Proof.
  intros H. unfold _process_asset_transaction.
  destruct (PyFloat.ltb _ _).
  - apply alike_ret. apply twin_add_entry.
    destruct (tx_is_transfer t);
      [apply twin_handle_transfer_debit | apply twin_add_entry]; exact H.
  - destruct (tx_is_transfer t).
    + apply alike_handle_transfer_credit, twin_add_entry, H.
    + apply alike_ret. repeat apply twin_add_entry. exact H.
Qed.

Lemma alike_construct (t : raw_transaction) :
  alike D E (twin (tx_date t)) (construct_processed_transaction t)
    (construct_processed_transaction t).
Proof.
  unfold construct_processed_transaction.
  eapply alike_bind; [apply alike_uuid4|]. intros i1 i2 _.
  apply alike_bind_eq; [apply alike_accounts_getitem|]. intros a.
  set (r1 := mk_processed i1 _ _ _ []).
  set (r2 := mk_processed i2 _ _ _ []).
  assert (H : twin (tx_date t) r1 r2)
    by (unfold twin, same_record; cbn; auto).
  destruct (acct_type a).
  - apply alike_process_asset, H.
  - apply alike_process_liability, H.
  - apply alike_ret, H.
  - apply alike_ret, H.
  - apply alike_ret, H.
Qed.

Lemma alike_validate (d : pydate) (r1 r2 : journal_record) :
  twin d r1 r2 ->
  alike D E (twin d) (validate_debits_equal_credits r1)
    (validate_debits_equal_credits r2).
Proof.
  intros H. unfold validate_debits_equal_credits.
  destruct H as ((H1 & H2 & H3 & H4) & H5).
  rewrite H4.
  apply alike_bind_eq; [apply alike_when|]. intros _.
  apply alike_ret. unfold twin, same_record. auto.
Qed.

Lemma alike_create (t : raw_transaction) :
  alike D E (twin (tx_date t)) (_create_processed_transaction t)
    (_create_processed_transaction t).
Proof.
  unfold _create_processed_transaction.
  eapply alike_bind; [apply alike_construct|]. intros r1 r2 Hr.
  eapply alike_bind; [apply alike_get_self|].
  intros s1 s2 (Hc & _). rewrite Hc.
  destruct (cls s2); [apply alike_ret, Hr | apply alike_validate, Hr].
Qed.

Lemma alike_process_one (i : nat) :
  alike D E eq (process_one i) (process_one i).
Proof.
  unfold process_one.
  eapply alike_bind; [apply alike_get_self|].
  intros s1 s2 Hs. pose proof Hs as (_ & _ & _ & Hr & HD & _).
  rewrite Hr.
  destruct (raw_transactions s2 !! i) as [t|] eqn:Hi;
    [|apply alike_ret; reflexivity].
  destruct (tx_processed t); [apply alike_ret; reflexivity|].
  assert (Hdt : D (tx_date t)).
  { rewrite Hr in HD. rewrite Forall_forall in HD. apply HD.
    eapply list_elem_of_lookup_2. exact Hi. }
  eapply alike_bind; [apply alike_create|]. intros r1 r2 (Hsame & Hdate).
  apply alike_bind_eq; [apply alike_mark_processed|]. intros _.
  eapply alike_bind; [apply alike_get_self|].
  intros p1 p2 (Hc & Ha & Hcat & Hraw & HDr & Hp & HDp & Hu & Hb).
  apply alike_put_self. unfold akin; cbn.
  repeat (split; [assumption|]).
  split; [apply Forall2_app; [exact Hp | constructor; [exact Hsame | constructor]]|].
  split; [apply Forall_app; split; [exact HDp|];
          constructor; [rewrite Hdate; exact Hdt | constructor]|].
  split; assumption.
Qed.

Lemma alike_process_raw_transactions :
  alike D E eq process_raw_transactions process_raw_transactions.
Proof.
  unfold process_raw_transactions.
  eapply alike_bind; [apply alike_get_self|].
  intros s1 s2 Hs. pose proof Hs as (_ & _ & _ & Hr & HD & _).
  apply alike_bind_eq.
  - unfold sorted_positions. rewrite Hr.
    apply alike_bind_eq.
    + apply alike_map_keys. rewrite Hr in HD.
      clear -HD. induction HD; constructor; auto.
    + intros keys. apply alike_ret. reflexivity.
  - intros l. apply alike_for_each with (RA := eq).
    + clear. induction l; constructor; auto.
    + intros i ? <-. apply alike_process_one.
Qed.

(** *** Balance ledger *)

Lemma alike_balances_update (account : string) (f : pyfloat -> pyfloat) :
  alike D E eq (balances_update account f) (balances_update account f).
Proof.
  unfold balances_update.
  eapply alike_bind; [apply alike_get_self|].
  intros s1 s2 Hs.
  pose proof Hs as (Hc & Ha & Hcat & Hraw & HDr & Hp & HDp & Hu & Hb).
  rewrite Hb.
  destruct (account_balances s2 !! account); [|apply alike_raise].
  apply alike_put_self. unfold akin; cbn.
  repeat (split; [assumption|]). reflexivity.
Qed.

Lemma alike_post_entry (e : entry) : alike D E eq (post_entry e) (post_entry e).
Proof.
  unfold post_entry.
  eapply alike_bind; [apply alike_get_self|].
  intros s1 s2 Hs. pose proof Hs as (_ & Ha & _). rewrite Ha.
  destruct (accounts s2 !! e_account e) as [a|];
    [|apply alike_ret; reflexivity].
  destruct (e_type e), (in_asset_expense (acct_type a));
    apply alike_balances_update.
Qed.

Lemma alike_unify_entry (e : entry) :
  alike D E eq (unify_entry e) (unify_entry e).
Proof.
  unfold unify_entry.
  apply alike_bind_eq; [apply alike_post_entry|]. intros _.
  eapply alike_bind; [apply alike_get_self|].
  intros s1 s2 Hs. pose proof Hs as (_ & Ha & _). rewrite Ha.
  apply alike_ret. reflexivity.
Qed.

Lemma alike_map_M {A B} (f : A -> M B) (l : list A) :
  (forall x, alike D E eq (f x) (f x)) -> alike D E eq (map_M f l) (map_M f l).
Proof.
  intros Hf. induction l as [|x l IH]; cbn [map_M].
  - apply alike_ret. reflexivity.
  - apply alike_bind_eq; [apply Hf|]. intros y.
    apply alike_bind_eq; [exact IH|]. intros ys.
    apply alike_ret. reflexivity.
Qed.

Lemma alike_replay_one (r1 r2 : journal_record) :
  same_record r1 r2 -> alike D E eq (replay_one r1) (replay_one r2).
Proof.
  intros (H1 & H2 & H3 & H4). unfold replay_one. rewrite H4.
  apply alike_bind_eq; [apply alike_map_M, alike_unify_entry|].
  intros entries.
  eapply alike_bind; [apply alike_get_self|].
  intros s1 s2 (Hc & Ha & Hcat & Hraw & HDr & Hp & HDp & Hu & Hb).
  apply alike_put_self. unfold akin; cbn.
  repeat (split; [assumption|]).
  split; [|assumption].
  apply Forall2_app; [exact Hu|].
  constructor; [|constructor].
  unfold same_unified; cbn. rewrite H1, H2, H3, Hb. auto.
Qed.

Lemma insert_sorted_Forall2 {A} (R : A -> A -> Prop) (k : Z) (x1 x2 : A)
  (l1 l2 : list (Z * A)) :
  R x1 x2 ->
  Forall2 (fun p1 p2 => fst p1 = fst p2 /\ R (snd p1) (snd p2)) l1 l2 ->
  Forall2 (fun p1 p2 => fst p1 = fst p2 /\ R (snd p1) (snd p2))
    (insert_sorted k x1 l1) (insert_sorted k x2 l2).
Proof.
  intros Hx Hl.
  induction Hl as [|[k1 y1] [k2 y2] l1 l2 [Hk Hy] Hl IH];
    cbn [insert_sorted].
  - constructor; [split; [reflexivity | exact Hx] | constructor].
  - cbn in Hk. subst k2. destruct (k <? k1).
    + constructor; [split; [reflexivity | exact Hx]|].
      constructor; [split; [reflexivity | exact Hy] | exact Hl].
    + constructor; [split; [reflexivity | exact Hy] | exact IH].
Qed.

Lemma sorted_by_key_Forall2 {A} (R : A -> A -> Prop) (keys : list Z)
  (l1 l2 : list A) :
  Forall2 R l1 l2 ->
  Forall2 R (sorted_by_key (zip keys l1)) (sorted_by_key (zip keys l2)).
Proof.
  intros Hl. unfold sorted_by_key.
  assert (Hacc : forall acc1 acc2 : list (Z * A),
    Forall2 (fun p1 p2 => fst p1 = fst p2 /\ R (snd p1) (snd p2)) acc1 acc2 ->
    Forall2 (fun p1 p2 => fst p1 = fst p2 /\ R (snd p1) (snd p2))
      (fold_left (fun acc kx => insert_sorted (fst kx) (snd kx) acc)
         (zip keys l1) acc1)
      (fold_left (fun acc kx => insert_sorted (fst kx) (snd kx) acc)
         (zip keys l2) acc2)).
  { revert keys. induction Hl as [|x1 x2 l1 l2 Hx Hl IH];
      intros [|k keys] acc1 acc2 Hacc; cbn; try exact Hacc.
    apply IH. apply insert_sorted_Forall2; assumption. }
  specialize (Hacc [] [] ltac:(constructor)).
  induction Hacc as [|p1 p2 a1 a2 [_ Hp] _ IH]; cbn; constructor; assumption.
Qed.

Lemma sorted_by_key_Forall {A} (P : A -> Prop) (l : list (Z * A)) :
  Forall (fun p => P (snd p)) l -> Forall P (sorted_by_key l).
Proof.
  intros Hl. unfold sorted_by_key.
  assert (Hins : forall k x acc, P x ->
            Forall (fun p : Z * A => P (snd p)) acc ->
            Forall (fun p : Z * A => P (snd p)) (insert_sorted k x acc)).
  { intros k x acc Hx Hacc.
    induction Hacc as [|[k' y] acc Hy Hacc IH]; cbn [insert_sorted].
    - constructor; [exact Hx | constructor].
    - destruct (k <? k').
      + constructor; [exact Hx|]. constructor; assumption.
      + constructor; assumption. }
  assert (Hfold : forall acc, Forall (fun p : Z * A => P (snd p)) acc ->
            Forall (fun p : Z * A => P (snd p))
              (fold_left (fun acc kx => insert_sorted (fst kx) (snd kx) acc)
                 l acc)).
  { induction Hl as [|[k x] l Hx Hl IH]; intros acc Hacc; cbn;
      [exact Hacc|]. apply IH, Hins; assumption. }
  specialize (Hfold [] ltac:(constructor)).
  induction Hfold; cbn; constructor; assumption.
Qed.

Lemma alike_update_account_balances :
  alike D E eq update_account_balances update_account_balances.
Proof.
  unfold update_account_balances.
  eapply alike_bind; [apply alike_get_self|].
  intros s1 s2 Hs.
  apply alike_bind_eq.
  { pose proof Hs as (Hc & Ha & Hcat & Hraw & HDr & Hp & HDp & Hu & Hb).
    apply alike_put_self. unfold akin; cbn. rewrite Ha.
    repeat (split; [assumption || reflexivity|]). reflexivity. }
  intros _.
  eapply alike_bind; [apply alike_get_self|].
  clear s1 s2 Hs. intros s1 s2 Hs.
  pose proof Hs as (_ & _ & _ & _ & _ & Hp & HDp & _).
  eapply alike_bind.
  { apply (alike_map_keys pt_date pt_date).
    clear -Hp HDp. induction Hp as [|r1 r2 l1 l2 Hr Hl IH];
      [constructor|].
    inversion HDp; subst. constructor; [|apply IH; assumption].
    split; [apply Hr | assumption]. }
  intros keys ? <-.
  apply alike_for_each with (RA := same_record).
  - apply sorted_by_key_Forall2, Hp.
  - intros r1 r2 Hr. apply alike_replay_one, Hr.
Qed.

Lemma alike_pipeline : alike D E eq pipeline pipeline.
Proof.
  unfold pipeline.
  apply alike_bind_eq; [apply alike_process_raw_transactions|].
  intros _. apply alike_update_account_balances.
Qed.

End TwoRuns.

(** Both instances of the section: worlds with the same clock, for every
    date; and any two worlds, for dates that parsed. *)

Lemma same_clock_step (w1 w2 : env) :
  same_clock w1 w2 ->
  clock_oracle w1 (clock_calls w1) = clock_oracle w2 (clock_calls w2)
  /\ same_clock
       (mk_env (stdout w1) (uuid_oracle w1) (uuid_calls w1) (clock_oracle w1)
          (S (clock_calls w1)))
       (mk_env (stdout w2) (uuid_oracle w2) (uuid_calls w2) (clock_oracle w2)
          (S (clock_calls w2))).
Proof.
  intros H. split.
  - specialize (H 0%nat). rewrite !Nat.add_0_r in H. exact H.
  - intros n. cbn. specialize (H (S n)).
    rewrite !Nat.add_succ_r in H. exact H.
Qed.

Lemma pipeline_same_clock :
  alike (fun _ => True) same_clock eq pipeline pipeline.
Proof.
  apply alike_pipeline.
  - intros ev1 ev2 s1 s2 w1 w2 H. eexists _, _. repeat split. exact H.
  - intros s1 s2 w1 w2 H. eexists _, _, _, _. repeat split. exact H.
  - intros d s1 s2 w1 w2 _ H. destruct d; cbn.
    + eexists _, _, _. repeat split. exact H.
    + destruct (same_clock_step _ _ H) as [Hnow Hnext].
      unfold bind, datetime_now, ret. rewrite Hnow.
      eexists _, _, _. repeat split. exact Hnext.
Qed.

Lemma pipeline_parsed : alike parsed (fun _ _ => True) eq pipeline pipeline.
Proof.
  apply alike_pipeline.
  - intros ev1 ev2 s1 s2 w1 w2 _. eexists _, _. repeat split.
  - intros s1 s2 w1 w2 _. eexists _, _, _, _. repeat split.
  - intros d s1 s2 w1 w2 Hd _. destruct d; [|contradiction].
    eexists _, _, _. repeat split.
Qed.

Lemma same_record_refl (l : list journal_record) : Forall2 same_record l l.
Proof. induction l; constructor; [repeat split | assumption]. Qed.

Lemma same_unified_refl (l : list unified_transaction) :
  Forall2 same_unified l l.
Proof. induction l; constructor; [repeat split | assumption]. Qed.

Lemma akin_refl (D : pydate -> Prop) (self : processor) :
  Forall (fun t => D (tx_date t)) (raw_transactions self) ->
  Forall (fun r => D (pt_date r)) (processed_transactions self) ->
  akin D self self.
Proof.
  intros H1 H2. unfold akin.
  repeat (split; [reflexivity || assumption
                 || apply same_record_refl || apply same_unified_refl|]).
  reflexivity.
Qed.

(** C9, amended.  Two runs of the pipeline on the same pool end alike:
    with the same exception, or with the same records up to their ids,
    the same replayed transactions up to their ids, and the same final
    balances.  This holds when every date of the pool parsed, and
    otherwise when both runs read the same clock values. *)
Theorem C9_two_runs (self : processor) (w1 w2 : env) :
  same_clock w1 w2 \/ all_dates_parsed self ->
  same_outcome (pipeline self w1) (pipeline self w2).
Proof.
  intros [Hclock | [Hraw Hproc]].
  - pose proof (pipeline_same_clock self self w1 w2) as H.
    unfold same_outcome.
    destruct (pipeline self w1), (pipeline self w2); try (apply H; auto).
    + apply akin_refl; apply Forall_forall; auto.
    + apply akin_refl; apply Forall_forall; auto.
    + apply akin_refl; apply Forall_forall; auto.
    + destruct H as (_ & Hs & _); auto.
      * apply akin_refl; apply Forall_forall; auto.
      * destruct Hs as (_ & _ & _ & _ & _ & Hp & _ & Hu & Hb). auto.
  - pose proof (pipeline_parsed self self w1 w2) as H.
    unfold same_outcome.
    destruct (pipeline self w1), (pipeline self w2); try (apply H; auto).
    + apply akin_refl; assumption.
    + apply akin_refl; assumption.
    + apply akin_refl; assumption.
    + destruct H as (_ & Hs & _); auto.
      * apply akin_refl; assumption.
      * destruct Hs as (_ & _ & _ & _ & _ & Hp & _ & Hu & Hb). auto.
Qed.

(* ===================================================================== *)
(** ** Journal builder: theorems *)
(* ===================================================================== *)

Lemma total_of_pair (da ca : string) (v : pyfloat) :
  total_of DEBIT [mk_entry da v DEBIT; mk_entry ca v CREDIT] = v
  /\ total_of CREDIT [mk_entry da v DEBIT; mk_entry ca v CREDIT] = v.
Proof.
  unfold total_of; cbn [List.filter map e_type e_amount entry_type_eqb].
  rewrite !float_sum_cons, float_sum_nil, float_add_zero_r. auto.
Qed.

Lemma difference_of_equal_finite (q : Qc) :
  float_lt (PyFloat.abs (PyFloat.sub (Finite q) (Finite q))) PyFloat.cent.
Proof. rewrite float_sub_self_finite. vm_compute. reflexivity. Qed.

(** A record made for an ASSET or LIABILITY account has two entries, a
    DEBIT and a CREDIT of the same amount; when that amount is finite the
    totals are less than 0.01 apart. *)
Lemma constructed_pair_balanced (t : raw_transaction) (ty : account_type)
  (r : journal_record) :
  ty ∈ [ASSET; LIABILITY] ->
  entries_as_constructed ty t (pt_entries r) ->
  debit_credit_pair r /\ (finite_amounts r -> two_entries_within_cent r).
Proof.
  intros Hty He.
  assert (Hpair : exists da ca,
             pt_entries r = [mk_entry da (journal_amount t) DEBIT;
                             mk_entry ca (journal_amount t) CREDIT]).
  { destruct ty; cbn in He; try exact He; exfalso;
      repeat match goal with
             | H : _ ∈ _ :: _ |- _ => apply elem_of_cons in H; destruct H
             | H : _ ∈ [] |- _ => apply elem_of_nil in H; contradiction
             end; discriminate. }
  destruct Hpair as (da & ca & Hr). split.
  - exists da, ca, (journal_amount t). exact Hr.
  - intros Hfin. unfold two_entries_within_cent, finite_amounts in *.
    rewrite Hr in *. split; [reflexivity|].
    destruct (total_of_pair da ca (journal_amount t)) as [-> ->].
    inversion Hfin as [|e l Hv _]; subst. cbn in Hv.
    destruct (journal_amount t); try discriminate.
    apply difference_of_equal_finite.
Qed.

(** C5, amended.  When every owning account of the pool is registered as
    an ASSET or a LIABILITY, every record that the journal builder emits
    has exactly two entries, a DEBIT and a CREDIT of one and the same
    amount; when that amount is finite, the DEBIT total and the CREDIT
    total are less than 0.01 apart.  The builder fails only with
    OverflowError, and only when a date of the pool is less than two
    days from an end of the calendar. *)
Theorem C5_two_balanced_entries (self : processor) (w : env) :
  Forall (fun t => has_type self [ASSET; LIABILITY] (tx_account t))
    (raw_transactions self) ->
  match process_raw_transactions self w with
  | Raise e =>
      e = OverflowError
      /\ exists t d, t ∈ raw_transactions self /\ tx_date t = Date d
                     /\ ~ two_days_in_range d
  | Return _ self' w' =>
      exists new,
        processed_transactions self'
        = (processed_transactions self ++ new)%list
        /\ Forall (fun r => debit_credit_pair r
                            /\ (finite_amounts r -> two_entries_within_cent r))
             new
  end.
Proof.
  intros Howners.
  assert (Hunflag : forall t,
            unflag t ∈ map unflag (raw_transactions self) ->
            has_type self [ASSET; LIABILITY] (tx_account t)).
  { intros t Ht. apply list_elem_of_fmap in Ht as (t' & Heq & Ht').
    rewrite Forall_forall in Howners. specialize (Howners t' Ht').
    replace (tx_account t) with (tx_account (unflag t)) by reflexivity.
    rewrite Heq. exact Howners. }
  pose proof (process_raw_transactions_cases self w) as H.
  destruct (process_raw_transactions self w) as [e|[] self' w'].
  - destruct H as (t & Ht & [[_ Hnone] | (-> & d & Hd & Hrange)]).
    + destruct (Hunflag t Ht) as (a & Ha & _). congruence.
    + split; [reflexivity|].
      apply list_elem_of_fmap in Ht as (t' & Heq & Ht').
      exists t', d. split; [exact Ht'|]. split; [|exact Hrange].
      replace (tx_date t') with (tx_date (unflag t')) by reflexivity.
      rewrite <- Heq. exact Hd.
  - destruct H as (new & (_ & _ & _ & _ & Hp & _) & Hnew).
    exists new. split; [exact Hp|].
    eapply Forall_impl; [exact Hnew|].
    intros r (t & a & Ht & Ha & _ & _ & _ & He).
    destruct (Hunflag t Ht) as (a' & Ha' & Hty).
    rewrite Ha in Ha'. inversion Ha'; subst a'.
    eapply constructed_pair_balanced; eassumption.
Qed.

(** To show that a computation returns with an outcome satisfying [Q],
    run it and look at the outcome. *)
Lemma run_unit (c : M unit) (self : processor) (w : env)
  (Q : processor -> env -> Prop) :
  match c self w with
  | Return _ self' w' => Q self' w'
  | Raise _ => False
  end ->
  exists self' w', c self w = Return tt self' w' /\ Q self' w'.
Proof.
  destruct (c self w) as [e|[] self' w']; [contradiction|].
  intros H. exists self', w'. split; [reflexivity | exact H].
Qed.

Ltac run_to_end := apply run_unit; vm_compute.

Lemma run_unit_twice (c1 c2 : M unit) (s1 s2 : processor) (w1 w2 : env)
  (Q : processor -> processor -> Prop) :
  match c1 s1 w1, c2 s2 w2 with
  | Return _ s1' _, Return _ s2' _ => Q s1' s2'
  | _, _ => False
  end ->
  exists s1' w1' s2' w2',
    c1 s1 w1 = Return tt s1' w1' /\ c2 s2 w2 = Return tt s2' w2' /\ Q s1' s2'.
Proof.
  destruct (c1 s1 w1) as [e|[] s1' w1']; [contradiction|].
  destruct (c2 s2 w2) as [e|[] s2' w2']; [contradiction|].
  intros H. exists s1', w1', s2', w2'. auto.
Qed.

(** A witness of C5: the pool of the transfer scenario. *)
Lemma C5_witness :
  let self := loaded TransactionProcessorClass
                [row_A "Transfer to xx5784" "transfers";
                 row_B "Payment received" "income"] in
  Forall (fun t => has_type self [ASSET; LIABILITY] (tx_account t))
    (raw_transactions self)
  /\ match process_raw_transactions self (world "id-" a_day_in_2025) with
     | Raise e =>
         e = OverflowError
         /\ exists t d, t ∈ raw_transactions self /\ tx_date t = Date d
                        /\ ~ two_days_in_range d
     | Return _ self' w' =>
         exists new,
           processed_transactions self'
           = (processed_transactions self ++ new)%list
           /\ Forall (fun r => debit_credit_pair r
                               /\ (finite_amounts r
                                   -> two_entries_within_cent r)) new
     end.
Proof.
  intros self.
  assert (H : Forall (fun t => has_type self [ASSET; LIABILITY] (tx_account t))
                (raw_transactions self)).
  { apply (bool_decide_unpack _). vm_compute. exact I. }
  split; [exact H|].
  apply (C5_two_balanced_entries self (world "id-" a_day_in_2025) H).
Defined.

(** C5 as stated fails on a pool whose row is owned by a registered
    account that is neither an ASSET nor a LIABILITY: the record emitted
    has no entry.  It also fails on an infinite amount: the record has
    its two entries, whose totals are not within 0.01 of each other. *)
Lemma C5_counterexample :
  (is_Some (sample_accounts !! tx_account row_on_bucket)
   /\ exists self' w',
      process_raw_transactions
           (loaded TransactionProcessorClass [row_on_bucket])
           (world "id-" a_day_in_2025)
         = Return tt self' w'
      /\ exists r, processed_transactions self' = [r]
                   /\ pt_entries r = []
                   /\ ~ two_entries_within_cent r)
  /\ (is_Some (sample_accounts !! tx_account row_inf)
      /\ exists self' w',
         process_raw_transactions
              (loaded TransactionProcessorClass [row_inf])
              (world "id-" a_day_in_2025)
            = Return tt self' w'
         /\ exists r, processed_transactions self' = [r]
                      /\ ~ two_entries_within_cent r).
Proof.
  split.
  - split; [vm_compute; eexists; reflexivity|]. run_to_end.
    eexists. split; [reflexivity|]. split; [reflexivity|].
    intros [Hlen _]. discriminate Hlen.
  - split; [vm_compute; eexists; reflexivity|]. run_to_end.
    eexists. split; [reflexivity|].
    intros [_ Hlt]. discriminate Hlt.
Qed.


(** The check itself, on any record: the record comes back unchanged and
    the object is left alone. *)
Lemma check_returns_record (r : journal_record) (self : processor) (w : env) :
  validate_debits_equal_credits r self w
  = Return r self (add_stdout (not_balanced_warning r) w).
Proof. apply validate_spec. Qed.

(** On a record whose totals are 10 and 7 the check prints the warning,
    and hands the record back. *)
Example check_on_lopsided_record (self : processor) (w : env) :
  exists ev,
    not_balanced_warning lopsided_record = [ev]
    /\ validate_debits_equal_credits lopsided_record self w
       = Return lopsided_record self (add_stdout [ev] w).
Proof.
  eexists. split; [vm_compute; reflexivity|]. apply validate_spec.
Qed.


(* ===================================================================== *)
(** ** Scenarios of the specification *)
(* ===================================================================== *)

Lemma find_matching_transfer_result (t : raw_transaction) (amount : pyfloat)
  (self : processor) (w : env) (r : option (nat * raw_transaction)) :
  match find_matching_transfer t amount self w with
  | Return r' _ _ => r' = r
  | Raise _ => False
  end ->
  exists w', find_matching_transfer t amount self w = Return r self w'.
Proof.
  pose proof (find_matching_transfer_cases t amount self w) as H.
  destruct (find_matching_transfer t amount self w) as [e|r' self' w'];
    [contradiction|].
  destruct H as [-> _]. intros ->. exists w'. reflexivity.
Qed.

(** C3.  In the transfer scenario, whatever the order of the two rows in
    the pool, two records are emitted and no more: for A, DEBIT
    credit_card 200 and CREDIT saver 200, the debit side coming from the
    account reference; for B, DEBIT credit_card 200 and CREDIT transfer
    200, counterparty matching finding no candidate once A is
    journaled. *)
Theorem C3_transfer_scenario (c : pyclass) (w : env)
  (descA catA descB catB : string) (b_first : bool) :
  let A := row_A descA catA in
  let B := row_B descB catB in
  let pool := if b_first then [B; A] else [A; B] in
  let pool_after_A := if b_first then [B; mark A] else [mark A; B] in
  (exists self' w',
      process_raw_transactions (loaded c pool) w = Return tt self' w'
      /\ processed_transactions self'
         = [ mk_processed (uuid_oracle w (uuid_calls w))
               (Date (PyDatetime.midnight 2024 3 1)) descA catA
               [mk_entry "credit_card" (PyFloat.of_Z 200) DEBIT;
                mk_entry "saver" (PyFloat.of_Z 200) CREDIT];
             mk_processed (uuid_oracle w (S (uuid_calls w)))
               (Date (PyDatetime.midnight 2024 3 2)) descB catB
               [mk_entry "credit_card" (PyFloat.of_Z 200) DEBIT;
                mk_entry "transfer" (PyFloat.of_Z 200) CREDIT] ]
      /\ raw_transactions self' = map mark pool)
  /\ (exists w',
        find_matching_transfer B (tx_amount B) (loaded c pool_after_A) w
        = Return None (loaded c pool_after_A) w').
Proof.
  intros A B pool pool_after_A. split.
  - subst A B pool. destruct b_first, c; run_to_end;
      (split; [float_eq | reflexivity]).
  - apply find_matching_transfer_result.
    subst A B pool_after_A. destruct b_first, c; vm_compute; reflexivity.
Qed.

(** C4, amended.  The purchase of 45.00 at WOOLWORTHS on the credit card
    yields one record, categorised as groceries, with DEBIT expense 45.00
    and CREDIT credit_card 45.00; after the replay the balance of
    [expense] is 45.00 and that of [credit_card] is 45.00: the CREDIT
    raised the balance of the LIABILITY account. *)
Theorem C4_end_to_end (w : env) :
  exists self' w',
    process_bank_data [woolworths_row] w = Return tt self' w'
    /\ processed_transactions self'
       = [ mk_processed (uuid_oracle w (5 + uuid_calls w)%nat)
             (Date (PyDatetime.midnight 2024 3 1)) "WOOLWORTHS" "groceries"
             [mk_entry "expense" (PyFloat.of_Z 45) DEBIT;
              mk_entry "credit_card" (PyFloat.of_Z 45) CREDIT] ]
    /\ account_balances self' !! "credit_card" = Some (PyFloat.of_Z 45)
    /\ account_balances self' !! "expense" = Some (PyFloat.of_Z 45)
    /\ (forall k, k <> "credit_card" -> k <> "expense" ->
        is_Some (account_balances self' !! k) ->
        account_balances self' !! k = Some PyFloat.zero)
    /\ map (fun u => map_to_list (ut_balances u))
         (unified_transactions self')
       = [map_to_list (account_balances self')].
Proof.
  unfold process_bank_data.
  destruct (EnhancedDoubleEntryAccountingSystem.__init__ w) as [self0 w0] eqn:E.
  injection E as <- <-.
  apply run_unit.
  match goal with
  | |- match ?c ?s ?w0 with _ => _ end =>
      assert (Hrun : c s w0 = Return tt (self_after c s w0)
                                 (world_after c s w0))
        by (vm_compute; reflexivity);
      rewrite Hrun; clear Hrun
  end.
  split; [vm_compute; float_eq|].
  split; [vm_compute; float_eq|].
  split; [vm_compute; float_eq|].
  split.
  - intros k Hk1 Hk2 [x Hx].
    assert (Hdom : k ∈ ["old_credit_card"; "saver"; "credit_card";
                        "emergency_fund"; "expense"; "income";
                        "transfer"; "debit"]).
    { apply elem_of_map_to_list in Hx.
      apply (list_elem_of_fmap_2 fst) in Hx.
      revert Hx. vm_compute (fst <$> _). trivial. }
    repeat (apply elem_of_cons in Hdom as [-> | Hdom];
            [try congruence; vm_compute; float_eq|]).
    apply elem_of_nil in Hdom. contradiction.
  - vm_compute. reflexivity.
Qed.

(** C4 as stated gives the credit card a balance of -45.00; the replay
    leaves 45.00. *)
Lemma C4_counterexample :
  exists self' w',
    process_bank_data [woolworths_row] (world "id-" a_day_in_2025)
    = Return tt self' w'
    /\ account_balances self' !! "credit_card" = Some (PyFloat.of_Z 45)
    /\ account_balances self' !! "credit_card" <> Some (PyFloat.of_Z (-45)).
Proof.
  unfold process_bank_data.
  destruct (EnhancedDoubleEntryAccountingSystem.__init__ _) as [self0 w0] eqn:E.
  injection E as <- <-.
  run_to_end.
  split; [float_eq|]. intros H. discriminate H.
Qed.

(** The method of [TransactionProcessor] returns the object as it found
    it, too. *)
Lemma verify_rows_leaves_object (rows : list loaded_row)
  (balances : gmap string pyfloat) (self : processor) (w : env) :
  exists balances' w',
    TransactionProcessor.verify_rows rows balances self w
    = Return balances' self w'
    /\ only_printed w w'.
Proof.
  revert balances w. induction rows as [|row rows IH]; intros balances w.
  - exists balances, w. split; [reflexivity | apply only_printed_refl].
  - cbn [TransactionProcessor.verify_rows]. unfold bind at 1.
    match goal with
    | |- context [print ?ev self w] =>
        destruct (only_printed_print w ev self) as (w1 & -> & Hw1)
    end.
    match goal with
    | |- context [TransactionProcessor.verify_rows rows ?b self w1] =>
        destruct (IH b w1) as (b' & w2 & -> & Hw2)
    end.
    exists b', w2. split; [reflexivity|].
    eapply only_printed_trans; eassumption.
Qed.

Lemma tp_verify_leaves_object (rows : list loaded_row) (self : processor)
  (w : env) :
  exists b w',
    TransactionProcessor.verify_double_entry_accounting rows self w
    = Return b self w'
    /\ only_printed w w'.
Proof.
  unfold TransactionProcessor.verify_double_entry_accounting.
  unfold bind at 1.
  destruct (only_printed_print w VerifyingHeader self) as (w1 & -> & Hw1).
  unfold bind at 1.
  destruct (verify_rows_leaves_object rows ∅ self w1) as (b & w2 & -> & Hw2).
  unfold bind at 1.
  match goal with
  | |- context [print ?ev self w2] =>
      destruct (only_printed_print w2 ev self) as (w3 & -> & Hw3)
  end.
  eexists _, w3. split; [reflexivity|].
  eapply only_printed_trans; [|exact Hw3].
  eapply only_printed_trans; eassumption.
Qed.

(** C1.  The verifier of [EnhancedDoubleEntryAccountingSystem] does what
    the specification says.  The method of the same name in
    [TransactionProcessor] does not: it looks at the rows it is given
    and not at the balances.  After the purchase of 50.25 on the debit
    account is journaled and replayed, the balances of the ASSET and
    EXPENSE accounts and those of the LIABILITY, EQUITY and INCOME
    accounts both add up to 0, yet that method answers [False] on the
    row of the purchase. *)
Theorem C1_verifier :
  verifies_balances
    EnhancedDoubleEntryAccountingSystem.verify_double_entry_accounting
  /\ (exists self w,
         pipeline (loaded TransactionProcessorClass [debit_purchase])
           (world "id-" a_day_in_2025)
         = Return tt self w
         /\ float_lt
              (PyFloat.abs
                 (PyFloat.sub (map_total (balances_of self [ASSET; EXPENSE]))
                    (map_total
                       (balances_of self [LIABILITY; EQUITY; INCOME]))))
              PyFloat.cent
         /\ exists w',
              TransactionProcessor.verify_double_entry_accounting
                [debit_purchase_loaded] self w
              = Return false self w').
Proof.
  split; [intros self w; apply enhanced_verify_spec|].
  apply run_unit.
  match goal with
  | |- match ?c ?s ?w0 with _ => _ end =>
      assert (Hrun : c s w0 = Return tt (self_after c s w0)
                                 (world_after c s w0))
        by (vm_compute; reflexivity);
      rewrite Hrun; clear Hrun
  end.
  split; [vm_compute; reflexivity|].
  match goal with
  | |- exists w', ?c ?s ?w0 = _ =>
      destruct (tp_verify_leaves_object [debit_purchase_loaded] s w0)
        as (b & w' & Hv & _);
      assert (Hb : match c s w0 with Return b _ _ => b | Raise _ => true end
                   = false) by (vm_compute; reflexivity);
      rewrite Hv in Hb; subst b; exists w'; exact Hv
  end.
Qed.

(** A witness of C2: before A is journaled, the payment B of the transfer
    scenario matches A. *)
Lemma C2_witness :
  let A := row_A "Transfer to xx5784" "transfers" in
  let B := row_B "Payment received" "income" in
  let self := loaded TransactionProcessorClass [A; B] in
  let w := world "id-" a_day_in_2025 in
  tx_date B = Date (PyDatetime.midnight 2024 3 2)
  /\ two_days_in_range (PyDatetime.midnight 2024 3 2)
  /\ exists r w',
       find_matching_transfer B (tx_amount B) self w = Return r self w'
       /\ only_printed w w'
       /\ first_in_pool (counterpart same_magnitude B)
            (raw_transactions self) r.
Proof.
  intros A B self w.
  assert (Hrange : two_days_in_range (PyDatetime.midnight 2024 3 2))
    by (vm_compute; split; discriminate).
  split; [reflexivity|]. split; [exact Hrange|].
  apply (C2_counterparty_matching B (PyDatetime.midnight 2024 3 2) self w
           eq_refl Hrange).
Defined.

(** C2 as stated fails: a withdrawal of 100.005 is within 0.01 of a
    payment of 100.00 and meets every other condition, yet matching
    returns nothing, for the amounts are compared with [==]. *)
Lemma C2_counterexample :
  let self := loaded TransactionProcessorClass
                [withdrawal_100_005; payment_100] in
  parsed (tx_date payment_100)
  /\ (exists w',
         find_matching_transfer payment_100 (tx_amount payment_100) self
           (world "id-" a_day_in_2025)
         = Return None self w')
  /\ withdrawal_100_005 ∈ raw_transactions self
  /\ counterpart magnitude_within_cent payment_100 withdrawal_100_005
  /\ ~ first_in_pool (counterpart magnitude_within_cent payment_100)
         (raw_transactions self) None.
Proof.
  intros self.
  assert (Hc : counterpart magnitude_within_cent payment_100
                 withdrawal_100_005).
  { unfold counterpart. split; [reflexivity|].
    split; [intros H; discriminate H|].
    split.
    - eexists _, _. split; [reflexivity|]. split; [reflexivity|].
      vm_compute. discriminate.
    - split; [vm_compute; reflexivity|].
      split; intros _; vm_compute; reflexivity. }
  assert (Hin : withdrawal_100_005 ∈ raw_transactions self)
    by (apply list_elem_of_here).
  split; [exact I|].
  split; [apply find_matching_transfer_result; vm_compute; reflexivity|].
  split; [exact Hin|]. split; [exact Hc|].
  intros Hnone. exact (Hnone withdrawal_100_005 Hin Hc).
Qed.


(** C9 as stated fails.  Two runs on the same pool draw different ids,
    so their records differ.  And when a date did not parse, a run on 14
    March 2025 and a run on 16 March 2025 journal an undated purchase and
    a purchase of 15 March in opposite orders. *)
Lemma C9_counterexample :
  (exists s1 w1 s2 w2,
      pipeline (loaded TransactionProcessorClass [dated_purchase])
        (world "a-" a_day_in_2025) = Return tt s1 w1
      /\ pipeline (loaded TransactionProcessorClass [dated_purchase])
           (world "b-" a_day_in_2025) = Return tt s2 w2
      /\ processed_transactions s1 <> processed_transactions s2)
  /\ (exists s1 w1 s2 w2,
         pipeline
           (loaded TransactionProcessorClass
              [undated_purchase; dated_purchase])
           (world "id-" (PyDatetime.midnight 2025 3 14)) = Return tt s1 w1
         /\ pipeline
              (loaded TransactionProcessorClass
                 [undated_purchase; dated_purchase])
              (world "id-" (PyDatetime.midnight 2025 3 16)) = Return tt s2 w2
         /\ map pt_description (processed_transactions s1) = ["COLES"; "IGA"]
         /\ map pt_description (processed_transactions s2) = ["IGA"; "COLES"]).
Proof.
  split.
  - apply run_unit_twice. vm_compute. intros H. discriminate H.
  - apply run_unit_twice. vm_compute. split; reflexivity.
Qed.

(** A witness of C9: two runs that draw different ids on a pool whose
    dates parsed. *)
Lemma C9_witness :
  let self := loaded TransactionProcessorClass
                [row_A "Transfer to xx5784" "transfers";
                 row_B "Payment received" "income"] in
  (same_clock (world "a-" a_day_in_2025) (world "b-" a_day_in_2025)
   \/ all_dates_parsed self)
  /\ same_outcome (pipeline self (world "a-" a_day_in_2025))
       (pipeline self (world "b-" a_day_in_2025)).
Proof.
  intros self.
  assert (H : same_clock (world "a-" a_day_in_2025) (world "b-" a_day_in_2025)
              \/ all_dates_parsed self).
  { right. split; vm_compute; repeat constructor. }
  split; [exact H|].
  apply (C9_two_runs self (world "a-" a_day_in_2025)
           (world "b-" a_day_in_2025) H).
Defined.

(* ===================================================================== *)
(** ** Exporter *)
(* ===================================================================== *)

Lemma existsb_elem {A} (f : A -> bool) (l : list A) :
  existsb f l = true <-> exists x, x ∈ l /\ f x = true.
Proof.
  rewrite existsb_exists. split; intros (x & Hx & Hf); exists x;
    (split; [apply list_elem_of_In; exact Hx | exact Hf]).
Qed.

Lemma filter_nonempty {A} (f : A -> bool) (l : list A) :
  (exists x, x ∈ l /\ f x = true) <-> exists x, find f l = Some x.
Proof.
  split.
  - intros (x & Hx & Hf). apply list_elem_of_In in Hx.
    destruct (find f l) as [y|] eqn:E; [eauto|].
    exfalso. apply (find_none f l E) in Hx. congruence.
  - intros (x & Hx). apply find_some in Hx as [Hin Hf].
    exists x. split; [apply list_elem_of_In; exact Hin | exact Hf].
Qed.

Lemma filter_head_find {A} (f : A -> bool) (l : list A) :
  match List.filter f l with x :: _ => Some x | [] => None end = find f l.
Proof.
  induction l as [|x l IH]; cbn; [reflexivity|].
  destruct (f x); [reflexivity | exact IH].
Qed.

(** When a transaction is exported, its transferAccount is decided by
    the [transfer] bucket and by the entries on other bank accounts. *)
Lemma exported_transfer_account (accounts : gmap string account)
  (t : unified_transaction) (up : up_transaction) :
  Exporter.prepare_one accounts t = inr (Some up) ->
  exists e,
    primary_leg t = Some e
    /\ ((exists x, up_transferAccount up = Some x)
        <-> (exists b, b ∈ ut_entries t /\ on_transfer_bucket b = true)
            /\ (exists e', e' ∈ ut_entries t
                           /\ other_real_leg (ue_account e) e' = true))
    /\ (forall x, up_transferAccount up = Some x ->
        exists e' a',
          find (other_real_leg (ue_account e)) (ut_entries t) = Some e'
          /\ accounts !! ue_account e' = Some a'
          /\ x = acct_id a').
Proof.
  unfold Exporter.prepare_one, primary_leg.
  destruct (ut_entries t) as [|e0 l] eqn:Hentries; [discriminate|].
  rewrite <- Hentries.
  destruct (find _ (ut_entries t)) as [e|] eqn:Hsrc; [|discriminate].
  unfold Exporter.getitem.
  destruct (accounts !! ue_account e) as [a|] eqn:Ha; [|discriminate].
  fold (on_transfer_bucket).
  pose proof (existsb_elem on_transfer_bucket (ut_entries t)) as Hbucket.
  pose proof (filter_nonempty (other_real_leg (ue_account e)) (ut_entries t))
    as Hother.
  pose proof (filter_head_find (other_real_leg (ue_account e)) (ut_entries t))
    as Hhead.
  unfold other_real_leg in Hhead at 1.
  destruct (existsb on_transfer_bucket (ut_entries t)) eqn:Htr.
  - destruct (List.filter _ (ut_entries t)) as [|e' rest] eqn:Hf.
    + intros H. inversion H; subst up; clear H. cbn.
      exists e. split; [reflexivity|]. split.
      * split; [intros [x Hx]; discriminate Hx|].
        intros [_ Hex]. apply Hother in Hex as [x Hx]. congruence.
      * intros x Hx. discriminate Hx.
    + destruct (accounts !! ue_account e') as [a'|] eqn:Ha';
        [|discriminate].
      intros H. inversion H; subst up; clear H. cbn.
      exists e. split; [reflexivity|]. split.
      * split; [|intros _; eexists; reflexivity].
        intros _. split; [apply Hbucket; reflexivity|].
        apply Hother. exists e'. symmetry. exact Hhead.
      * intros x Hx. inversion Hx; subst x.
        exists e', a'. split; [symmetry; exact Hhead|]. auto.
  - intros H. inversion H; subst up; clear H. cbn.
    exists e. split; [reflexivity|]. split.
    + split; [intros [x Hx]; discriminate Hx|].
      intros [Hb _]. apply Hbucket in Hb. discriminate Hb.
    + intros x Hx. discriminate Hx.
Qed.




(** A record of two entries, which is all the journal builder emits, is
    never exported with a transferAccount. *)
Lemma two_entries_no_transfer_account (accounts : gmap string account)
  (t : unified_transaction) (up : up_transaction) :
  length (ut_entries t) = 2%nat ->
  Exporter.prepare_one accounts t = inr (Some up) ->
  up_transferAccount up = None.
Proof.
  intros Hlen H.
  destruct (up_transferAccount up) as [x|] eqn:Hx; [|reflexivity].
  exfalso.
  destruct (exported_transfer_account accounts t up H)
    as (e & Hsrc & Hiff & _).
  destruct Hiff as [Hiff _].
  destruct (Hiff (ex_intro _ x Hx)) as ((b & Hb & Hbucket) & (e' & He' & Hother)).
  unfold primary_leg in Hsrc.
  destruct (ut_entries t) as [|e1 [|e2 [|e3 l]]]; try discriminate Hlen.
  unfold other_real_leg, on_transfer_bucket in *.
  apply andb_true_iff in Hother as [Hreal Hne].
  apply negb_true_iff, String.eqb_neq in Hne.
  apply String.eqb_eq in Hbucket.
  assert (Hb_not_real : Exporter.is_real (ue_account b) = false)
    by (rewrite Hbucket; reflexivity).
  cbn [find] in Hsrc.
  repeat match goal with
         | H : _ ∈ _ :: _ |- _ => apply elem_of_cons in H; destruct H
         | H : _ ∈ [] |- _ => apply elem_of_nil in H; contradiction
         end; subst;
    repeat match goal with
           | H : context [Exporter.is_real (ue_account ?e)],
             H' : Exporter.is_real (ue_account ?e) = _ |- _ =>
               rewrite H' in H
           end; try discriminate; try congruence.
Qed.

(* ===================================================================== *)
(** ** Amount parsing *)
(* ===================================================================== *)


Lemma chars_str (l : list ascii) : PyStr.chars (PyStr.str l) = l.
Proof. apply list_ascii_of_string_of_list_ascii. Qed.

Lemma str_chars (s : string) : PyStr.str (PyStr.chars s) = s.
Proof. apply string_of_list_ascii_of_string. Qed.

Lemma chars_app (s1 s2 : string) :
  PyStr.chars (s1 ++ s2) = (PyStr.chars s1 ++ PyStr.chars s2)%list.
Proof.
  induction s1 as [|c s1 IH]; [reflexivity|].
  change (c :: PyStr.chars (s1 ++ s2)
          = c :: (PyStr.chars s1 ++ PyStr.chars s2)%list).
  f_equal. exact IH.
Qed.




(** *** Stripping *)








(** *** Characters *)






Lemma prefix_one (c : ascii) (l : list ascii) :
  String.prefix (String c "") (PyStr.str (c :: l)) = true.
Proof.
  cbn. destruct (ascii_dec c c) as [_|Hne]; [|contradiction].
  destruct (string_of_list_ascii l); reflexivity.
Qed.


Lemma endswith_one (c : ascii) (s : string) :
  PyStr.endswith (String c "") (s ++ String c "") = true.
Proof.
  unfold PyStr.endswith. rewrite chars_app, rev_app_distr.
  apply prefix_one.
Qed.

(** *** Parenthesised numerals *)





(** *** Quotes *)


(** *** The alphabet of numbers *)
















(** *** Texts without digits *)












(** The general clauses at work. *)
Example parse_amount_examples :
  parse_amount (Text "(1,234.50)") = PyFloat.decimal (-123450) 2
  /\ parse_amount (Text (in_quotes "12.5")) = PyFloat.decimal 125 1
  /\ parse_amount (Text "12 dollars") = PyFloat.zero
  /\ parse_amount (Text "") = PyFloat.zero
  /\ parse_amount (Text "nan") = NaN
  /\ parse_amount (Text "inf") = PInf.
Proof.
  repeat split; vm_compute; try reflexivity; apply Finite_eq; reflexivity.
Qed.

(* ===================================================================== *)
(** * Further properties of the code *)
(* ===================================================================== *)

(* ===================================================================== *)
(** ** Balance replay *)
(* ===================================================================== *)

Lemma covers_insert (accounts : gmap string account)
  (m : gmap string pyfloat) (k : string) (v : pyfloat) :
  covers accounts m -> covers accounts (<[k:=v]> m).
Proof.
  intros H j Hj. destruct (decide (k = j)) as [->|Hne].
  - rewrite lookup_insert_eq. eauto.
  - rewrite lookup_insert_ne by exact Hne. apply H, Hj.
Qed.

Lemma covers_zero (accounts : gmap string account) :
  covers accounts ((fun _ => PyFloat.zero) <$> accounts).
Proof. intros k [a Ha]. rewrite lookup_fmap, Ha. eauto. Qed.

Lemma covers_post (accounts : gmap string account)
  (m : gmap string pyfloat) (e : entry) :
  covers accounts m -> covers accounts (post_balances accounts m e).
Proof.
  intros H. unfold post_balances.
  destruct (accounts !! e_account e), (m !! e_account e);
    try exact H. apply covers_insert, H.
Qed.

Lemma covers_fold (accounts : gmap string account) (es : list entry)
  (m : gmap string pyfloat) :
  covers accounts m ->
  covers accounts (fold_left (post_balances accounts) es m).
Proof.
  revert m. induction es as [|e es IH]; intros m H; [exact H|].
  cbn. apply IH, covers_post, H.
Qed.

(** Posting never fails on balances that cover the registry. *)
Lemma post_entry_covered (e : entry) (self : processor) (w : env) :
  covers (accounts self) (account_balances self) ->
  post_entry e self w
  = Return tt
      (set_account_balances
         (post_balances (accounts self) (account_balances self) e) self)
      w.
Proof.
  intros Hc. unfold post_entry, post_balances, bind, get_self.
  destruct (accounts self !! e_account e) as [a|] eqn:Ha.
  - destruct (Hc (e_account e)) as [b Hb]; [rewrite Ha; eauto|].
    rewrite Hb.
    destruct (e_type e), (acct_type a); cbn;
      unfold balances_update, bind, get_self, put_self; rewrite Hb;
      reflexivity.
  - destruct self; reflexivity.
Qed.

Lemma map_M_unify_entry (es : list entry) (self : processor) (w : env) :
  covers (accounts self) (account_balances self) ->
  map_M unify_entry es self w
  = Return (map (unified_view (accounts self)) es)
      (set_account_balances
         (fold_left (post_balances (accounts self)) es
            (account_balances self)) self)
      w.
Proof.
  revert self. induction es as [|e es IH]; intros self Hc.
  - destruct self; reflexivity.
  - cbn [map_M]. unfold bind at 1. unfold unify_entry at 1.
    unfold bind at 1. rewrite (post_entry_covered e self w Hc).
    unfold bind at 1, get_self, ret. unfold bind at 1.
    rewrite IH by (apply covers_post, Hc).
    destruct self; reflexivity.
Qed.

Lemma replay_one_covered (r : journal_record) (self : processor) (w : env) :
  covers (accounts self) (account_balances self) ->
  replay_one r self w
  = Return tt
      (let m := fold_left (post_balances (accounts self)) (pt_entries r)
                  (account_balances self) in
       set_unified_transactions
         (unified_transactions self
            ++ [mk_unified (pt_id r) (date_to_string (pt_date r))
                  (pt_description r) (pt_category r)
                  (map (unified_view (accounts self)) (pt_entries r)) m])%list
         (set_account_balances m self))
      w.
Proof.
  intros Hc. unfold replay_one, bind at 1.
  rewrite (map_M_unify_entry _ self w Hc).
  destruct self; reflexivity.
Qed.

Lemma for_each_replay_one (rs : list journal_record) (self : processor)
  (w : env) :
  covers (accounts self) (account_balances self) ->
  exists self' new,
    for_each rs replay_one self w = Return tt self' w
    /\ same_journal self self'
    /\ account_balances self'
       = fold_left (post_balances (accounts self)) (entries_of rs)
           (account_balances self)
    /\ unified_transactions self' = (unified_transactions self ++ new)%list
    /\ Forall2 (replayed_as (accounts self)) rs new.
Proof.
  revert self. induction rs as [|r rs IH]; intros self Hc.
  - exists self, []. split; [reflexivity|].
    split; [repeat split|]. split; [reflexivity|].
    split; [symmetry; apply app_nil_r | constructor].
  - cbn [for_each]. unfold bind at 1.
    rewrite (replay_one_covered r self w Hc). cbn zeta.
    match goal with
    | |- context [for_each rs replay_one ?s w] =>
        destruct (IH s) as (self' & new & -> & Hj & Hb & Hu & Hnew);
          [cbn; apply covers_fold, Hc|]
    end.
    cbn in Hj, Hb, Hu, Hnew.
    eexists self', (_ :: new). split; [reflexivity|].
    split; [exact Hj|]. split.
    + rewrite Hb. unfold entries_of. cbn [flat_map].
      rewrite fold_left_app. reflexivity.
    + split; [rewrite Hu, <- app_assoc; reflexivity|].
      constructor; [repeat split | exact Hnew].
Qed.

Lemma insert_sorted_Permutation {A} (k : Z) (x : A) (l : list (Z * A)) :
  insert_sorted k x l ≡ₚ (k, x) :: l.
Proof.
  induction l as [|[k' y] l IH]; cbn; [reflexivity|].
  destruct (k <? k'); [reflexivity|].
  rewrite IH. apply Permutation_swap.
Qed.

Lemma sorted_by_key_Permutation {A} (l : list (Z * A)) :
  sorted_by_key l ≡ₚ map snd l.
Proof.
  unfold sorted_by_key.
  assert (H : forall acc,
             fold_left (fun acc kx => insert_sorted (fst kx) (snd kx) acc) l acc
             ≡ₚ (l ++ acc)%list).
  { induction l as [|[k x] l IH]; intros acc; cbn; [reflexivity|].
    rewrite IH, insert_sorted_Permutation.
    symmetry. apply Permutation_middle. }
  rewrite H, app_nil_r. reflexivity.
Qed.

Lemma sorted_by_key_zip_Permutation {A} (keys : list Z) (l : list A) :
  length keys = length l -> sorted_by_key (zip keys l) ≡ₚ l.
Proof.
  intros H. rewrite sorted_by_key_Permutation.
  change (map snd (zip keys l)) with ((zip keys l).*2).
  rewrite snd_zip by lia. reflexivity.
Qed.

(** The sort keys depend on the dates and on the clock only. *)
Lemma sort_keys_uniform {A} (date_of : A -> pydate) (l : list A) (w : env) :
  exists keys w',
    length keys = length l
    /\ forall self,
         map_M (fun x => date_sort_key (date_of x)) l self w
         = Return keys self w'.
Proof.
  revert w. induction l as [|x l IH]; intros w.
  - exists [], w. split; reflexivity.
  - destruct (date_of x) as [d|s] eqn:Hx.
    + destruct (IH w) as (keys & w' & Hlen & Hrun).
      exists (PyDatetime.timestamp d :: keys), w'. split; [cbn; lia|].
      intros self. cbn [map_M]. unfold bind at 1. rewrite Hx. cbn.
      unfold bind at 1. rewrite Hrun. reflexivity.
    + match goal with
      | |- _ => pose (w1 := mk_env (stdout w) (uuid_oracle w) (uuid_calls w)
                              (clock_oracle w) (S (clock_calls w)))
      end.
      destruct (IH w1) as (keys & w' & Hlen & Hrun).
      exists (PyDatetime.timestamp (clock_oracle w (clock_calls w)) :: keys),
        w'.
      split; [cbn; lia|].
      intros self. cbn [map_M]. unfold bind at 1. rewrite Hx. cbn.
      unfold bind at 1. fold w1. rewrite Hrun. reflexivity.
Qed.

(** The replay as a whole: it starts from zero, never fails, and leaves
    the journal alone. *)
Lemma update_account_balances_spec (self : processor) (w : env) :
  exists keys w',
    length keys = length (processed_transactions self)
    /\ (forall s,
          map_M (fun x => date_sort_key (pt_date x))
            (processed_transactions self) s w
          = Return keys s w')
    /\ exists self' new,
         update_account_balances self w = Return tt self' w'
         /\ same_journal self self'
         /\ account_balances self'
            = replayed_balances (accounts self)
                (sorted_by_key (zip keys (processed_transactions self)))
         /\ unified_transactions self'
            = (unified_transactions self ++ new)%list
         /\ Forall2 (replayed_as (accounts self))
              (sorted_by_key (zip keys (processed_transactions self))) new.
Proof.
  destruct (sort_keys_uniform pt_date (processed_transactions self) w)
    as (keys & w' & Hlen & Hkeys).
  exists keys, w'. split; [exact Hlen|]. split; [exact Hkeys|].
  unfold update_account_balances, bind at 1, get_self.
  unfold bind at 1, put_self. unfold bind at 1, get_self.
  unfold bind at 1.
  set (self0 := set_account_balances _ self).
  change (processed_transactions self0) with (processed_transactions self).
  rewrite Hkeys.
  destruct (for_each_replay_one
              (sorted_by_key (zip keys (processed_transactions self)))
              self0 w')
    as (self' & new & Hrun & Hj & Hb & Hu & Hnew);
    [apply covers_zero|].
  exists self', new. split; [exact Hrun|].
  split; [exact Hj|].
  split; [exact Hb|]. split; [exact Hu | exact Hnew].
Qed.

(* ===================================================================== *)
(** ** The books after a replay *)
(* ===================================================================== *)


















(* ===================================================================== *)
(** ** Journal building, row by row *)
(* ===================================================================== *)

Lemma marked_more_refl (self : processor) : marked_more self self.
Proof.
  unfold marked_more. repeat (split; [reflexivity|]).
  intros j t Ht. exists t. auto.
Qed.

Lemma marked_more_trans (s1 s2 s3 : processor) :
  marked_more s1 s2 -> marked_more s2 s3 -> marked_more s1 s3.
Proof.
  intros (A1 & A2 & A3 & A4 & A5 & A6 & M1) (B1 & B2 & B3 & B4 & B5 & B6 & M2).
  unfold marked_more. repeat (split; [congruence|]).
  intros j t Ht. destruct (M1 j t Ht) as (t1 & Ht1 & F1).
  destruct (M2 j t1 Ht1) as (t2 & Ht2 & F2). exists t2. auto.
Qed.

Lemma mark_processed_marks (i : nat) (self : processor) (w : env) :
  exists self', mark_processed i self w = Return tt self' w
                /\ marked_more self self' /\ marked_at i self'
                /\ processed_transactions self' = processed_transactions self.
Proof.
  eexists. split; [reflexivity|]. split; [|split].
  - unfold marked_more; cbn. repeat (split; [reflexivity|]).
    split; [apply map_unflag_alter|]. repeat (split; [reflexivity|]).
    intros j t Ht.
    destruct (decide (i = j)) as [->|Hne].
    + eexists. split; [rewrite list_lookup_alter_eq, Ht; reflexivity|].
      reflexivity.
    + exists t. split; [|auto].
      rewrite list_lookup_alter_ne by exact Hne. exact Ht.
  - intros t. cbn. rewrite list_lookup_alter_eq.
    destruct (raw_transactions self !! i); cbn; [|discriminate].
    intros H. inversion H. reflexivity.
  - reflexivity.
Qed.

(** What a successful search returns is a row of the pool that was not
    processed, on another account. *)
Lemma find_matching_transfer_found (t : raw_transaction) (amount : pyfloat)
  (self self' : processor) (w w' : env) (i : nat) (o : raw_transaction) :
  find_matching_transfer t amount self w = Return (Some (i, o)) self' w' ->
  raw_transactions self !! i = Some o
  /\ tx_processed o = false
  /\ tx_account o <> tx_account t.
Proof.
  unfold find_matching_transfer.
  destruct (tx_date t) as [d|s]; [|discriminate].
  unfold two_days_around, bind at 1.
  destruct (_ <? _); [discriminate|].
  destruct (_ <? _); [discriminate|].
  unfold ret at 1. unfold bind at 1. unfold get_self. cbn [fst snd].
  set (verbose := match cls self with
                  | TransactionProcessorClass => true
                  | EnhancedSystemClass => false end).
  unfold bind at 1.
  destruct (when_print verbose
              (LookingForMatchingTransfer d (PyFloat.abs amount)
                 (tx_description t)) self w) as (w1 & -> & _).
  pose proof (find_index_first
                (matches_transfer t amount
                   (PyDatetime.timestamp d - 2 * PyDatetime.us_per_day)
                   (PyDatetime.timestamp d + 2 * PyDatetime.us_per_day))
                (raw_transactions self)) as Hfirst.
  destruct (find_index _ (raw_transactions self)) as [[i' o']|].
  - unfold bind.
    destruct (when_print verbose
                (FoundMatch (tx_date o') (PyFloat.abs (tx_amount o'))
                   (tx_description o')) self w1) as (w2 & -> & _).
    cbn. intros H. inversion H; subst.
    destruct Hfirst as (Hi & Hm & _). split; [exact Hi|].
    unfold matches_transfer in Hm.
    repeat (apply andb_true_iff in Hm as [Hm ?]).
    split; [apply negb_true_iff; assumption|].
    apply String.eqb_neq, negb_true_iff. assumption.
  - unfold bind.
    destruct (when_print verbose NoMatchFound self w1) as (w2 & -> & _).
    discriminate.
Qed.

Lemma handle_transfer_credit_tracks (pt : journal_record)
  (t : raw_transaction) (self : processor) (w : env) :
  match _handle_transfer_credit pt t self w with
  | Raise e => True
  | Return pt' self' w' =>
      (exists credit_account,
          pt' = _add_entry pt credit_account (tx_amount t) CREDIT
          /\ entry_source self t credit_account)
      /\ marked_more self self'
      /\ processed_transactions self' = processed_transactions self
  end.
Proof.
  unfold _handle_transfer_credit.
  set (by_reference := match (if truthy _ then _ else _) with
                       | Some _ => _ | None => _ end).
  assert (Href : exists credit_account,
             by_reference = _add_entry pt credit_account (tx_amount t) CREDIT
             /\ entry_source self t credit_account).
  { subst by_reference. unfold entry_source.
    destruct (truthy (tx_account_reference t)).
    - destruct (find_account_by_reference _) as [acc|] eqn:Hacc.
      + destruct (truthy (Some acc)); eexists; (split; [reflexivity|]).
        * right. right. left. reflexivity.
        * right. left. do 2 right. left.
      + eexists. split; [reflexivity|]. right. left. do 2 right. left.
    - eexists. split; [reflexivity|]. right. left. do 2 right. left. }
  clearbody by_reference.
  unfold bind at 1, accounts_getitem, bind at 1, get_self.
  destruct (accounts self !! tx_account t) as [a|] eqn:Ha; [|exact I].
  cbn [ret].
  assert (Hdefault :
    (exists credit_account,
        by_reference = _add_entry pt credit_account (tx_amount t) CREDIT
        /\ entry_source self t credit_account)
    /\ marked_more self self
    /\ processed_transactions self = processed_transactions self).
  { split; [exact Href|]. split; [apply marked_more_refl | reflexivity]. }
  destruct (acct_type a); try exact Hdefault.
  unfold bind at 1.
  pose proof (find_matching_transfer_cases t (tx_amount t) self w) as Hf.
  destruct (find_matching_transfer t (tx_amount t) self w)
    as [e|r self1 w1] eqn:Hfind; [exact I|].
  destruct Hf as [-> _].
  destruct r as [[i o]|].
  - apply find_matching_transfer_found in Hfind as (Hi & _ & _).
    unfold bind.
    destruct (mark_processed_marks i self w1) as (self2 & -> & Hs2 & _ & Hp).
    cbn. split; [|split; [exact Hs2 | exact Hp]].
    eexists. split; [reflexivity|].
    do 3 right. exists o. split; [|reflexivity].
    eapply list_elem_of_lookup_2. exact Hi.
  - cbn. exact Hdefault.
Qed.

Lemma handle_transfer_debit_tracks (pt : journal_record)
  (t : raw_transaction) (self : processor) :
  exists debit_account,
    _handle_transfer_debit pt t
    = _add_entry pt debit_account (PyFloat.abs (tx_amount t)) DEBIT
    /\ entry_source self t debit_account.
Proof.
  unfold _handle_transfer_debit, entry_source.
  destruct (truthy (tx_account_reference t)).
  - destruct (find_account_by_reference _) as [acc|] eqn:Hacc.
    + destruct (truthy (Some acc)); eexists; (split; [reflexivity|]).
      * right. right. left. reflexivity.
      * right. left. do 2 right. left.
    + eexists. split; [reflexivity|]. right. left. do 2 right. left.
  - eexists. split; [reflexivity|]. right. left. do 2 right. left.
Qed.

Lemma entry_source_owner (self : processor) (t : raw_transaction) :
  entry_source self t (tx_account t).
Proof. left. reflexivity. Qed.

Lemma entry_source_bucket (self : processor) (t : raw_transaction)
  (b : string) :
  b ∈ ["expense"; "income"; "transfer"] -> entry_source self t b.
Proof. intros H. right. left. exact H. Qed.

Lemma construct_tracks (t : raw_transaction) (self : processor) (w : env) :
  match construct_processed_transaction t self w with
  | Raise e => True
  | Return pt self' w' =>
      Forall (fun e => entry_source self t (e_account e)) (pt_entries pt)
      /\ marked_more self self'
      /\ processed_transactions self' = processed_transactions self
  end.
Proof.
  unfold construct_processed_transaction.
  unfold bind at 1.
  destruct (uuid4_drew self w) as (w0 & -> & _).
  unfold bind at 1, accounts_getitem, bind at 1, get_self.
  destruct (accounts self !! tx_account t) as [a|] eqn:Ha; [|exact I].
  cbn [ret].
  set (pt0 := mk_processed _ _ _ _ []).
  assert (Hexp : "expense" ∈ ["expense"; "income"; "transfer"]) by left.
  assert (Hinc : "income" ∈ ["expense"; "income"; "transfer"])
    by (right; left).
  assert (Htra : "transfer" ∈ ["expense"; "income"; "transfer"])
    by (do 2 right; left).
  assert (Hcredit :
    match _handle_transfer_credit
            (_add_entry pt0 (tx_account t) (tx_amount t) DEBIT) t self w0
    with
    | Raise e => True
    | Return pt self' w' =>
        Forall (fun e => entry_source self t (e_account e)) (pt_entries pt)
        /\ marked_more self self'
        /\ processed_transactions self' = processed_transactions self
    end).
  { pose proof (handle_transfer_credit_tracks
                  (_add_entry pt0 (tx_account t) (tx_amount t) DEBIT)
                  t self w0) as Hc.
    destruct (_handle_transfer_credit _ t self w0) as [e|pt' self' w'];
      [exact I|].
    destruct Hc as ((ca & -> & Hca) & Hs & Hp).
    split; [|split; [exact Hs | exact Hp]].
    constructor; [apply entry_source_owner|].
    constructor; [exact Hca | constructor]. }
  destruct (acct_type a) eqn:Hty.
  - (* ASSET *)
    unfold _process_asset_transaction.
    destruct (PyFloat.ltb (tx_amount t) PyFloat.zero).
    + cbn [ret].
      split; [|split; [apply marked_more_refl | reflexivity]].
      destruct (tx_is_transfer t).
      * destruct (handle_transfer_debit_tracks pt0 t self) as (da & -> & Hda).
        constructor; [exact Hda|].
        constructor; [apply entry_source_owner | constructor].
      * constructor; [apply entry_source_bucket, Hexp|].
        constructor; [apply entry_source_owner | constructor].
    + destruct (tx_is_transfer t); [exact Hcredit|].
      cbn [ret]. split; [|split; [apply marked_more_refl | reflexivity]].
      constructor; [apply entry_source_owner|].
      constructor; [apply entry_source_bucket, Hinc | constructor].
  - (* LIABILITY *)
    unfold _process_liability_transaction.
    destruct (PyFloat.ltb (tx_amount t) PyFloat.zero).
    + cbn [ret]. split; [|split; [apply marked_more_refl | reflexivity]].
      constructor; [apply entry_source_bucket, Hexp|].
      constructor; [apply entry_source_owner | constructor].
    + destruct (tx_is_transfer t); [exact Hcredit|].
      cbn [ret]. split; [|split; [apply marked_more_refl | reflexivity]].
      constructor; [apply entry_source_owner|].
      constructor; [apply entry_source_bucket, Htra | constructor].
  - cbn [ret]. split; [constructor|].
    split; [apply marked_more_refl | reflexivity].
  - cbn [ret]. split; [constructor|].
    split; [apply marked_more_refl | reflexivity].
  - cbn [ret]. split; [constructor|].
    split; [apply marked_more_refl | reflexivity].
Qed.

Ltac list_member :=
  solve [repeat first [apply list_elem_of_here | apply list_elem_of_further]].

Lemma reference_accounts (r : option string) (account : string) :
  find_account_by_reference r = Some account ->
  account ∈ ["credit_card"; "debit"; "emergency_fund"; "old_credit_card";
             "saver"].
Proof.
  unfold find_account_by_reference. destruct r as [r|]; [|discriminate].
  repeat (destruct (String.eqb r _); [try discriminate|]);
    try discriminate;
    intros H; inversion H; subst; clear H.
  - left.
  - right; left.
  - do 2 right; left.
  - do 3 right; left.
  - do 4 right; left.
Qed.

Lemma pool_accounts_same (s s' : processor) :
  marked_more s s' ->
  map tx_account (raw_transactions s') = map tx_account (raw_transactions s).
Proof.
  intros (_ & _ & _ & H & _).
  assert (E : forall l, map tx_account l = map tx_account (map unflag l)).
  { intros l. rewrite map_map. reflexivity. }
  rewrite (E (raw_transactions s')), (E (raw_transactions s)), H.
  reflexivity.
Qed.

Lemma known_account_same (s s' : processor) (account : string) :
  marked_more s s' -> known_account s' account -> known_account s account.
Proof.
  intros H [Hb | Hp]; [left; exact Hb | right].
  rewrite <- (pool_accounts_same s s' H). exact Hp.
Qed.

Lemma entry_source_known (self : processor) (t : raw_transaction)
  (account : string) :
  t ∈ raw_transactions self ->
  entry_source self t account -> known_account self account.
Proof.
  intros Ht [-> | [Hb | [Hr | (o & Ho & <-)]]].
  - right. apply list_elem_of_fmap. exists t. split; [reflexivity | exact Ht].
  - left. unfold builder_accounts.
    repeat (apply elem_of_cons in Hb as [-> | Hb]); try list_member.
    apply elem_of_nil in Hb. contradiction.
  - left. apply reference_accounts in Hr. unfold builder_accounts.
    repeat (apply elem_of_cons in Hr as [-> | Hr]); try list_member.
    apply elem_of_nil in Hr. contradiction.
  - right. apply list_elem_of_fmap. exists o. split; [reflexivity | exact Ho].
Qed.

Lemma construct_owner (t : raw_transaction) (self : processor) (w : env) :
  match construct_processed_transaction t self w with
  | Raise e => True
  | Return pt self' w' =>
      pt_entries pt = []
      \/ Exists (fun e => e_account e = tx_account t) (pt_entries pt)
  end.
Proof.
  unfold construct_processed_transaction.
  unfold bind at 1.
  destruct (uuid4_drew self w) as (w0 & -> & _).
  unfold bind at 1, accounts_getitem, bind at 1, get_self.
  destruct (accounts self !! tx_account t) as [a|] eqn:Ha; [|exact I].
  cbn [ret].
  set (pt0 := mk_processed _ _ _ _ []).
  assert (Hcredit :
    match _handle_transfer_credit
            (_add_entry pt0 (tx_account t) (tx_amount t) DEBIT) t self w0
    with
    | Raise e => True
    | Return pt self' w' =>
        pt_entries pt = []
        \/ Exists (fun e => e_account e = tx_account t) (pt_entries pt)
    end).
  { pose proof (handle_transfer_credit_tracks
                  (_add_entry pt0 (tx_account t) (tx_amount t) DEBIT)
                  t self w0) as Hc.
    destruct (_handle_transfer_credit _ t self w0) as [e|pt' self' w'];
      [exact I|].
    destruct Hc as ((ca & -> & _) & _).
    right. apply Exists_cons_hd. reflexivity. }
  destruct (acct_type a) eqn:Hty; try (left; reflexivity).
  - (* ASSET *)
    unfold _process_asset_transaction.
    destruct (PyFloat.ltb (tx_amount t) PyFloat.zero).
    + cbn [ret]. right.
      destruct (tx_is_transfer t).
      * destruct (handle_transfer_debit_tracks pt0 t self) as (da & -> & _).
        apply Exists_cons_tl, Exists_cons_hd. reflexivity.
      * apply Exists_cons_tl, Exists_cons_hd. reflexivity.
    + destruct (tx_is_transfer t); [exact Hcredit|].
      cbn [ret]. right. apply Exists_cons_hd. reflexivity.
  - (* LIABILITY *)
    unfold _process_liability_transaction.
    destruct (PyFloat.ltb (tx_amount t) PyFloat.zero).
    + cbn [ret]. right. apply Exists_cons_tl, Exists_cons_hd. reflexivity.
    + destruct (tx_is_transfer t); [exact Hcredit|].
      cbn [ret]. right. apply Exists_cons_hd. reflexivity.
Qed.

Lemma new_record_same (s s' : processor) (r : journal_record) :
  marked_more s s' -> new_record s' r -> new_record s r.
Proof.
  intros Hm [Hk Ho]. split.
  - eapply Forall_impl; [exact Hk|]. intros e He.
    eapply known_account_same; eassumption.
  - destruct Ho as [Ho | Ho]; [left; exact Ho | right].
    rewrite <- (pool_accounts_same s s' Hm). exact Ho.
Qed.

Lemma process_one_tracks (i : nat) (self : processor) (w : env) :
  match process_one i self w with
  | Raise e => True
  | Return _ self' w' =>
      marked_more self self'
      /\ marked_at i self'
      /\ exists new,
          processed_transactions self'
          = (processed_transactions self ++ new)%list
          /\ Forall (new_record self) new
          /\ (all_processed self -> self' = self)
          /\ (new = []
              \/ exists pt t, new = [pt]
                              /\ raw_transactions self !! i = Some t
                              /\ tx_processed t = false
                              /\ from_row self i pt)
  end.
Proof.
  unfold process_one, bind at 1, get_self.
  destruct (raw_transactions self !! i) as [t|] eqn:Hi.
  2:{ cbn. split; [apply marked_more_refl|].
      split; [intros t Ht; congruence|].
      exists []. split; [symmetry; apply app_nil_r|].
      split; [constructor|]. split; [reflexivity | left; reflexivity]. }
  destruct (tx_processed t) eqn:Hflag.
  { cbn. split; [apply marked_more_refl|].
    split; [intros t' Ht'; congruence|].
    exists []. split; [symmetry; apply app_nil_r|].
    split; [constructor|]. split; [reflexivity | left; reflexivity]. }
  unfold bind at 1, _create_processed_transaction, bind at 1.
  pose proof (construct_tracks t self w) as Hc.
  pose proof (construct_owner t self w) as Ho.
  pose proof (construct_cases t self w) as Hcase.
  destruct (construct_processed_transaction t self w) as [e|pt self1 w1];
    [exact I|].
  destruct Hcase as (a0 & entries0 & _ & Hpt & _).
  destruct Hc as (Hsrc & Hm1 & Hp1).
  assert (Hcreate : exists w2,
            (let* self := get_self in
             match cls self with
             | TransactionProcessorClass => validate_debits_equal_credits pt
             | EnhancedSystemClass => ret pt
             end) self1 w1 = Return pt self1 w2).
  { unfold bind, get_self. destruct (cls self1).
    - eexists. reflexivity.
    - rewrite validate_spec. eexists. reflexivity. }
  destruct Hcreate as (w2 & ->).
  unfold bind at 1.
  destruct (mark_processed_marks i self1 w2) as (self2 & -> & Hm2 & Hat & Hp2).
  unfold bind, get_self, put_self.
  split; [|split].
  - eapply marked_more_trans; [exact Hm1|].
    destruct Hm2 as (A1 & A2 & A3 & A4 & A5 & A6 & A7).
    unfold marked_more; cbn. auto 10.
  - exact Hat.
  - exists [pt]. split; [cbn; rewrite Hp2, Hp1; reflexivity|].
    split; [|split].
    + constructor; [|constructor]. split.
      * eapply Forall_impl; [exact Hsrc|]. intros e He.
        eapply entry_source_known; [|exact He].
        eapply list_elem_of_lookup_2. exact Hi.
      * destruct Ho as [Ho | Ho]; [left; exact Ho | right].
        eapply Exists_impl; [exact Ho|]. intros e ->.
        apply list_elem_of_fmap. exists t. split; [reflexivity|].
        eapply list_elem_of_lookup_2. exact Hi.
    + intros Hall. unfold all_processed in Hall.
      rewrite Forall_forall in Hall.
      rewrite (Hall t) in Hflag; [discriminate|].
      eapply list_elem_of_lookup_2. exact Hi.
    + right. exists pt, t. repeat (split; [assumption || reflexivity|]).
      exists t. rewrite Hpt. auto.
Qed.

Lemma marked_more_length (s s' : processor) :
  marked_more s s' ->
  length (raw_transactions s') = length (raw_transactions s).
Proof.
  intros (_ & _ & _ & H & _).
  rewrite <- (length_map unflag (raw_transactions s')), H.
  apply length_map.
Qed.

Lemma marked_at_stays (i : nat) (s s' : processor) :
  marked_more s s' -> marked_at i s -> marked_at i s'.
Proof.
  intros Hm Hi t' Ht'.
  assert (Hlt : (i < length (raw_transactions s))%nat).
  { rewrite <- (marked_more_length s s' Hm).
    eapply lookup_lt_Some. exact Ht'. }
  apply lookup_lt_is_Some in Hlt as [t Ht].
  destruct Hm as (_ & _ & _ & _ & _ & _ & Hm).
  destruct (Hm i t Ht) as (t'' & Ht'' & Hflag).
  rewrite Ht' in Ht''. inversion Ht''; subst. apply Hflag, Hi, Ht.
Qed.

(** The rows that are still to be journaled. *)
Lemma unprocessed_le (l l' : list raw_transaction) :
  length l' = length l ->
  (forall j t, l !! j = Some t ->
     exists t', l' !! j = Some t'
                /\ (tx_processed t = true -> tx_processed t' = true)) ->
  (count_unprocessed l' <= count_unprocessed l)%nat
  /\ forall i t t', l !! i = Some t -> tx_processed t = false ->
       l' !! i = Some t' -> tx_processed t' = true ->
       (count_unprocessed l' < count_unprocessed l)%nat.
Proof.
  revert l'. induction l as [|x l IH]; intros [|x' l'] Hlen Hmono;
    try discriminate.
  - split; [reflexivity|]. intros i t t' H. destruct i; discriminate.
  - injection Hlen as Hlen.
    destruct (IH l' Hlen) as (Hle & Hlt).
    { intros j t Hj. apply (Hmono (S j) t Hj). }
    destruct (Hmono 0%nat x eq_refl) as (y & Hy & Hflag).
    inversion Hy; subst y.
    unfold count_unprocessed in *. cbn [List.filter].
    split.
    + destruct (tx_processed x); cbn.
      * rewrite Hflag by reflexivity. cbn. exact Hle.
      * destruct (tx_processed x'); cbn; lia.
    + intros [|i] t t' Ht Hf Ht' Hf'.
      * inversion Ht; inversion Ht'; subst. rewrite Hf, Hf'. cbn. lia.
      * specialize (Hlt i t t' Ht Hf Ht' Hf').
        destruct (tx_processed x); cbn.
        -- rewrite Hflag by reflexivity. cbn. exact Hlt.
        -- destruct (tx_processed x'); cbn; lia.
Qed.

Lemma marked_more_unprocessed (s s' : processor) :
  marked_more s s' ->
  (count_unprocessed (raw_transactions s')
   <= count_unprocessed (raw_transactions s))%nat.
Proof.
  intros Hm. apply unprocessed_le.
  - apply marked_more_length, Hm.
  - apply Hm.
Qed.

Lemma process_one_done (i : nat) (self : processor) (w : env) :
  all_processed self -> process_one i self w = Return tt self w.
Proof.
  intros Hall. unfold process_one, bind at 1, get_self.
  destruct (raw_transactions self !! i) as [t|] eqn:Hi; [|reflexivity].
  unfold all_processed in Hall. rewrite Forall_forall in Hall.
  rewrite (Hall t); [reflexivity|].
  eapply list_elem_of_lookup_2. exact Hi.
Qed.

Lemma for_each_done (l : list nat) (self : processor) (w : env) :
  all_processed self -> for_each l process_one self w = Return tt self w.
Proof.
  intros Hall. induction l as [|i l IH]; [reflexivity|].
  cbn [for_each]. unfold bind. rewrite (process_one_done i self w Hall).
  exact IH.
Qed.

Lemma from_row_same (s s' : processor) (j : nat) (r : journal_record) :
  marked_more s s' -> from_row s' j r -> from_row s j r.
Proof.
  intros Hm (t' & Hj' & Hd & Hdesc & Hcat).
  assert (Hlt : (j < length (raw_transactions s))%nat).
  { rewrite <- (marked_more_length s s' Hm).
    eapply lookup_lt_Some. exact Hj'. }
  apply lookup_lt_is_Some in Hlt as [t Hj].
  destruct Hm as (_ & _ & _ & Hpool & _).
  assert (E : unflag t' = unflag t).
  { assert (H1 : map unflag (raw_transactions s') !! j = Some (unflag t'))
      by (rewrite list_lookup_fmap, Hj'; reflexivity).
    assert (H2 : map unflag (raw_transactions s) !! j = Some (unflag t))
      by (rewrite list_lookup_fmap, Hj; reflexivity).
    rewrite Hpool, H2 in H1. congruence. }
  exists t. split; [exact Hj|].
  change (tx_date t) with (tx_date (unflag t)).
  change (tx_description t) with (tx_description (unflag t)).
  change (tx_category t) with (tx_category (unflag t)).
  rewrite <- E. auto.
Qed.

Lemma for_each_tracks (l : list nat) (self : processor) (w : env) :
  match for_each l process_one self w with
  | Raise e => True
  | Return _ self' w' =>
      marked_more self self'
      /\ Forall (fun i => marked_at i self') l
      /\ exists new,
          processed_transactions self'
          = (processed_transactions self ++ new)%list
          /\ Forall (new_record self) new
          /\ (length new + count_unprocessed (raw_transactions self')
              <= count_unprocessed (raw_transactions self))%nat
          /\ exists js, sublist js l /\ Forall2 (from_row self) js new
  end.
Proof.
  revert self w. induction l as [|i l IH]; intros self w.
  - cbn. split; [apply marked_more_refl|]. split; [constructor|].
    exists []. split; [symmetry; apply app_nil_r|].
    split; [constructor|]. split; [reflexivity|].
    exists []. split; constructor.
  - cbn [for_each]. unfold bind.
    pose proof (process_one_tracks i self w) as H1.
    destruct (process_one i self w) as [e|[] self1 w1]; [exact I|].
    destruct H1 as (Hm1 & Hat1 & new1 & Hp1 & Hk1 & _ & Hshape).
    specialize (IH self1 w1).
    destruct (for_each l process_one self1 w1) as [e|[] self2 w2]; [exact I|].
    destruct IH as (Hm2 & Hat2 & new2 & Hp2 & Hk2 & Hcount & js & Hjs & Hrows).
    split; [eapply marked_more_trans; eassumption|].
    split; [constructor; [eapply marked_at_stays; eassumption | exact Hat2]|].
    exists (new1 ++ new2)%list.
    split; [rewrite Hp2, Hp1, app_assoc; reflexivity|].
    assert (Hrows' : Forall2 (from_row self) js new2).
    { eapply Forall2_impl; [exact Hrows|]. intros j r Hr.
      eapply from_row_same; eassumption. }
    split; [|split].
    + apply Forall_app. split; [exact Hk1|].
      eapply Forall_impl; [exact Hk2|]. intros r Hr.
      eapply new_record_same; eassumption.
    + rewrite length_app.
      destruct Hshape as [-> | (pt & t & -> & Hi & Hflag & _)].
      * pose proof (marked_more_unprocessed _ _ Hm1). cbn. lia.
      * assert (Hlt : (count_unprocessed (raw_transactions self1)
                       < count_unprocessed (raw_transactions self))%nat).
        { destruct (unprocessed_le (raw_transactions self)
                      (raw_transactions self1)) as (_ & Hlt).
          - apply marked_more_length, Hm1.
          - apply Hm1.
          - destruct Hm1 as (_ & _ & _ & _ & _ & _ & Hmono).
            destruct (Hmono i t Hi) as (t' & Hi' & _).
            apply (Hlt i t t' Hi Hflag Hi'). apply (Hat1 t' Hi'). }
        cbn. lia.
    + destruct Hshape as [-> | (pt & t & -> & Hi & Hflag & Hfrom)].
      * exists js. split; [apply sublist_cons, Hjs | exact Hrows'].
      * exists (i :: js). split; [apply sublist_skip, Hjs|].
        constructor; [exact Hfrom | exact Hrows'].
Qed.

(** Journal building, as a whole: what it leaves alone, what it marks and
    where the accounts of its entries come from. *)
Lemma process_raw_transactions_tracks (self : processor) (w : env) :
  match process_raw_transactions self w with
  | Raise e => True
  | Return _ self' w' =>
      marked_more self self'
      /\ all_processed self'
      /\ exists new,
          processed_transactions self'
          = (processed_transactions self ++ new)%list
          /\ Forall (new_record self) new
          /\ (length new + count_unprocessed (raw_transactions self')
              <= count_unprocessed (raw_transactions self))%nat
  end.
Proof.
  unfold process_raw_transactions, bind at 1, get_self.
  unfold bind at 1, sorted_positions, bind at 1.
  destruct (sort_keys_uniform tx_date (raw_transactions self) w)
    as (keys & w1 & Hlen & Hkeys).
  rewrite Hkeys. cbn [ret].
  pose proof (for_each_tracks
                (sorted_by_key
                   (zip keys (seq 0 (length (raw_transactions self)))))
                self w1) as H.
  destruct (for_each _ process_one self w1) as [e|[] self' w']; [exact I|].
  destruct H as (Hm & Hat & new & Hp & Hk & Hcount & _).
  split; [exact Hm|]. split; [|exists new; auto].
  unfold all_processed. apply Forall_lookup. intros i t Hi.
  assert (Hin : i ∈ sorted_by_key
                  (zip keys (seq 0 (length (raw_transactions self))))).
  { rewrite sorted_by_key_zip_Permutation by (rewrite length_seq; exact Hlen).
    apply elem_of_seq. split; [lia|]. cbn.
    rewrite <- (marked_more_length self self' Hm).
    eapply lookup_lt_Some. exact Hi. }
  rewrite Forall_forall in Hat. exact (Hat i Hin t Hi).
Qed.

Lemma process_raw_transactions_done (self : processor) (w : env) :
  all_processed self ->
  exists w', process_raw_transactions self w = Return tt self w'.
Proof.
  intros Hall.
  unfold process_raw_transactions, bind at 1, get_self.
  unfold bind at 1, sorted_positions, bind at 1.
  destruct (sort_keys_uniform tx_date (raw_transactions self) w)
    as (keys & w1 & Hlen & Hkeys).
  rewrite Hkeys. cbn [ret]. exists w1. apply for_each_done, Hall.
Qed.

(* ===================================================================== *)
(** ** From the pool to the verifier *)
(* ===================================================================== *)





Lemma dom_post_balances (accounts : gmap string account)
  (m : gmap string pyfloat) (e : entry) :
  dom (post_balances accounts m e) = dom m.
Proof.
  unfold post_balances.
  destruct (accounts !! e_account e); [|reflexivity].
  destruct (m !! e_account e) eqn:Hb; [|reflexivity].
  apply dom_insert_lookup_L. rewrite Hb. eauto.
Qed.

Lemma dom_replayed_balances (accounts : gmap string account)
  (rs : list journal_record) :
  dom (replayed_balances accounts rs) = dom accounts.
Proof.
  unfold replayed_balances.
  assert (H : forall es m,
             dom (fold_left (post_balances accounts) es m) = dom m).
  { induction es as [|e es IH]; intros m; [reflexivity|].
    cbn. rewrite IH. apply dom_post_balances. }
  rewrite H. apply dom_fmap_L.
Qed.

(** X1.  Balance replay never fails, whatever the journal holds.  It
    leaves the journal, the pool and the registry alone, gives a balance
    to every registered account and to no other, and computes the
    balances from zero: they do not depend on the balances found.  The
    replayed transactions are appended to those of earlier replays, one
    for each record. *)
Theorem X1_replay_from_zero (self : processor) (w : env)
  (b : gmap string pyfloat) :
  exists s1 s2 w',
    update_account_balances self w = Return tt s1 w'
    /\ update_account_balances (set_account_balances b self) w
       = Return tt s2 w'
    /\ same_journal self s1
    /\ account_balances s2 = account_balances s1
    /\ dom (account_balances s1) = dom (accounts self)
    /\ exists new,
        unified_transactions s1 = (unified_transactions self ++ new)%list
        /\ length new = length (processed_transactions self).
Proof.
  destruct (update_account_balances_spec self w)
    as (keys & w' & Hlen & Hkeys & s1 & new & Hrun & Hj & Hb & Hu & Hnew).
  destruct (update_account_balances_spec (set_account_balances b self) w)
    as (keys2 & w2 & _ & Hkeys2 & s2 & new2 & Hrun2 & _ & Hb2 & _).
  cbn [processed_transactions accounts set_account_balances] in Hkeys2, Hb2.
  specialize (Hkeys self). rewrite (Hkeys2 self) in Hkeys.
  inversion Hkeys; subst keys2 w2.
  exists s1, s2, w'. split; [exact Hrun|]. split; [exact Hrun2|].
  split; [exact Hj|]. split; [congruence|].
  split; [rewrite Hb; apply dom_replayed_balances|].
  exists new. split; [exact Hu|].
  apply Forall2_length in Hnew. rewrite <- Hnew.
  rewrite (Permutation_length (sorted_by_key_zip_Permutation keys _ Hlen)).
  reflexivity.
Qed.









(** X4.  Journal building is done once.  When it returns, every row of
    the pool is marked processed, and a second run, whenever it takes
    place, returns the object as it finds it: no row is journaled
    twice. *)
Theorem X4_journaled_once (self self' : processor) (w w' w1 : env) :
  process_raw_transactions self w = Return tt self' w' ->
  all_processed self'
  /\ exists w2, process_raw_transactions self' w1 = Return tt self' w2.
Proof.
  intros Hrun.
  pose proof (process_raw_transactions_tracks self w) as H.
  rewrite Hrun in H. destruct H as (_ & Hall & _).
  split; [exact Hall|]. apply process_raw_transactions_done, Hall.
Qed.

(** A witness of X4: the pool of the transfer scenario. *)
Lemma X4_witness :
  let self := loaded TransactionProcessorClass
                [row_A "Transfer to xx5784" "transfers";
                 row_B "Payment received" "income"] in
  exists self' w',
    process_raw_transactions self (world "id-" a_day_in_2025)
    = Return tt self' w'
    /\ all_processed self'
    /\ exists w2,
        process_raw_transactions self' (world "id-" a_day_in_2025)
        = Return tt self' w2.
Proof.
  intros self.
  destruct (run_unit process_raw_transactions self
              (world "id-" a_day_in_2025) (fun _ _ => True))
    as (self' & w' & Hrun & _); [vm_compute; exact I|].
  exists self', w'. split; [exact Hrun|].
  apply (X4_journaled_once self self' _ w' _ Hrun).
Defined.

(** X5.  What journal building touches.  When it returns, the registry,
    the categories, the balances and the replayed transactions are as
    before; the pool holds the same rows, up to their ['processed']
    flags; the records that the journal held are still there, in front of
    the new ones, which are no more than the rows that were not marked
    processed; and every entry of a new record is on a bucket, on a bank
    account of the reference table, or on the account of a row of the
    pool. *)
Theorem X5_builder_frame (self self' : processor) (w w' : env) :
  process_raw_transactions self w = Return tt self' w' ->
  cls self' = cls self
  /\ accounts self' = accounts self
  /\ categories self' = categories self
  /\ account_balances self' = account_balances self
  /\ unified_transactions self' = unified_transactions self
  /\ map unflag (raw_transactions self') = map unflag (raw_transactions self)
  /\ exists new,
      processed_transactions self'
      = (processed_transactions self ++ new)%list
      /\ (length new <= count_unprocessed (raw_transactions self))%nat
      /\ Forall (fun r => Forall (fun e => known_account self (e_account e))
                            (pt_entries r)) new.
Proof.
  intros Hrun.
  pose proof (process_raw_transactions_tracks self w) as H.
  rewrite Hrun in H.
  destruct H as ((H1 & H2 & H3 & H4 & H5 & H6 & _) & _ & new & Hp & Hk & Hn).
  repeat (split; [assumption|]).
  exists new. split; [exact Hp|]. split; [lia|].
  eapply Forall_impl; [exact Hk|]. intros r [H _]. exact H.
Qed.

(** A witness of X5: the pool of the transfer scenario, journaled by
    [EnhancedDoubleEntryAccountingSystem]. *)
Lemma X5_witness :
  let self := loaded EnhancedSystemClass
                [row_A "Transfer to xx5784" "transfers";
                 row_B "Payment received" "income"] in
  exists self' w',
    process_raw_transactions self (world "id-" a_day_in_2025)
    = Return tt self' w'
    /\ cls self' = cls self
    /\ accounts self' = accounts self
    /\ categories self' = categories self
    /\ account_balances self' = account_balances self
    /\ unified_transactions self' = unified_transactions self
    /\ map unflag (raw_transactions self')
       = map unflag (raw_transactions self)
    /\ exists new,
        processed_transactions self'
        = (processed_transactions self ++ new)%list
        /\ (length new <= count_unprocessed (raw_transactions self))%nat
        /\ Forall (fun r =>
                     Forall (fun e => known_account self (e_account e))
                       (pt_entries r)) new.
Proof.
  intros self.
  destruct (run_unit process_raw_transactions self
              (world "id-" a_day_in_2025) (fun _ _ => True))
    as (self' & w' & Hrun & _); [vm_compute; exact I|].
  exists self', w'. split; [exact Hrun|].
  apply (X5_builder_frame self self' _ w' Hrun).
Defined.

(* ===================================================================== *)
(** ** Loading *)
(* ===================================================================== *)

Lemma load_rows_spec (with_balance : bool) (rows : list (list string))
  (filepath account_type : string) (self : processor) (w : env) :
  exists new,
    for_each rows
      (EnhancedDoubleEntryAccountingSystem.load_row with_balance filepath
         account_type) self w
    = Return tt
        (set_raw_transactions (raw_transactions self ++ new)%list self) w
    /\ Forall2 (loaded_as with_balance filepath account_type
                  (categories self))
         (List.filter kept_row rows) new.
Proof.
  revert self. induction rows as [|row rows IH]; intros self.
  - exists []. split; [|constructor].
    cbn. rewrite app_nil_r. destruct self; reflexivity.
  - cbn [for_each]. unfold bind at 1.
    destruct row as [|c0 [|c1 [|c2 rest]]];
      try (destruct (IH self) as (new & Hrun & Hnew);
           exists new; split; [exact Hrun | exact Hnew]).
    cbn [EnhancedDoubleEntryAccountingSystem.load_row List.filter kept_row].
    destruct (PyFloat.neb (parse_amount (Text c1)) PyFloat.zero) eqn:Hnz.
    2:{ destruct (IH self) as (new & Hrun & Hnew).
        exists new. split; [exact Hrun | exact Hnew]. }
    unfold bind at 1, get_self, put_self.
    match goal with
    | |- context [set_raw_transactions (_ ++ [?t])%list self] =>
        set (tr := t)
    end.
    destruct (IH (set_raw_transactions (raw_transactions self ++ [tr])%list
                    self)) as (new & Hrun & Hnew).
    exists (tr :: new). split.
    + rewrite Hrun. cbn [raw_transactions set_raw_transactions].
      rewrite <- app_assoc. reflexivity.
    + constructor; [|exact Hnew].
      exists c0, c1, c2, rest. subst tr. cbn.
      repeat split.
      destruct with_balance; [|destruct rest; reflexivity].
      destruct rest as [|c3 rest]; [reflexivity|].
      cbn. destruct (String.eqb c3 ""); reflexivity.
Qed.

(** X6.  The loaders of [EnhancedDoubleEntryAccountingSystem], once the
    file is read, never fail and print nothing.  They change the pool
    only, and only by appending: one transaction for each row of three
    cells or more whose amount is not zero, in the order of the file,
    tagged with the file and the account and not marked processed.  A
    transaction loaded by [load_credit_card] has no balance. *)
Theorem X6_loaders_append (rows : list (list string))
  (filepath account_type : string) (self : processor) (w : env) :
  (exists new,
      EnhancedDoubleEntryAccountingSystem.load_credit_card rows filepath
        account_type self w
      = Return tt
          (set_raw_transactions (raw_transactions self ++ new)%list self) w
      /\ Forall2 (loaded_as false filepath account_type (categories self))
           (List.filter kept_row rows) new
      /\ Forall (fun t => tx_balance t = None) new)
  /\ (exists new,
         EnhancedDoubleEntryAccountingSystem.load_bank_account rows filepath
           account_type self w
         = Return tt
             (set_raw_transactions (raw_transactions self ++ new)%list self)
             w
         /\ Forall2 (loaded_as true filepath account_type (categories self))
              (List.filter kept_row rows) new).
Proof.
  split.
  - destruct (load_rows_spec false rows filepath account_type self w)
      as (new & Hrun & Hnew).
    exists new. split; [exact Hrun|]. split; [exact Hnew|].
    clear Hrun. induction Hnew as [|row t rows' new' Ht _ IH];
      constructor; [|exact IH].
    destruct Ht as (c0 & c1 & c2 & rest & _ & _ & _ & _ & _ & _ & Hb & _).
    exact Hb.
  - apply load_rows_spec.
Qed.




(* ===================================================================== *)
(** ** Dates *)
(* ===================================================================== *)

Lemma is_digit_val (c : ascii) :
  PyStr.is_digit c = true ->
  0 <= PyStr.digit_val c <= 9
  /\ (PyStr.eqc c "0" = false -> 1 <= PyStr.digit_val c).
Proof.
  unfold PyStr.is_digit, PyStr.digit_val, PyStr.eqc, PyStr.code.
  intros H. apply andb_true_iff in H as [H1 H2].
  apply Nat.leb_le in H1, H2. split; [lia|].
  intros H0. apply Ascii.eqb_neq in H0.
  assert (nat_of_ascii c <> 48%nat); [|lia].
  intros E. apply H0. rewrite <- (ascii_nat_embedding c), E. reflexivity.
Qed.

Lemma parse_day_range (f : list ascii) (d : Z) :
  PyDatetime.parse_day f = Some d -> 1 <= d <= 31.
Proof.
  unfold PyDatetime.parse_day.
  destruct f as [|a [|b [|c f]]]; try discriminate.
  - destruct (PyStr.is_digit a) eqn:Ha; [|discriminate].
    destruct (PyStr.eqc a "0") eqn:H0; [discriminate|].
    cbn. intros H; inversion H; subst.
    destruct (is_digit_val a Ha) as [? Hpos]. specialize (Hpos H0). lia.
  - destruct (PyStr.eqc a " ").
    + destruct (PyStr.is_digit b) eqn:Hb; [|discriminate].
      destruct (PyStr.eqc b "0") eqn:H0; [discriminate|].
      cbn. intros H; inversion H; subst.
      destruct (is_digit_val b Hb) as [? Hpos]. specialize (Hpos H0). lia.
    + destruct (PyStr.is_digit a && PyStr.is_digit b)%bool; [|discriminate].
      destruct ((1 <=? _) && (_ <=? 31))%bool eqn:Hr; [|discriminate].
      intros H; inversion H; subst.
      apply andb_true_iff in Hr as [H1 H2]. lia.
Qed.

Lemma parse_month_range (f : list ascii) (m : Z) :
  PyDatetime.parse_month f = Some m -> 1 <= m <= 12.
Proof.
  unfold PyDatetime.parse_month.
  destruct f as [|a [|b [|c f]]]; try discriminate.
  - destruct (PyStr.is_digit a) eqn:Ha; [|discriminate].
    destruct (PyStr.eqc a "0") eqn:H0; [discriminate|].
    cbn. intros H; inversion H; subst.
    destruct (is_digit_val a Ha) as [? Hpos]. specialize (Hpos H0). lia.
  - destruct (PyStr.is_digit a && PyStr.is_digit b)%bool; [|discriminate].
    destruct ((1 <=? _) && (_ <=? 12))%bool eqn:Hr; [|discriminate].
    intros H; inversion H; subst.
    apply andb_true_iff in Hr as [H1 H2]. lia.
Qed.

Lemma parse_year_range (f : list ascii) (y : Z) :
  PyDatetime.parse_year f = Some y -> 0 <= y <= 9999.
Proof.
  unfold PyDatetime.parse_year.
  destruct f as [|a [|b [|c [|d [|e f]]]]]; try discriminate.
  destruct (forallb PyStr.is_digit [a; b; c; d]) eqn:Hd; [|discriminate].
  intros H; inversion H; subst. clear H.
  cbn in Hd. repeat (apply andb_true_iff in Hd as [?H Hd]).
  unfold PyStr.digits_value. cbn.
  destruct (is_digit_val a) as [? _]; [assumption|].
  destruct (is_digit_val b) as [? _]; [assumption|].
  destruct (is_digit_val c) as [? _]; [assumption|].
  destruct (is_digit_val d) as [? _]; [assumption|].
  lia.
Qed.

Lemma strptime_dmy_calendar (s : string) (d : datetime) :
  PyDatetime.strptime_dmy s = Some d -> calendar_midnight d.
Proof.
  unfold PyDatetime.strptime_dmy.
  destruct (PyStr.split_on "/" (PyStr.chars s)) as [|fd [|fm [|fy [|]]]];
    try discriminate.
  destruct (PyDatetime.parse_day fd) as [dd|] eqn:Hd; [|discriminate].
  destruct (PyDatetime.parse_month fm) as [mm|] eqn:Hm; [|discriminate].
  destruct (PyDatetime.parse_year fy) as [yy|] eqn:Hy; [|discriminate].
  destruct ((1 <=? yy) && (dd <=? PyDatetime.days_in_month yy mm))%bool
    eqn:Hr; [|discriminate].
  intros H; inversion H; subst. clear H.
  apply andb_true_iff in Hr as [H1 H2].
  apply parse_day_range in Hd. apply parse_month_range in Hm.
  apply parse_year_range in Hy.
  unfold calendar_midnight, PyDatetime.midnight. cbn. lia.
Qed.

(** The character of a digit. *)
Lemma digit_char (k : Z) :
  0 <= k <= 9 ->
  let c := ascii_of_nat (48 + Z.to_nat k) in
  PyStr.is_digit c = true
  /\ PyStr.eqc c "/" = false
  /\ PyStr.eqc c " " = false
  /\ PyStr.digit_val c = k.
Proof.
  intros Hk.
  assert (H : k = 0 \/ k = 1 \/ k = 2 \/ k = 3 \/ k = 4 \/ k = 5 \/ k = 6
              \/ k = 7 \/ k = 8 \/ k = 9) by lia.
  repeat (destruct H as [-> | H]); try subst k; vm_compute; auto.
Qed.

Lemma pad2_chars (n : Z) :
  PyStr.chars (PyDatetime.pad2 n)
  = [ascii_of_nat (48 + Z.to_nat (n / 10));
     ascii_of_nat (48 + Z.to_nat (n mod 10))].
Proof. reflexivity. Qed.

Lemma strptime_dmy_text (y m d : Z) :
  1 <= y <= 9999 -> 1 <= m <= 12 ->
  1 <= d <= PyDatetime.days_in_month y m ->
  PyDatetime.strptime_dmy (dmy_text y m d)
  = Some (PyDatetime.midnight y m d).
Proof.
  intros Hy Hm Hd.
  assert (Hd31 : d <= 31).
  { unfold PyDatetime.days_in_month in Hd.
    repeat match type of Hd with
           | context [if ?b then _ else _] => destruct b
           end; lia. }
  unfold PyDatetime.strptime_dmy, dmy_text, PyDatetime.pad4.
  rewrite !chars_app, !pad2_chars.
  destruct (digit_char (d / 10)) as (D1 & D2 & D3 & D4);
    [Z.to_euclidean_division_equations; lia|].
  destruct (digit_char (d mod 10)) as (D5 & D6 & D7 & D8);
    [Z.to_euclidean_division_equations; lia|].
  destruct (digit_char (m / 10)) as (M1 & M2 & M3 & M4);
    [Z.to_euclidean_division_equations; lia|].
  destruct (digit_char (m mod 10)) as (M5 & M6 & M7 & M8);
    [Z.to_euclidean_division_equations; lia|].
  destruct (digit_char (y / 100 / 10)) as (Y1 & Y2 & Y3 & Y4);
    [Z.to_euclidean_division_equations; lia|].
  destruct (digit_char ((y / 100) mod 10)) as (Y5 & Y6 & Y7 & Y8);
    [Z.to_euclidean_division_equations; lia|].
  destruct (digit_char (y mod 100 / 10)) as (Y9 & Y10 & Y11 & Y12);
    [Z.to_euclidean_division_equations; lia|].
  destruct (digit_char ((y mod 100) mod 10)) as (Y13 & Y14 & Y15 & Y16);
    [Z.to_euclidean_division_equations; lia|].
  cbv zeta in *.
  set (d1 := ascii_of_nat (48 + Z.to_nat (d / 10))) in *.
  set (d2 := ascii_of_nat (48 + Z.to_nat (d mod 10))) in *.
  set (m1 := ascii_of_nat (48 + Z.to_nat (m / 10))) in *.
  set (m2 := ascii_of_nat (48 + Z.to_nat (m mod 10))) in *.
  set (y1 := ascii_of_nat (48 + Z.to_nat (y / 100 / 10))) in *.
  set (y2 := ascii_of_nat (48 + Z.to_nat ((y / 100) mod 10))) in *.
  set (y3 := ascii_of_nat (48 + Z.to_nat (y mod 100 / 10))) in *.
  set (y4 := ascii_of_nat (48 + Z.to_nat ((y mod 100) mod 10))) in *.
  clearbody d1 d2 m1 m2 y1 y2 y3 y4.
  cbn [PyStr.chars list_ascii_of_string app PyStr.split_on
         PyStr.split_on_aux].
  rewrite D2, D6, M2, M6, Y2, Y6, Y10, Y14.
  change (PyStr.eqc "/" "/") with true.
  cbn [rev app PyDatetime.parse_day PyDatetime.parse_month
         PyDatetime.parse_year forallb].
  rewrite D3, D1, D5, M1, M5, Y1, Y5, Y9, Y13.
  cbn [andb].
  unfold PyStr.digits_value. cbn [fold_left].
  rewrite D4, D8, M4, M8, Y4, Y8, Y12, Y16.
  assert (E1 : 10 * (d / 10) + d mod 10 = d)
    by (Z.to_euclidean_division_equations; lia).
  assert (E2 : 10 * (m / 10) + m mod 10 = m)
    by (Z.to_euclidean_division_equations; lia).
  assert (E3 : 10 * (10 * (10 * (10 * 0 + y / 100 / 10) + (y / 100) mod 10)
                     + y mod 100 / 10) + (y mod 100) mod 10 = y)
    by (Z.to_euclidean_division_equations; lia).
  rewrite E1, E2, E3.
  replace ((1 <=? d) && (d <=? 31))%bool with true
    by (symmetry; apply andb_true_iff; split; apply Z.leb_le; lia).
  replace ((1 <=? m) && (m <=? 12))%bool with true
    by (symmetry; apply andb_true_iff; split; apply Z.leb_le; lia).
  replace ((1 <=? y) && (d <=? PyDatetime.days_in_month y m))%bool with true
    by (symmetry; apply andb_true_iff; split; apply Z.leb_le; lia).
  reflexivity.
Qed.

Lemma days_before_month_bounds (y m : Z) :
  1 <= m <= 12 ->
  0 <= PyDatetime.days_before_month y m
  /\ PyDatetime.days_before_month y m + PyDatetime.days_in_month y m <= 366
  /\ (2 <= m -> 31 <= PyDatetime.days_before_month y m)
  /\ (m <= 11 ->
      PyDatetime.days_before_month y m + PyDatetime.days_in_month y m <= 335)
  /\ (m = 12 ->
      PyDatetime.days_before_month y m
      = if PyDatetime.is_leap y then 335 else 334).
Proof.
  intros Hm.
  assert (H : m = 1 \/ m = 2 \/ m = 3 \/ m = 4 \/ m = 5 \/ m = 6 \/ m = 7
              \/ m = 8 \/ m = 9 \/ m = 10 \/ m = 11 \/ m = 12) by lia.
  repeat (destruct H as [-> | H]); try subst m;
    cbv -[PyDatetime.is_leap Z.le Z.lt];
    destruct (PyDatetime.is_leap y); cbv -[Z.le Z.lt];
    repeat split; intros; lia.
Qed.

(** All dates of the calendar but its first two and last two days are
    two days or more from both ends. *)
Lemma calendar_two_days (d : datetime) :
  calendar_midnight d ->
  two_days_in_range d
  \/ (year d = 1 /\ month d = 1 /\ day d <= 2)
  \/ (year d = 9999 /\ month d = 12 /\ 30 <= day d).
Proof.
  intros (Hy & Hm & Hd & _).
  destruct (days_before_month_bounds (year d) (month d) Hm)
    as (B1 & B2 & B3 & B4 & B5).
  unfold two_days_in_range, PyDatetime.toordinal, PyDatetime.min_ordinal,
    PyDatetime.max_ordinal, PyDatetime.days_before_year.
  destruct (Z.eq_dec (year d) 9999) as [E9 | N9].
  - destruct (Z.eq_dec (month d) 12) as [E12 | N12].
    + rewrite B5 in * by exact E12. rewrite E9 in *.
      change (PyDatetime.is_leap 9999) with false in *.
      cbv beta iota in *.
      change ((9999 - 1) * 365 + (9999 - 1) / 4 - (9999 - 1) / 100
              + (9999 - 1) / 400) with 3651694.
      lia.
    + left. rewrite E9 in *.
      change ((9999 - 1) * 365 + (9999 - 1) / 4 - (9999 - 1) / 100
              + (9999 - 1) / 400) with 3651694.
      lia.
  - destruct (Z.eq_dec (year d) 1) as [E1 | N1].
    + rewrite E1 in *.
      change ((1 - 1) * 365 + (1 - 1) / 4 - (1 - 1) / 100 + (1 - 1) / 400)
        with 0.
      destruct (Z.eq_dec (month d) 1) as [M1 | M1]; [|left; lia].
      rewrite M1 in *.
      change (PyDatetime.days_before_month 1 1) with 0 in *. lia.
    + left. Z.to_euclidean_division_equations. lia.
Qed.

(** X8.  [parse_date] returns a date of the calendar at midnight (a day
    that the month has in that year, a year from 1 to 9999), or else the
    text that it was given, unchanged.  But for the first two and the
    last two days of the calendar, a date that parsed is two days or more
    from both ends of the calendar, as the date arithmetic of the journal
    builder requires. *)
Theorem X8_parse_date_calendar (date_str : string) :
  match parse_date date_str with
  | Date d =>
      calendar_midnight d
      /\ (two_days_in_range d
          \/ (year d = 1 /\ month d = 1 /\ day d <= 2)
          \/ (year d = 9999 /\ month d = 12 /\ 30 <= day d))
  | DateText s => s = date_str
  end.
Proof.
  unfold parse_date.
  destruct (PyDatetime.strptime_dmy date_str) as [d|] eqn:H; [|reflexivity].
  apply strptime_dmy_calendar in H.
  split; [exact H | apply calendar_two_days, H].
Qed.

(** X9.  [parse_date] reads back every date of the calendar from its
    text, day, month and year in two, two and four digits between
    slashes. *)
Theorem X9_parse_date_text (y m d : Z) :
  1 <= y <= 9999 -> 1 <= m <= 12 ->
  1 <= d <= PyDatetime.days_in_month y m ->
  parse_date (dmy_text y m d) = Date (PyDatetime.midnight y m d).
Proof.
  intros Hy Hm Hd. unfold parse_date.
  rewrite (strptime_dmy_text y m d Hy Hm Hd). reflexivity.
Qed.

(** A witness of X9: the 29th of February 2024. *)
Lemma X9_witness :
  1 <= 2024 <= 9999 /\ 1 <= 2 <= 12
  /\ 1 <= 29 <= PyDatetime.days_in_month 2024 2
  /\ parse_date (dmy_text 2024 2 29) = Date (PyDatetime.midnight 2024 2 29).
Proof.
  assert (H1 : 1 <= 2024 <= 9999) by lia.
  assert (H2 : 1 <= 2 <= 12) by lia.
  assert (H3 : 1 <= 29 <= PyDatetime.days_in_month 2024 2)
    by (vm_compute; split; discriminate).
  split; [exact H1|]. split; [exact H2|]. split; [exact H3|].
  apply (X9_parse_date_text 2024 2 29 H1 H2 H3).
Defined.

(* ===================================================================== *)
(** ** Texts *)
(* ===================================================================== *)

Lemma str_nil_iff (l : list ascii) : PyStr.str l = "" <-> l = [].
Proof.
  split; [|intros ->; reflexivity].
  destruct l; [reflexivity | discriminate].
Qed.

Lemma split_ws_aux_words (cur l : list ascii) :
  Forall (fun c => PyStr.is_space c = false) cur ->
  Forall word (PyStr.split_ws_aux cur l).
Proof.
  revert cur. induction l as [|c l IH]; intros cur Hcur.
  - cbn. destruct cur as [|x cur]; [constructor|].
    constructor; [|constructor]. split.
    + intros E. apply str_nil_iff in E.
      apply (f_equal (@length ascii)) in E.
      rewrite length_rev in E. discriminate.
    + rewrite chars_str. apply Forall_rev. exact Hcur.
  - cbn. destruct (PyStr.is_space c) eqn:Hc.
    + destruct cur as [|x cur]; [apply IH; constructor|].
      constructor; [|apply IH; constructor]. split.
      * intros E. apply str_nil_iff in E.
        apply (f_equal (@length ascii)) in E.
        rewrite length_rev in E. discriminate.
      * rewrite chars_str. apply Forall_rev. exact Hcur.
    + apply IH. constructor; assumption.
Qed.

Lemma split_ws_aux_run (cs cur rest : list ascii) :
  Forall (fun c => PyStr.is_space c = false) cs ->
  PyStr.split_ws_aux cur (cs ++ rest)
  = PyStr.split_ws_aux (rev cs ++ cur) rest.
Proof.
  revert cur. induction cs as [|c cs IH]; intros cur H; [reflexivity|].
  inversion H as [|? ? Hc Hcs]; subst.
  cbn. rewrite Hc, IH by exact Hcs.
  rewrite <- app_assoc. reflexivity.
Qed.

Lemma split_ws_join (ws : list string) :
  Forall word ws -> PyStr.split_ws (PyStr.join " " ws) = ws.
Proof.
  unfold PyStr.split_ws, PyStr.join.
  induction ws as [|w ws IH]; intros H; [reflexivity|].
  inversion H as [|? ? [Hne Hw] Hws]; subst.
  assert (Hcur : rev (PyStr.chars w) <> []).
  { intros E. apply Hne. rewrite <- (str_chars w).
    apply str_nil_iff. apply (f_equal (@rev ascii)) in E.
    rewrite rev_involutive in E. exact E. }
  destruct ws as [|w' ws].
  - cbn [String.concat]. rewrite <- (app_nil_r (PyStr.chars w)).
    rewrite split_ws_aux_run by exact Hw. rewrite app_nil_r. cbn.
    destruct (rev (PyStr.chars w)) eqn:E; [contradiction|].
    rewrite <- E, rev_involutive, str_chars. reflexivity.
  - cbn [String.concat]. rewrite !chars_app.
    rewrite split_ws_aux_run by exact Hw. rewrite app_nil_r.
    change (PyStr.chars " ") with [" "%char].
    cbn [app PyStr.split_ws_aux].
    change (PyStr.is_space " ") with true. cbv iota.
    destruct (rev (PyStr.chars w)) eqn:E; [contradiction|].
    rewrite <- E, rev_involutive, str_chars.
    f_equal. apply IH, Hws.
Qed.

Lemma prefix_occurs (p s : string) :
  String.prefix p s = true <-> exists after, s = p ++ after.
Proof.
  revert s. induction p as [|c p IH]; intros s.
  - split; [intros _; exists s; reflexivity|].
    intros _. destruct s; reflexivity.
  - destruct s as [|c' s]; cbn.
    + split; [discriminate | intros [after H]; discriminate H].
    + destruct (Ascii.ascii_dec c c') as [<- | Hne].
      * rewrite IH. split; intros [after H]; exists after.
        -- rewrite H. reflexivity.
        -- injection H as H. exact H.
      * split; [discriminate|]. intros [after H]. injection H as H1 _.
        congruence.
Qed.

Lemma contains_occurs (needle hay : string) :
  PyStr.contains needle hay = true <-> occurs_in needle hay.
Proof.
  unfold occurs_in. split.
  - induction hay as [|c hay IH]; cbn [PyStr.contains].
    + intros H. apply prefix_occurs in H as [after H].
      exists "", after. exact H.
    + intros H. apply orb_true_iff in H as [H | H].
      * apply prefix_occurs in H as [after H]. exists "", after. exact H.
      * destruct (IH H) as (before & after & ->).
        exists (String c before), after. reflexivity.
  - intros (before & after & ->).
    induction before as [|c before IH].
    + change (PyStr.contains needle (needle ++ after) = true).
      assert (H : String.prefix needle (needle ++ after) = true)
        by (apply prefix_occurs; eauto).
      revert H. generalize (needle ++ after). intros h H.
      destruct h; cbn [PyStr.contains]; [exact H|].
      rewrite H. reflexivity.
    + change (PyStr.contains needle
                (String c (before ++ needle ++ after)) = true).
      cbn [PyStr.contains]. rewrite IH. apply orb_true_r.
Qed.

Lemma upper_char_idempotent (c : ascii) :
  PyStr.upper_char (PyStr.upper_char c) = PyStr.upper_char c.
Proof.
  destruct c as [[|] [|] [|] [|] [|] [|] [|] [|]]; reflexivity.
Qed.

Lemma upper_idempotent (s : string) :
  PyStr.upper (PyStr.upper s) = PyStr.upper s.
Proof.
  unfold PyStr.upper. rewrite chars_str, List.map_map. f_equal.
  apply List.map_ext. intros c. apply upper_char_idempotent.
Qed.

Lemma existsb_mentions (keywords : list string) (s : string) :
  existsb (fun keyword =>
             PyStr.contains (PyStr.upper keyword) (PyStr.upper s)) keywords
  = true
  <-> mentions keywords s.
Proof.
  unfold mentions. rewrite existsb_exists.
  split; intros (k & Hk & H); exists k.
  - split; [apply list_elem_of_In, Hk | apply contains_occurs, H].
  - split; [apply list_elem_of_In, Hk | apply contains_occurs, H].
Qed.

Lemma str_app (l1 l2 : list ascii) :
  PyStr.str (l1 ++ l2) = PyStr.str l1 ++ PyStr.str l2.
Proof.
  rewrite <- (str_chars (PyStr.str l1 ++ PyStr.str l2)).
  rewrite chars_app, !chars_str. reflexivity.
Qed.

Lemma span_digits_parts (l : list ascii) :
  l = (fst (PyStr.span_digits l) ++ snd (PyStr.span_digits l))%list
  /\ Forall (fun c => PyStr.is_digit c = true) (fst (PyStr.span_digits l))
  /\ match snd (PyStr.span_digits l) with
     | c :: _ => PyStr.is_digit c = false
     | [] => True
     end.
Proof.
  induction l as [|c l (IH1 & IH2 & IH3)]; [cbn; auto|].
  cbn. destruct (PyStr.is_digit c) eqn:Hc.
  - destruct (PyStr.span_digits l) as [ds r]. cbn in *.
    split; [f_equal; exact IH1|]. split; [constructor; assumption|].
    exact IH3.
  - cbn. auto.
Qed.

(** What [re.search(r'xx(\d+)', ...)] finds. *)
Lemma search_xx_digits_spec (l : list ascii) :
  match search_xx_digits l with
  | Some r =>
      exists before ds after,
        l = (before ++ "x"%char :: "x"%char :: ds ++ after)%list
        /\ r = "x"%char :: "x"%char :: ds
        /\ ds <> []
        /\ Forall (fun c => PyStr.is_digit c = true) ds
        /\ match after with
           | c :: _ => PyStr.is_digit c = false
           | [] => True
           end
  | None =>
      forall before c after,
        l = (before ++ "x"%char :: "x"%char :: c :: after)%list ->
        PyStr.is_digit c = false
  end.
Proof.
  induction l as [|c1 l IH].
  - cbn. intros [|? ?] c after H; discriminate H.
  - assert (Hrec : search_xx_digits l = None ->
               (forall c after,
                   c1 :: l = "x"%char :: "x"%char :: c :: after ->
                   PyStr.is_digit c = false) ->
               forall before c after,
                 c1 :: l
                 = (before ++ "x"%char :: "x"%char :: c :: after)%list ->
                 PyStr.is_digit c = false).
    { intros Hnone Hhead [|b before] c after H.
      - apply (Hhead c after H).
      - injection H as _ H. rewrite Hnone in IH. apply (IH before c after H). }
    assert (Hsome : forall r,
               search_xx_digits l = Some r ->
               exists before ds after,
                 c1 :: l = (before ++ "x"%char :: "x"%char :: ds ++ after)%list
                 /\ r = "x"%char :: "x"%char :: ds
                 /\ ds <> []
                 /\ Forall (fun c => PyStr.is_digit c = true) ds
                 /\ match after with
                    | c :: _ => PyStr.is_digit c = false
                    | [] => True
                    end).
    { intros r Hr. rewrite Hr in IH.
      destruct IH as (before & ds & after & -> & H).
      exists (c1 :: before), ds, after. split; [reflexivity | exact H]. }
    cbn [search_xx_digits].
    destruct l as [|c2 r].
    { intros [|? [|? ?]] c after H; discriminate H. }
    destruct (PyStr.eqc c1 "x" && PyStr.eqc c2 "x")%bool eqn:Hxx.
    + apply andb_true_iff in Hxx as [H1 H2].
      apply Ascii.eqb_eq in H1, H2. subst c1 c2.
      pose proof (span_digits_parts r) as (S1 & S2 & S3).
      destruct (PyStr.span_digits r) as [[|d ds] rest]; cbn in S1, S2, S3.
      * destruct (search_xx_digits ("x"%char :: r)) as [found|] eqn:Hs.
        -- apply Hsome. reflexivity.
        -- apply Hrec; [reflexivity|].
           intros c after H. injection H as H.
           rewrite <- S1, H in S3. exact S3.
      * exists [], (d :: ds), rest. cbn.
        split; [rewrite S1; reflexivity|]. split; [reflexivity|].
        split; [discriminate|]. split; [exact S2 | exact S3].
    + destruct (search_xx_digits (c2 :: r)) as [found|] eqn:Hs.
      * apply Hsome. reflexivity.
      * apply Hrec; [reflexivity|].
        intros c after H. injection H as -> -> _. discriminate Hxx.
Qed.

(** X10.  A cleaned description is made of the words of the text, once
    the quotes are stripped from its ends, with one space between two
    words: it has no whitespace at its ends, and no whitespace but single
    spaces.  What is not a text is cleaned to the empty text. *)
Theorem X10_clean_description_words (description : cell) :
  let cleaned := clean_description description in
  match description with
  | Text s =>
      PyStr.split_ws cleaned = PyStr.split_ws (PyStr.strip_char PyStr.dquote s)
  | Number _ => cleaned = ""
  end
  /\ Forall word (PyStr.split_ws cleaned)
  /\ PyStr.join " " (PyStr.split_ws cleaned) = cleaned.
Proof.
  destruct description as [s|x]; cbn zeta.
  - unfold clean_description.
    set (ws := PyStr.split_ws (PyStr.strip_char PyStr.dquote s)).
    assert (Hws : Forall word ws)
      by (apply split_ws_aux_words; constructor).
    rewrite (split_ws_join ws Hws). auto.
  - repeat split. constructor.
Qed.

(** X11.  The category of a description is the first category of the
    table, in the order of the table, one of whose keywords occurs in the
    description, letter case apart, and ['uncategorized'] when there is
    none; a description is a transfer exactly when one of the five
    transfer keywords occurs in it, letter case apart.  Neither depends
    on the case of the letters of the description. *)
Theorem X11_first_category_mentioned
  (categories : list (string * list string)) (description : string) :
  (forall before category keywords after,
      categories = (before ++ (category, keywords) :: after)%list ->
      Forall (fun ck => ~ mentions (snd ck) description) before ->
      mentions keywords description ->
      categorize_transaction categories description = category)
  /\ (Forall (fun ck => ~ mentions (snd ck) description) categories ->
      categorize_transaction categories description = "uncategorized")
  /\ (is_transfer description = true
      <-> mentions transfer_keywords description)
  /\ categorize_transaction categories (PyStr.upper description)
     = categorize_transaction categories description
  /\ is_transfer (PyStr.upper description) = is_transfer description.
Proof.
  split; [|split; [|split; [|split]]].
  - intros before category keywords after -> Hbefore Hk.
    unfold categorize_transaction.
    induction before as [|[c ks] before IH]; cbn.
    + apply existsb_mentions in Hk. rewrite Hk. reflexivity.
    + inversion Hbefore as [|? ? Hno Hrest]; subst. cbn in Hno.
      destruct (existsb _ ks) eqn:E.
      * exfalso. apply Hno, existsb_mentions, E.
      * apply IH, Hrest.
  - intros Hnone. unfold categorize_transaction.
    induction categories as [|[c ks] cats IH]; cbn; [reflexivity|].
    inversion Hnone as [|? ? Hno Hrest]; subst. cbn in Hno.
    destruct (existsb _ ks) eqn:E.
    + exfalso. apply Hno, existsb_mentions, E.
    + apply IH, Hrest.
  - unfold is_transfer. apply existsb_mentions.
  - unfold categorize_transaction. rewrite upper_idempotent. reflexivity.
  - unfold is_transfer. rewrite upper_idempotent. reflexivity.
Qed.

(** X12.  The account reference of a description, when there is one, is
    a part of the description made of ["xx"] and of all the digits that
    follow, one or more.  There is none exactly when no ["xx"] of the
    description is followed by a digit. *)
Theorem X12_account_reference_shape (description : string) :
  match extract_account_reference description with
  | Some reference =>
      exists before digits after,
        description = before ++ "xx" ++ digits ++ after
        /\ reference = "xx" ++ digits
        /\ digits <> ""
        /\ Forall (fun c => PyStr.is_digit c = true) (PyStr.chars digits)
        /\ forall c rest, after = String c rest -> PyStr.is_digit c = false
  | None =>
      forall before c after,
        description = before ++ "xx" ++ String c after ->
        PyStr.is_digit c = false
  end.
Proof.
  unfold extract_account_reference.
  pose proof (search_xx_digits_spec (PyStr.chars description)) as H.
  destruct (search_xx_digits (PyStr.chars description)) as [r|]; cbn.
  - destruct H as (before & ds & after & Hl & -> & Hne & Hds & Hafter).
    exists (PyStr.str before), (PyStr.str ds), (PyStr.str after).
    split; [|split; [reflexivity|split; [|split]]].
    + rewrite <- (str_chars description), Hl.
      rewrite str_app. f_equal.
      change (PyStr.str ("x"%char :: "x"%char :: ds ++ after)%list)
        with ("xx" ++ PyStr.str (ds ++ after)%list).
      rewrite str_app. reflexivity.
    + intros E. apply Hne. apply str_nil_iff, E.
    + rewrite chars_str. exact Hds.
    + intros c rest E. destruct after as [|c' after]; [discriminate E|].
      injection E as -> _. exact Hafter.
  - intros before c after E.
    apply (H (PyStr.chars before) c (PyStr.chars after)).
    rewrite E, !chars_app. reflexivity.
Qed.

(* ===================================================================== *)
(** ** Export, transaction by transaction *)
(* ===================================================================== *)












(* ===================================================================== *)
(** ** The verifier of [TransactionProcessor] *)
(* ===================================================================== *)







Lemma ltb_zero (q : Qc) :
  PyFloat.ltb (Finite q) PyFloat.zero
  = if Qclt_le_dec q (Q2Qc 0) then true else false.
Proof.
  unfold PyFloat.ltb, PyFloat.zero, PyFloat.of_Z.
  cbn [PyFloat.cmp]. change (Q2Qc (inject_Z 0)) with (Q2Qc 0).
  destruct (Qclt_le_dec q (Q2Qc 0)) as [H | H].
  - assert (E : (q ?= Q2Qc 0)%Qc = Lt) by (apply Qclt_alt; exact H).
    rewrite E. reflexivity.
  - destruct (q ?= Q2Qc 0)%Qc eqn:E; try reflexivity.
    exfalso. apply (Qcle_not_lt _ _ H). apply Qclt_alt. exact E.
Qed.





(* ===================================================================== *)
(** ** [FileLoader] *)
(* ===================================================================== *)

Lemma read_rows_complete (account_id : string) (rows : list (list string))
  (acc : list loaded_row) :
  Forall (fun row => (3 <= length row)%nat) rows ->
  exists new,
    FileLoader.read_rows account_id rows acc = inr (acc ++ new)%list
    /\ Forall2 (read_as account_id) (List.filter kept_row rows) new.
Proof.
  intros H. revert acc. induction H as [|row rows Hrow _ IH]; intros acc.
  - exists []. split; [cbn; rewrite app_nil_r; reflexivity | constructor].
  - destruct row as [|c0 [|c1 [|c2 rest]]]; cbn in Hrow; try lia.
    cbn [FileLoader.read_rows List.filter kept_row].
    destruct (PyFloat.neb (parse_amount (Text c1)) PyFloat.zero).
    + destruct (IH (acc ++ [mk_loaded_row (parse_date c0)
                              (parse_amount (Text c1)) c2 account_id])%list)
        as (new & Hrun & Hnew).
      eexists (_ :: new). split.
      * rewrite Hrun, <- app_assoc. reflexivity.
      * constructor; [|exact Hnew].
        exists c0, c1, c2, rest. cbn. auto.
    + apply IH.
Qed.

Lemma read_rows_short (account_id : string) (rows : list (list string))
  (acc : list loaded_row) :
  Exists (fun row => (length row < 3)%nat) rows ->
  FileLoader.read_rows account_id rows acc = inl FileLoader.IndexError.
Proof.
  intros H. revert acc. induction H as [row rows Hrow | row rows _ IH];
    intros acc.
  - destruct row as [|c0 [|c1 [|c2 rest]]]; try reflexivity.
    cbn in Hrow. lia.
  - destruct row as [|c0 [|c1 [|c2 rest]]]; try reflexivity.
    cbn [FileLoader.read_rows].
    destruct (PyFloat.neb _ _); apply IH.
Qed.

Lemma load_credit_card_bank_account (file : option (list (list string)))
  (file_path account_id : string) :
  FileLoader.load_bank_account file file_path account_id
  = FileLoader.load_credit_card file file_path account_id.
Proof. reflexivity. Qed.






(** X15.  A loader of [FileLoader] returns all the rows of a file or
    none.  The first row is skipped, whatever it holds.  When every other
    row has three cells or more, the loader returns one row for each of
    them whose amount is not zero, in the order of the file, with the
    description as it stands in the file, and prints nothing.  When one
    of them is shorter (a blank line of the file is enough), when the file
    is empty or when it cannot be opened, the loader returns the empty
    list and prints an error.  [load_bank_account] and [load_credit_card]
    do the same. *)
Theorem X15_file_loader_all_or_nothing (file : option (list (list string)))
  (file_path account_id : string) :
  FileLoader.load_bank_account file file_path account_id
  = FileLoader.load_credit_card file file_path account_id
  /\ match file with
     | None =>
         FileLoader.load_credit_card file file_path account_id
         = ([], Some (file_path, FileLoader.OSError))
     | Some [] =>
         FileLoader.load_credit_card file file_path account_id
         = ([], Some (file_path, FileLoader.StopIteration))
     | Some (header :: rows) =>
         (Forall (fun row => (3 <= length row)%nat) rows ->
          exists transactions,
            FileLoader.load_credit_card file file_path account_id
            = (transactions, None)
            /\ Forall2 (read_as account_id) (List.filter kept_row rows)
                 transactions)
         /\ (Exists (fun row => (length row < 3)%nat) rows ->
             FileLoader.load_credit_card file file_path account_id
             = ([], Some (file_path, FileLoader.IndexError)))
     end.
Proof.
  split; [reflexivity|].
  destruct file as [[|header rows]|]; try reflexivity.
  split.
  - intros H. destruct (read_rows_complete account_id rows [] H)
      as (new & Hrun & Hnew).
    exists new. split; [|exact Hnew].
    unfold FileLoader.load_credit_card. rewrite Hrun. reflexivity.
  - intros H. unfold FileLoader.load_credit_card.
    rewrite (read_rows_short account_id rows [] H). reflexivity.
Qed.

(** X16.  The two families of loaders agree on a well-formed file.  When
    the first row of a file is one that
    [EnhancedDoubleEntryAccountingSystem] drops (fewer than three cells,
    or an amount cell that parses to 0, as a header) and every other row
    has three cells or more, [FileLoader] returns as many rows as
    [EnhancedDoubleEntryAccountingSystem] appends transactions, in the
    same order, with the same dates, amounts and accounts; the
    transaction carries the cleaned description of the row. *)
Theorem X16_loaders_agree (header : list string) (rows : list (list string))
  (file_path account : string) (with_balance : bool) (self : processor)
  (w : env) :
  kept_row header = false ->
  Forall (fun row => (3 <= length row)%nat) rows ->
  exists transactions new,
    FileLoader.load_credit_card (Some (header :: rows)) file_path account
    = (transactions, None)
    /\ for_each (header :: rows)
         (EnhancedDoubleEntryAccountingSystem.load_row with_balance file_path
            account) self w
       = Return tt
           (set_raw_transactions (raw_transactions self ++ new)%list self) w
    /\ Forall2 same_row transactions new.
Proof.
  intros Hheader Hrows.
  destruct (read_rows_complete account rows [] Hrows) as (ts & Hread & Hts).
  destruct (load_rows_spec with_balance (header :: rows) file_path account
              self w) as (new & Hrun & Hnew).
  exists ts, new. split; [|split; [exact Hrun|]].
  - unfold FileLoader.load_credit_card. rewrite Hread. reflexivity.
  - cbn [List.filter] in Hnew. rewrite Hheader in Hnew.
    revert Hts Hnew. generalize (List.filter kept_row rows). clear.
    intros l Hts. revert new. induction Hts as [|row r l ts Hr _ IH];
      intros new Hnew; inversion Hnew as [|? t ? new' Ht Hrest]; subst;
      constructor; [|apply IH, Hrest].
    destruct Hr as (c0 & c1 & c2 & rest & -> & Hd & Ha & Hdesc & Hid).
    destruct Ht as (c0' & c1' & c2' & rest' & E & _ & Hacc & Hd' & Ha'
                    & Hdesc' & _).
    injection E as <- <- <- <-.
    unfold same_row. rewrite Hd, Ha, Hdesc, Hid, Hd', Ha', Hdesc', Hacc.
    auto.
Qed.

(** A witness of X16: a file of a header, a purchase and a blank amount. *)
Lemma X16_witness :
  let header := ["Date"; "Amount"; "Description"] in
  let rows := [["01/03/2024"; "-45.00"; "  WOOLWORTHS   1234 "];
               ["02/03/2024"; ""; "PENDING"]] in
  let self := loaded EnhancedSystemClass [] in
  kept_row header = false
  /\ Forall (fun row => (3 <= length row)%nat) rows
  /\ exists transactions new,
      FileLoader.load_credit_card (Some (header :: rows)) "CBA_CC.csv"
        "credit_card"
      = (transactions, None)
      /\ for_each (header :: rows)
           (EnhancedDoubleEntryAccountingSystem.load_row false "CBA_CC.csv"
              "credit_card") self (world "id-" a_day_in_2025)
         = Return tt
             (set_raw_transactions (raw_transactions self ++ new)%list self)
             (world "id-" a_day_in_2025)
      /\ Forall2 same_row transactions new.
Proof.
  intros header rows self.
  assert (H1 : kept_row header = false) by reflexivity.
  assert (H2 : Forall (fun row => (3 <= length row)%nat) rows)
    by (repeat constructor).
  split; [exact H1|]. split; [exact H2|].
  apply (X16_loaders_agree header rows "CBA_CC.csv" "credit_card" false self
           (world "id-" a_day_in_2025) H1 H2).
Defined.



(* ===================================================================== *)
(** ** The balance of an account *)
(* ===================================================================== *)




(* ===================================================================== *)
(** ** Chronological order *)
(* ===================================================================== *)

Lemma sort_keys_parsed {A} (date_of : A -> pydate) (l : list A)
  (self : processor) (w : env) :
  Forall (fun x => parsed (date_of x)) l ->
  map_M (fun x => date_sort_key (date_of x)) l self w
  = Return (map (fun x => date_key (date_of x)) l) self w.
Proof.
  induction 1 as [|x l Hx _ IH]; [reflexivity|].
  cbn [map_M map]. unfold bind at 1.
  destruct (date_of x) as [d|s]; [|destruct Hx]. cbn.
  unfold bind at 1. rewrite IH. reflexivity.
Qed.

Lemma insert_sorted_in_order {A} (k : Z) (x : A) (l : list (Z * A)) :
  in_order fst l -> in_order fst (insert_sorted k x l).
Proof.
  induction l as [|[k' y] l IH]; intros Hl; cbn [insert_sorted].
  - cbn. split; [constructor | exact I].
  - destruct Hl as [Hhead Htail].
    destruct (k <? k') eqn:Hk.
    + apply Z.ltb_lt in Hk. cbn. split; [|split; assumption].
      constructor; [cbn; lia|].
      eapply Forall_impl; [exact Hhead|]. cbn. intros p Hp. lia.
    + apply Z.ltb_ge in Hk. cbn. split; [|apply IH, Htail].
      apply Forall_forall. intros p Hp.
      rewrite (insert_sorted_Permutation k x l) in Hp.
      apply elem_of_cons in Hp as [-> | Hp]; [cbn; lia|].
      rewrite Forall_forall in Hhead. apply Hhead, Hp.
Qed.

Lemma insert_sorted_last {A} (k : Z) (x : A) (l : list (Z * A)) :
  Forall (fun p => fst p <= k) l -> insert_sorted k x l = (l ++ [(k, x)])%list.
Proof.
  induction 1 as [|[k' y] l Hy _ IH]; [reflexivity|].
  cbn [insert_sorted]. cbn in Hy.
  destruct (k <? k') eqn:Hk; [apply Z.ltb_lt in Hk; lia|].
  rewrite IH. reflexivity.
Qed.

(** [sorted] puts the elements in the order of their keys, and leaves a
    list that is in order as it is. *)
Lemma sorted_by_key_in_order {A} (key : A -> Z) (l : list A) :
  in_order key (sorted_by_key (zip (map key l) l))
  /\ (in_order key l -> sorted_by_key (zip (map key l) l) = l).
Proof.
  unfold sorted_by_key.
  assert (Hfold : forall (l : list A) (acc : list (Z * A)),
             in_order fst acc ->
             Forall (fun p => fst p = key (snd p)) acc ->
             let out :=
               fold_left (fun acc kx => insert_sorted (fst kx) (snd kx) acc)
                 (zip (map key l) l) acc in
             in_order fst out /\ Forall (fun p => fst p = key (snd p)) out).
  { clear l. induction l as [|x l IH]; intros acc Hacc Hkeys;
      [split; assumption|].
    cbn [map zip zip_with fold_left fst snd]. apply IH.
    - apply insert_sorted_in_order, Hacc.
    - apply Forall_forall. intros p Hp.
      rewrite (insert_sorted_Permutation (key x) x acc) in Hp.
      apply elem_of_cons in Hp as [-> | Hp]; [reflexivity|].
      rewrite Forall_forall in Hkeys. apply Hkeys, Hp. }
  assert (Hmap : forall out : list (Z * A),
             in_order fst out -> Forall (fun p => fst p = key (snd p)) out ->
             in_order key (map snd out)).
  { induction out as [|p out IH]; intros Ho Hk; [exact I|].
    destruct Ho as [Hhead Htail].
    inversion Hk as [|? ? Hp Hrest]; subst.
    cbn [map in_order]. split; [|apply IH; assumption].
    apply Forall_forall. intros y Hy.
    apply list_elem_of_fmap in Hy as (q & -> & Hq).
    rewrite Forall_forall in Hhead, Hrest.
    rewrite <- Hp, <- (Hrest q Hq). apply Hhead, Hq. }
  split.
  - destruct (Hfold l [] I (Forall_nil_2 _)) as [H1 H2].
    apply Hmap; assumption.
  - intros Hl.
    assert (Hsame : forall (l : list A) (acc : list (Z * A)),
               in_order key l ->
               Forall (fun p => Forall (fun y => fst p <= key y) l) acc ->
               fold_left (fun acc kx => insert_sorted (fst kx) (snd kx) acc)
                 (zip (map key l) l) acc
               = (acc ++ zip (map key l) l)%list).
    { clear. induction l as [|x l IH]; intros acc Hl Hacc.
      - cbn. rewrite app_nil_r. reflexivity.
      - destruct Hl as [Hhead Htail].
        cbn [map zip zip_with fold_left fst snd].
        rewrite insert_sorted_last.
        + rewrite IH; [rewrite <- app_assoc; reflexivity | exact Htail|].
          apply Forall_app. split.
          * eapply Forall_impl; [exact Hacc|]. intros p Hp.
            inversion Hp; assumption.
          * constructor; [exact Hhead | constructor].
        + eapply Forall_impl; [exact Hacc|]. intros p Hp.
          inversion Hp; assumption. }
    rewrite (Hsame l [] Hl (Forall_nil_2 _)). cbn [app].
    change (map snd (zip (map key l) l)) with ((zip (map key l) l).*2).
    rewrite snd_zip; [reflexivity|]. rewrite length_map. lia.
Qed.

Lemma in_order_sublist {A} (key : A -> Z) (l1 l2 : list A) :
  sublist l1 l2 -> in_order key l2 -> in_order key l1.
Proof.
  induction 1 as [|x l1 l2 Hsub IH|x l1 l2 Hsub IH]; intros H.
  - exact I.
  - destruct H as [Hhead Htail]. split; [|apply IH, Htail].
    apply Forall_forall. intros y Hy.
    rewrite Forall_forall in Hhead.
    apply Hhead. eapply elem_of_sublist; eassumption.
  - destruct H as [_ Htail]. apply IH, Htail.
Qed.

Lemma in_order_Forall2 {A B} (R : A -> B -> Prop) (key1 : A -> Z)
  (key2 : B -> Z) (l1 : list A) (l2 : list B) :
  (forall x y, R x y -> key1 x = key2 y) ->
  Forall2 R l1 l2 -> in_order key1 l1 -> in_order key2 l2.
Proof.
  intros HR. induction 1 as [|x y l1 l2 Hxy Hrest IH]; intros H; [exact I|].
  destruct H as [Hhead Htail]. split; [|apply IH, Htail].
  rewrite <- (HR x y Hxy).
  clear IH Htail. induction Hrest as [|x' y' l1' l2' Hxy' _ IH'];
    [constructor|].
  inversion Hhead; subst. constructor; [|apply IH'; assumption].
  rewrite <- (HR x' y' Hxy'). assumption.
Qed.

Lemma map_positions {A B} (f : A -> B) (d : B) (l : list A) :
  map (fun j => match l !! j with Some x => f x | None => d end)
    (seq 0 (length l))
  = map f l.
Proof.
  apply list_eq. intros i. rewrite !list_lookup_fmap.
  destruct (l !! i) as [x|] eqn:Hi.
  - rewrite lookup_seq_lt by (eapply lookup_lt_Some; exact Hi).
    cbn. rewrite Hi. reflexivity.
  - rewrite lookup_seq_ge by (apply lookup_ge_None; exact Hi).
    reflexivity.
Qed.

(** X20.  Balance replay goes through the journal in the order of the
    dates.  When every date of the journal parsed, the replay reads no
    clock and prints nothing, and the transactions that it appends are
    those of the journal put in the order of their dates, records of the
    same date staying in the order of the journal; a journal that is
    already in the order of its dates is replayed as it stands. *)
Theorem X20_replay_in_date_order (self : processor) (w : env) :
  Forall (fun r => parsed (pt_date r)) (processed_transactions self) ->
  exists self' ordered new,
    update_account_balances self w = Return tt self' w
    /\ ordered ≡ₚ processed_transactions self
    /\ in_order (fun r => date_key (pt_date r)) ordered
    /\ (in_order (fun r => date_key (pt_date r))
          (processed_transactions self) ->
        ordered = processed_transactions self)
    /\ unified_transactions self'
       = (unified_transactions self ++ new)%list
    /\ Forall2 (replayed_as (accounts self)) ordered new.
Proof.
  intros Hparsed.
  destruct (update_account_balances_spec self w)
    as (keys & w' & Hlen & Hkeys & self' & new & Hrun & _ & _ & Hu & Hnew).
  specialize (Hkeys self).
  rewrite (sort_keys_parsed pt_date _ self w Hparsed) in Hkeys.
  inversion Hkeys; subst keys w'. clear Hkeys.
  exists self',
    (sorted_by_key
       (zip (map (fun r => date_key (pt_date r))
               (processed_transactions self))
          (processed_transactions self))),
    new.
  split; [exact Hrun|].
  split; [apply sorted_by_key_zip_Permutation, Hlen|].
  destruct (sorted_by_key_in_order (fun r => date_key (pt_date r))
              (processed_transactions self)) as [Hord Hsame].
  split; [exact Hord|]. split; [exact Hsame|].
  split; [exact Hu | exact Hnew].
Qed.

(** A witness of X20: a journal of two records, the later one first. *)
Lemma X20_witness :
  let later :=
    mk_processed "r-2" (Date (PyDatetime.midnight 2024 3 2)) "LATER"
      "dining" [] in
  let self :=
    set_processed_transactions [later; lopsided_record]
      (loaded EnhancedSystemClass []) in
  Forall (fun r => parsed (pt_date r)) (processed_transactions self)
  /\ exists self' ordered new,
      update_account_balances self (world "id-" a_day_in_2025)
      = Return tt self' (world "id-" a_day_in_2025)
      /\ ordered ≡ₚ processed_transactions self
      /\ in_order (fun r => date_key (pt_date r)) ordered
      /\ (in_order (fun r => date_key (pt_date r))
            (processed_transactions self) ->
          ordered = processed_transactions self)
      /\ unified_transactions self'
         = (unified_transactions self ++ new)%list
      /\ Forall2 (replayed_as (accounts self)) ordered new.
Proof.
  intros later self.
  assert (H : Forall (fun r => parsed (pt_date r))
                (processed_transactions self)).
  { constructor; [exact I|]. constructor; [exact I | constructor]. }
  split; [exact H|].
  apply (X20_replay_in_date_order self (world "id-" a_day_in_2025) H).
Defined.

(** X21.  Journal building goes through the pool in the order of the
    dates.  When every date of the pool parsed and journal building
    returns, each new record carries the date, the description and the
    category of a row of the pool, and the new records stand in the
    journal in the order of their dates. *)
Theorem X21_journal_in_date_order (self self' : processor) (w w' : env) :
  Forall (fun t => parsed (tx_date t)) (raw_transactions self) ->
  process_raw_transactions self w = Return tt self' w' ->
  exists new,
    processed_transactions self'
    = (processed_transactions self ++ new)%list
    /\ Forall (fun r => exists j, from_row self j r) new
    /\ in_order (fun r => date_key (pt_date r)) new.
Proof.
  intros Hparsed Hrun.
  unfold process_raw_transactions, bind at 1, get_self in Hrun.
  unfold bind at 1, sorted_positions, bind at 1 in Hrun.
  rewrite (sort_keys_parsed tx_date _ self w Hparsed) in Hrun.
  cbn [ret] in Hrun.
  set (pos_key := fun j => match raw_transactions self !! j with
                           | Some t => date_key (tx_date t)
                           | None => 0
                           end).
  rewrite <- (map_positions (fun t => date_key (tx_date t)) 0) in Hrun.
  fold pos_key in Hrun.
  set (ps := sorted_by_key _) in Hrun.
  pose proof (for_each_tracks ps self w) as H. rewrite Hrun in H.
  destruct H as (_ & _ & new & Hp & _ & _ & js & Hjs & Hrows).
  exists new. split; [exact Hp|]. split.
  - clear -Hrows. induction Hrows as [|j r js new Hr _ IH];
      constructor; [exists j; exact Hr | exact IH].
  - destruct (sorted_by_key_in_order pos_key
                (seq 0 (length (raw_transactions self)))) as [Hord _].
    fold ps in Hord.
    eapply (in_order_Forall2 (from_row self) pos_key); [|exact Hrows|].
    + intros j r (t & Hj & Hd & _). unfold pos_key. rewrite Hj, Hd.
      reflexivity.
    + eapply in_order_sublist; eassumption.
Qed.

(** A witness of X21: the pool of the transfer scenario, the later row
    first. *)
Lemma X21_witness :
  let self := loaded TransactionProcessorClass
                [row_B "Payment received" "income";
                 row_A "Transfer to xx5784" "transfers"] in
  Forall (fun t => parsed (tx_date t)) (raw_transactions self)
  /\ exists self' w',
      process_raw_transactions self (world "id-" a_day_in_2025)
      = Return tt self' w'
      /\ exists new,
          processed_transactions self'
          = (processed_transactions self ++ new)%list
          /\ Forall (fun r => exists j, from_row self j r) new
          /\ in_order (fun r => date_key (pt_date r)) new.
Proof.
  intros self.
  assert (H : Forall (fun t => parsed (tx_date t)) (raw_transactions self)).
  { constructor; [exact I|]. constructor; [exact I | constructor]. }
  split; [exact H|].
  destruct (run_unit process_raw_transactions self
              (world "id-" a_day_in_2025) (fun _ _ => True))
    as (self' & w' & Hrun & _); [vm_compute; exact I|].
  exists self', w'. split; [exact Hrun|].
  apply (X21_journal_in_date_order self self' _ w' H Hrun).
Defined.

(* ===================================================================== *)
(** ** The amounts of the journal *)
(* ===================================================================== *)

Lemma journal_amount_abs (t : raw_transaction) :
  journal_amount t = PyFloat.abs (tx_amount t).
Proof.
  unfold journal_amount.
  destruct (tx_amount t) as [q| | |]; try reflexivity.
  rewrite ltb_zero.
  destruct (Qclt_le_dec q (Q2Qc 0)) as [H | H]; [reflexivity|].
  cbn. rewrite (Qcabs_pos q H). reflexivity.
Qed.

(** X22.  The journal holds no negative amount.  When journal building
    returns, every new record has no entry or two, and each of its
    entries carries the absolute value of the amount of the row of the
    pool that the record was built from, whose date, description and
    category it has. *)
Theorem X22_entries_carry_absolute_amount (self self' : processor)
  (w w' : env) :
  process_raw_transactions self w = Return tt self' w' ->
  exists new,
    processed_transactions self'
    = (processed_transactions self ++ new)%list
    /\ Forall
         (fun r =>
            exists t,
              unflag t ∈ map unflag (raw_transactions self)
              /\ pt_date r = tx_date t
              /\ pt_description r = tx_description t
              /\ pt_category r = tx_category t
              /\ (length (pt_entries r) = 0%nat
                  \/ length (pt_entries r) = 2%nat)
              /\ Forall (fun e => e_amount e = PyFloat.abs (tx_amount t))
                   (pt_entries r))
         new.
Proof.
  intros Hrun.
  pose proof (process_raw_transactions_cases self w) as H.
  rewrite Hrun in H. destruct H as (new & (_ & _ & _ & _ & Hp & _) & Hnew).
  exists new. split; [exact Hp|].
  eapply Forall_impl; [exact Hnew|].
  intros r (t & a & Ht & _ & Hd & Hdesc & Hcat & He).
  exists t. repeat (split; [assumption|]).
  assert (Hpair : forall da ca,
             pt_entries r = [mk_entry da (journal_amount t) DEBIT;
                             mk_entry ca (journal_amount t) CREDIT] ->
             (length (pt_entries r) = 0%nat \/ length (pt_entries r) = 2%nat)
             /\ Forall (fun e => e_amount e = PyFloat.abs (tx_amount t))
                  (pt_entries r)).
  { intros da ca ->. split; [right; reflexivity|].
    rewrite journal_amount_abs.
    apply Forall_cons_2; [reflexivity|].
    apply Forall_cons_2; [reflexivity | apply Forall_nil_2]. }
  assert (Hnone : pt_entries r = [] ->
             (length (pt_entries r) = 0%nat \/ length (pt_entries r) = 2%nat)
             /\ Forall (fun e => e_amount e = PyFloat.abs (tx_amount t))
                  (pt_entries r)).
  { intros ->. split; [left; reflexivity | apply Forall_nil_2]. }
  unfold entries_as_constructed in He.
  destruct (acct_type a); try exact (Hnone He);
    destruct He as (da & ca & He); exact (Hpair da ca He).
Qed.

(** A witness of X22: the pool of the transfer scenario. *)
Lemma X22_witness :
  let self := loaded TransactionProcessorClass
                [row_A "Transfer to xx5784" "transfers";
                 row_B "Payment received" "income"] in
  exists self' w',
    process_raw_transactions self (world "id-" a_day_in_2025)
    = Return tt self' w'
    /\ exists new,
        processed_transactions self'
        = (processed_transactions self ++ new)%list
        /\ Forall
             (fun r =>
                exists t,
                  unflag t ∈ map unflag (raw_transactions self)
                  /\ pt_date r = tx_date t
                  /\ pt_description r = tx_description t
                  /\ pt_category r = tx_category t
                  /\ (length (pt_entries r) = 0%nat
                      \/ length (pt_entries r) = 2%nat)
                  /\ Forall
                       (fun e => e_amount e = PyFloat.abs (tx_amount t))
                       (pt_entries r))
             new.
Proof.
  intros self.
  destruct (run_unit process_raw_transactions self
              (world "id-" a_day_in_2025) (fun _ _ => True))
    as (self' & w' & Hrun & _); [vm_compute; exact I|].
  exists self', w'. split; [exact Hrun|].
  apply (X22_entries_carry_absolute_amount self self' _ w' Hrun).
Defined.
